(** * MagicTunnel capability-manifest migration and validation

  A shallow embedding of
    - [tools/migration/migrate_yaml_to_enhanced.py] (class [YamlMigrationTool])
    - [tools/validation/validate_yaml_migration.py] (class [YamlMigrationValidator])
  together with the properties of the two pipelines.

  Layout: Part I holds the embedding (a small model of the Python values
  the YAML loader produces, then one module per class, then the one method
  that assigns into its argument, on a store of objects); Part II holds the
  predicates and sample inputs the properties are stated with; Part III
  holds the lemmas and theorems. *)

From Stdlib Require Import String Ascii ZArith List Bool Lia DecimalString.
From stdpp Require Import base list strings.
Import ListNotations.
Local Open Scope string_scope.
Local Open Scope list_scope.
Set Warnings "-register-all".

(* ===================================================================== *)
(** * Part I -- the embedding                                             *)
(* ===================================================================== *)

(** ** Python strings

  A [str] is modelled as a Rocq [string] (a sequence of bytes).  Case
  mapping follows Python on ASCII; bytes above 127 are left alone. *)
Module PyStr.

Definition is_upper (c : ascii) : bool :=
  let n := nat_of_ascii c in (65 <=? n)%nat && (n <=? 90)%nat.

Definition is_lower (c : ascii) : bool :=
  let n := nat_of_ascii c in (97 <=? n)%nat && (n <=? 122)%nat.

Definition lower_char (c : ascii) : ascii :=
  if is_upper c then ascii_of_nat (nat_of_ascii c + 32) else c.

Definition upper_char (c : ascii) : ascii :=
  if is_lower c then ascii_of_nat (nat_of_ascii c - 32) else c.

(** [s.lower()] *)
Fixpoint lower (s : string) : string :=
  match s with
  | EmptyString => EmptyString
  | String c t => String (lower_char c) (lower t)
  end.

(** [s.startswith(p)] *)
Fixpoint startswith (s p : string) : bool :=
  match p, s with
  | EmptyString, _ => true
  | String a p', String b s' => Ascii.eqb a b && startswith s' p'
  | String _ _, EmptyString => false
  end.

(** [needle in hay] for two strings: [needle] occurs as a substring. *)
Fixpoint contains (needle hay : string) : bool :=
  startswith hay needle
  || match hay with
     | EmptyString => false
     | String _ t => contains needle t
     end.

(** [any(word in s for word in words)] *)
Definition any_in (words : list string) (s : string) : bool :=
  existsb (fun word => contains word s) words.

(** [s.replace(a, b)] for one-character [a] and [b]. *)
Fixpoint replace_char (a b : ascii) (s : string) : string :=
  match s with
  | EmptyString => EmptyString
  | String c t => String (if Ascii.eqb c a then b else c) (replace_char a b t)
  end.

(** [s.title()]: a cased character is upper-cased when the character
    before it is not cased, lower-cased otherwise. *)
Fixpoint title_from (prev_cased : bool) (s : string) : string :=
  match s with
  | EmptyString => EmptyString
  | String c t =>
      let cased := is_upper c || is_lower c in
      String (if prev_cased then lower_char c else upper_char c)
             (title_from cased t)
  end.

Definition title (s : string) : string := title_from false s.

(** [sep.join(parts)] *)
Definition join (sep : string) (parts : list string) : string :=
  String.concat sep parts.

(** Every character of [s], as one-character strings (iterating a [str]). *)
Fixpoint chars (s : string) : list string :=
  match s with
  | EmptyString => []
  | String c t => String c EmptyString :: chars t
  end.

Definition hex_digit (n : nat) : ascii :=
  ascii_of_nat (if (n <? 10)%nat then 48 + n else 87 + n).

(** One character of [repr(s)] with quote character [q]. *)
Definition repr_char (q c : ascii) : string :=
  let n := nat_of_ascii c in
  if Ascii.eqb c q || Ascii.eqb c "\"%char then String "\" (String c EmptyString)
  else if (n =? 9)%nat then "\t"
  else if (n =? 10)%nat then "\n"
  else if (n =? 13)%nat then "\r"
  else if (n <? 32)%nat || (n =? 127)%nat then
    String "\" (String "x" (String (hex_digit (n / 16))
                           (String (hex_digit (n mod 16)) EmptyString)))
  else String c EmptyString.

Fixpoint repr_body (q : ascii) (s : string) : string :=
  match s with
  | EmptyString => EmptyString
  | String c t => repr_char q c ++ repr_body q t
  end.

Definition squote : ascii := ascii_of_nat 39.
Definition dquote : ascii := ascii_of_nat 34.

Fixpoint has_char (c : ascii) (s : string) : bool :=
  match s with
  | EmptyString => false
  | String a t => Ascii.eqb a c || has_char c t
  end.

(** [repr(s)]: single quotes, unless the string holds a single quote and
    no double quote. *)
Definition repr (s : string) : string :=
  let q := if has_char squote s && negb (has_char dquote s)
           then dquote else squote in
  String q (repr_body q s ++ String q EmptyString).

(** [str(n)] for an [int]. *)
Definition of_Z (z : Z) : string := NilZero.string_of_int (Z.to_int z).

End PyStr.

(** ** Python values and exceptions

  What [yaml.safe_load] returns for the documents considered here: [None],
  booleans, integers, strings, lists and mappings with string keys.  A
  mapping keeps its keys in insertion order, as a Python [dict] does, and is
  an association list without repeated keys; lookups take the first entry.
  The tree model is the document without YAML aliases: no two places of a
  tree share an object.  Objects that are shared, and changed in place, are
  modelled separately in [Heap] and [InPlace].

  Two kinds of document are therefore outside the tree model, and no theorem
  on it speaks of them: a mapping with a key that is not a string (YAML has
  them: [1:], or [on:], which loads as [True]), and a document in which an
  alias makes one object the value of two keys. *)
Inductive value : Type :=
| VNone
| VBool (b : bool)
| VInt (z : Z)
| VStr (s : string)
| VList (l : list value)
| VDict (d : list (string * value)).

Inductive exn : Type :=
| AttributeError
| TypeError
| KeyError
| RuntimeError
| FileNotFoundError
| OSError
| YAMLError.

(** The outcome of a call: a returned value or a raised exception. *)
Inductive result (A : Type) : Type :=
| Ok (a : A)
| Raise (e : exn).
Arguments Ok {A} a.
Arguments Raise {A} e.

Module Py.

Definition ret {A} (a : A) : result A := Ok a.

Definition bind {A B} (m : result A) (k : A -> result B) : result B :=
  match m with
  | Ok a => k a
  | Raise e => Raise e
  end.

Declare Scope py_scope.
Delimit Scope py_scope with py.
Notation "x <- m ;; k" := (bind m (fun x => k))
  (at level 100, m at next level, right associativity) : py_scope.

(** [for x in xs: ys.append(f(x))], stopping at the first exception. *)
Fixpoint mapM {A B} (f : A -> result B) (xs : list A) : result (list B) :=
  match xs with
  | [] => Ok []
  | x :: xs' =>
      bind (f x) (fun y => bind (mapM f xs') (fun ys => Ok (y :: ys)))
  end.

(** *** Dictionaries *)

Fixpoint dict_get (d : list (string * value)) (k : string) : option value :=
  match d with
  | [] => None
  | (k', v) :: d' => if String.eqb k' k then Some v else dict_get d' k
  end.

(** [d[k] = v]: replaces the value of an existing key where it stands,
    appends a new key at the end. *)
Fixpoint dict_set (d : list (string * value)) (k : string) (v : value)
  : list (string * value) :=
  match d with
  | [] => [(k, v)]
  | (k', v') :: d' =>
      if String.eqb k' k then (k', v) :: d' else (k', v') :: dict_set d' k v
  end.

Definition dict_has (d : list (string * value)) (k : string) : bool :=
  match dict_get d k with Some _ => true | None => false end.

(** [d[k1][k2]...[kn] = v] along keys that exist and hold dictionaries. *)
Fixpoint dict_set_path (d : list (string * value)) (path : list string)
         (k : string) (v : value) : list (string * value) :=
  match path with
  | [] => dict_set d k v
  | p :: path' =>
      match dict_get d p with
      | Some (VDict inner) => dict_set d p (VDict (dict_set_path inner path' k v))
      | _ => d
      end
  end.

(** *** Operations on arbitrary values *)

(** [bool(v)] *)
Definition truthy (v : value) : bool :=
  match v with
  | VNone => false
  | VBool b => b
  | VInt z => negb (Z.eqb z 0)
  | VStr s => negb (String.eqb s EmptyString)
  | VList l => match l with [] => false | _ => true end
  | VDict d => match d with [] => false | _ => true end
  end.

Definition is_dict (v : value) : bool :=
  match v with VDict _ => true | _ => false end.

Definition is_list (v : value) : bool :=
  match v with VList _ => true | _ => false end.

(** [v == s] for a string literal [s]. *)
Definition eq_str (v : value) (s : string) : bool :=
  match v with VStr s' => String.eqb s' s | _ => false end.

(** [v in names] for a list of string literals. *)
Definition in_strs (v : value) (names : list string) : bool :=
  existsb (eq_str v) names.

(** [v.get(k, default)]: only a dict has [get]. *)
Definition get (v : value) (k : string) (default : value) : result value :=
  match v with
  | VDict d => Ok (match dict_get d k with Some x => x | None => default end)
  | _ => Raise AttributeError
  end.

(** [v.get(k)] *)
Definition get_none (v : value) (k : string) : result value := get v k VNone.

(** [k in v] for a string literal [k]: key test on a dict, element test on
    a list, substring test on a string. *)
Definition has (k : string) (v : value) : result bool :=
  match v with
  | VDict d => Ok (dict_has d k)
  | VList l => Ok (existsb (fun x => eq_str x k) l)
  | VStr s => Ok (PyStr.contains k s)
  | _ => Raise TypeError
  end.

(** [len(v)] *)
Definition len (v : value) : result nat :=
  match v with
  | VDict d => Ok (length d)
  | VList l => Ok (length l)
  | VStr s => Ok (String.length s)
  | _ => Raise TypeError
  end.

(** [iter(v)]: the elements a [for] loop sees. *)
Definition iter (v : value) : result (list value) :=
  match v with
  | VList l => Ok l
  | VDict d => Ok (map (fun kv => VStr (fst kv)) d)
  | VStr s => Ok (map VStr (PyStr.chars s))
  | _ => Raise TypeError
  end.

(** [v.items()] *)
Definition items (v : value) : result (list (string * value)) :=
  match v with
  | VDict d => Ok d
  | _ => Raise AttributeError
  end.

(** [v.lower()], [v.startswith(..)]: only a string has them. *)
Definition as_str (v : value) : result string :=
  match v with
  | VStr s => Ok s
  | _ => Raise AttributeError
  end.

(** [repr(v)] *)
Fixpoint repr (v : value) : string :=
  match v with
  | VNone => "None"
  | VBool true => "True"
  | VBool false => "False"
  | VInt z => PyStr.of_Z z
  | VStr s => PyStr.repr s
  | VList l => "[" +:+ PyStr.join ", " (map repr l) +:+ "]"
  | VDict d =>
      "{" +:+ PyStr.join ", "
                (map (fun kv => PyStr.repr (fst kv) +:+ ": " +:+ repr (snd kv)) d)
          +:+ "}"
  end.

(** [str(v)], also what an f-string field [{v}] prints. *)
Definition str (v : value) : string :=
  match v with
  | VStr s => s
  | _ => repr v
  end.

(** Hashable values: what may be a [set] element or a [dict] key. *)
Definition hashable (v : value) : bool :=
  match v with
  | VList _ | VDict _ => false
  | _ => true
  end.

(** [a == b] on hashable values ([True == 1] and [False == 0]). *)
Definition eq_hashable (a b : value) : bool :=
  match a, b with
  | VNone, VNone => true
  | VStr s, VStr t => String.eqb s t
  | VBool x, VBool y => Bool.eqb x y
  | VInt x, VInt y => Z.eqb x y
  | VBool x, VInt y => Z.eqb (if x then 1 else 0) y
  | VInt x, VBool y => Z.eqb x (if y then 1 else 0)
  | _, _ => false
  end.

(** [list(set(xs))].  Python leaves the order of the result open; the
    model lists the elements in order of first occurrence.  A list or dict
    element raises [TypeError]. *)
Fixpoint dedup (seen : list value) (xs : list value) : list value :=
  match xs with
  | [] => []
  | x :: xs' =>
      if existsb (eq_hashable x) seen then dedup seen xs'
      else x :: dedup (x :: seen) xs'
  end.

Definition list_set (xs : list value) : result (list value) :=
  if forallb hashable xs then Ok (dedup [] xs) else Raise TypeError.

(** First-match lookup in an ordered keyword table:
    [for key, value in table.items(): if key in s: ...; break]. *)
Fixpoint first_match {A} (table : list (string * A)) (s : string) : option A :=
  match table with
  | [] => None
  | (key, a) :: table' =>
      if PyStr.contains key s then Some a else first_match table' s
  end.

End Py.
Import Py.
Local Open Scope py_scope.

(** ** The files the two tools work on

  The file system is reduced to what the pipelines ask of it: whether a
  path exists, which YAML files a directory enumerates, what opening and
  parsing a file gives, and whether creating the backup copy, creating the
  parent directory of the output and writing the output succeed.  The text
  of an exception ([str(e)]) is reduced to the name of its class.  Of the
  console, the two places of [migrate_directory] that no [try] covers are
  kept: the lines it prints before its loop and the line its handler
  prints; console output inside a [try] and in [migrate_file] is taken to
  succeed. *)
Module FS.

Record yaml_file : Type := {
  path : string;                 (* str(yaml_file) *)
  rel_path : string;             (* yaml_file.relative_to(input_path) *)
  stem : string;                 (* Path(..).stem, the file identifier *)
  file_exists : bool;            (* Path(..).exists() *)
  load : result value;           (* open(..) and yaml.safe_load(f) *)
  backup : result unit;          (* shutil.copy2(input_path, backup_path) *)
  parent_mkdir : result unit;    (* output_file.parent.mkdir(..) *)
  write : result unit            (* open(output_path, 'w') and f.write(..) *)
}.

Record directory : Type := {
  dir_path : string;
  dir_exists : bool;             (* Path(..).exists() *)
  yaml_files : list yaml_file;   (* glob of *.yaml then of *.yml *)
  output_mkdir : result unit;    (* output_path.mkdir(..) for an output directory
                                    that does not exist; Ok tt when it exists *)
  print_start : result unit;     (* the three print calls before the loop *)
  print_error : string -> result unit  (* print of error_msg in the handler *)
}.

Definition exn_text (e : exn) : string :=
  match e with
  | AttributeError => "AttributeError"
  | TypeError => "TypeError"
  | KeyError => "KeyError"
  | RuntimeError => "RuntimeError"
  | FileNotFoundError => "FileNotFoundError"
  | OSError => "OSError"
  | YAMLError => "YAMLError"
  end.

End FS.
Import FS.

(* ===================================================================== *)
(** ** [migrate_yaml_to_enhanced.py]                                      *)
(* ===================================================================== *)
Module YamlMigrationTool.

Record MigrationConfig : Type := {
  add_ai_enhancement : bool;
  add_security_sandboxing : bool;
  add_progress_tracking : bool;
  add_comprehensive_monitoring : bool;
  preserve_original : bool;
  create_backup : bool
}.

Definition default_config : MigrationConfig :=
  {| add_ai_enhancement := true; add_security_sandboxing := true;
     add_progress_tracking := true; add_comprehensive_monitoring := true;
     preserve_original := true; create_backup := true |}.

Record MigrationStats : Type := {
  files_processed : nat;
  files_migrated : nat;
  files_skipped : nat;
  errors : list string
}.

(** The object: [self.config] and [self.migration_stats]. *)
Record t : Type := {
  config : MigrationConfig;
  migration_stats : MigrationStats
}.

(** [__init__] *)
Definition init (cfg : MigrationConfig) : t :=
  {| config := cfg;
     migration_stats := {| files_processed := 0; files_migrated := 0;
                           files_skipped := 0; errors := [] |} |}.

Definition tool_security_mapping : list (string * string) :=
  [ ("read_file", "restricted"); ("write_file", "privileged");
    ("delete_file", "dangerous"); ("list_directory", "safe");
    ("execute_command", "dangerous"); ("system_info", "safe");
    ("process_list", "restricted");
    ("http_request", "restricted"); ("ping", "safe");
    ("network_scan", "privileged");
    ("database_query", "privileged"); ("database_write", "dangerous");
    ("default", "restricted") ].

Fixpoint assoc {A} (table : list (string * A)) (k : string) : option A :=
  match table with
  | [] => None
  | (k', a) :: table' => if String.eqb k' k then Some a else assoc table' k
  end.

Definition strs (l : list string) : value := VList (map VStr l).

(** [x or y] on two tests that may raise. *)
Definition por (x y : result bool) : result bool :=
  b <- x ;; if b then Ok true else y.

(** [_is_already_enhanced]: any exception gives [False]. *)
Definition _is_already_enhanced (yaml_file : yaml_file) : bool :=
  let attempt :=
    content <- load yaml_file ;;
    metadata <- get content "metadata" (VDict []) ;;
    por (has "classification" metadata)
      (por (has "discovery_metadata" metadata)
         (por (has "mcp_capabilities" metadata)
            (Ok (PyStr.contains "MCP 2025-06-18" (Py.str content)))))
  in match attempt with
     | Ok b => b
     | Raise _ => false
     end.

Definition domain_mapping : list (string * string) :=
  [ ("file", "filesystem"); ("http", "networking");
    ("database", "data_storage"); ("system", "system_administration");
    ("monitoring", "observability"); ("git", "version_control");
    ("ai", "artificial_intelligence"); ("smart", "artificial_intelligence") ].

Definition use_case_mapping : list (string * list string) :=
  [ ("file", ["file_management"; "data_processing"]);
    ("http", ["api_integration"; "web_services"]);
    ("database", ["data_storage"; "data_retrieval"]);
    ("system", ["system_administration"; "monitoring"]);
    ("monitoring", ["health_monitoring"; "performance_analysis"]);
    ("git", ["version_control"; "code_management"]);
    ("ai", ["intelligent_processing"; "automation"]);
    ("smart", ["intelligent_routing"; "automation"]) ].

(** The security level of [_classify_capability]: an [if]/[elif] chain. *)
Definition security_level_of (file_stem : string) : string :=
  if PyStr.any_in ["admin"; "system"; "root"; "security"] (PyStr.lower file_stem)
  then "privileged"
  else if PyStr.any_in ["file"; "database"; "network"] (PyStr.lower file_stem)
  then "restricted"
  else if PyStr.any_in ["delete"; "remove"; "execute"] (PyStr.lower file_stem)
  then "dangerous"
  else "safe".

Definition complexity_level_of (tools_count : nat) : string :=
  if (10 <? tools_count)%nat then "very_complex"
  else if (5 <? tools_count)%nat then "complex"
  else if (2 <? tools_count)%nat then "moderate"
  else "simple".

(** [_classify_capability]: (security_level, complexity_level, domain,
    use_cases). *)
Definition _classify_capability (file_stem : string) (metadata : value)
  : result (string * string * string * list string) :=
  let security_level := security_level_of file_stem in
  tools <- get metadata "tools" (VList []) ;;
  tools_count <- len tools ;;
  let complexity_level := complexity_level_of tools_count in
  let domain :=
    match first_match domain_mapping (PyStr.lower file_stem) with
    | Some value => value
    | None => "general"
    end in
  let use_cases :=
    match first_match use_case_mapping (PyStr.lower file_stem) with
    | Some value => value
    | None => ["general_purpose"]
    end in
  Ok (security_level, complexity_level, domain, use_cases).

Definition name_keywords : list (string * list string) :=
  [ ("file", ["file"; "read"; "write"; "filesystem"]);
    ("http", ["http"; "request"; "api"; "web"]);
    ("database", ["database"; "query"; "data"; "sql"]);
    ("system", ["system"; "process"; "monitor"; "health"]);
    ("monitoring", ["monitor"; "check"; "health"; "status"]);
    ("git", ["git"; "version"; "commit"; "repository"]);
    ("smart", ["smart"; "intelligent"; "ai"; "discovery"]) ].

(** [_generate_keywords] *)
Definition _generate_keywords (file_stem : string) (metadata : value)
  : result value :=
  let keywords := [VStr (PyStr.replace_char "_" " " file_stem)] in
  let keywords :=
    match first_match name_keywords (PyStr.lower file_stem) with
    | Some kw_list => keywords ++ map VStr kw_list
    | None => keywords
    end in
  has_tags <- has "tags" metadata ;;
  keywords <- (if has_tags : bool
               then tags <- get metadata "tags" VNone ;;
                    extra <- iter tags ;;
                    Ok (keywords ++ extra)
               else Ok keywords) ;;
  unique <- list_set keywords ;;
  Ok (VList unique).

(** [_create_enhanced_metadata] *)
Definition _create_enhanced_metadata (legacy_metadata : value)
           (file_stem : string) : result value :=
  name <- get legacy_metadata "name"
            (VStr ("Enhanced " +:+ PyStr.title (PyStr.replace_char "_" " " file_stem))) ;;
  description <- get legacy_metadata "description"
            (VStr ("Enhanced " +:+ file_stem +:+ " with MCP 2025-06-18 compliance")) ;;
  let version := "3.0.0" in
  author <- get legacy_metadata "author" (VStr "MCP 2025 Enhanced Team") ;;
  classified <- _classify_capability file_stem legacy_metadata ;;
  let '(security_level, complexity_level, domain, use_cases) := classified in
  primary_keywords <- _generate_keywords file_stem legacy_metadata ;;
  Ok (VDict
    [ ("name", VStr ("Enhanced " +:+ Py.str name));
      ("description",
        VStr (Py.str description +:+ " - MCP 2025-06-18 compliant with AI enhancement"));
      ("version", VStr version);
      ("author", author);
      ("classification", VDict
        [ ("security_level", VStr security_level);
          ("complexity_level", VStr complexity_level);
          ("domain", VStr domain);
          ("use_cases", strs use_cases) ]);
      ("discovery_metadata", VDict
        [ ("primary_keywords", primary_keywords);
          ("semantic_embeddings", VBool true);
          ("llm_enhanced", VBool true);
          ("workflow_enabled", VBool true) ]);
      ("mcp_capabilities", VDict
        [ ("version", VStr "2025-06-18");
          ("supports_cancellation", VBool true);
          ("supports_progress", VBool true);
          ("supports_sampling", VBool false);
          ("supports_validation", VBool true);
          ("supports_elicitation", VBool false) ]) ]).

Definition path_validation : value :=
  VDict [("path_traversal_protection", VBool true); ("security_scan", VBool true)].

Definition content_validation : value :=
  VDict [("max_size_mb", VInt 10); ("content_filter", VBool true)].

(** The body of the loop of [_enhance_input_schema] for one property, as
    the tree it leaves.  The name is a string here; on a key that is not one,
    [prop_name.lower()] raises [AttributeError] when the configuration is a
    dictionary.  The source changes [prop_config] in place: what that does to
    an object reached through an alias is in [InPlace.enhance_property]. *)
Definition enhance_property (item : string * value) : string * value :=
  let '(prop_name, prop_config) := item in
  match prop_config with
  | VDict cfg =>
      if PyStr.contains "path" (PyStr.lower prop_name)
      then (prop_name, VDict (dict_set cfg "validation" path_validation))
      else if PyStr.contains "content" (PyStr.lower prop_name)
      then (prop_name, VDict (dict_set cfg "validation" content_validation))
      else item
  | _ => item
  end.

(** [_enhance_input_schema], as the returned tree.  A list has [copy] but
    fails at the subscript; other non-dict values have no [copy]. *)
Definition _enhance_input_schema (legacy_schema : value) : result value :=
  match legacy_schema with
  | VDict enhanced_schema =>
      enhanced_schema <-
        match dict_get enhanced_schema "properties" with
        | Some properties =>
            its <- items properties ;;
            Ok (dict_set enhanced_schema "properties"
                  (VDict (map enhance_property its)))
        | None => Ok enhanced_schema
        end ;;
      Ok (VDict (dict_set enhanced_schema "additionalProperties" (VBool false)))
  | VList _ => Raise TypeError
  | _ => Raise AttributeError
  end.

(** [_enhance_routing] *)
Definition _enhance_routing (legacy_routing : value) : result value :=
  routing_type <- get legacy_routing "type" (VStr "subprocess") ;;
  c1 <- get legacy_routing "config" (VDict []) ;;
  command <- get c1 "command" (VStr "echo") ;;
  c2 <- get legacy_routing "config" (VDict []) ;;
  args <- get c2 "args" (VList []) ;;
  c3 <- get legacy_routing "config" (VDict []) ;;
  timeout <- get c3 "timeout" (VInt 30) ;;
  let enhanced_routing :=
    [ ("type", VStr ("enhanced_" +:+ Py.str routing_type));
      ("primary", VDict [ ("command", command); ("args", args);
                          ("timeout_seconds", timeout) ]) ] in
  Ok (VDict
    (if eq_str routing_type "subprocess"
     then dict_set enhanced_routing "fallback"
            (VDict [ ("command", VStr "echo");
                     ("args", strs [String PyStr.dquote "Operation completed with fallback"
                                      +:+ String PyStr.dquote EmptyString]);
                     ("timeout_seconds", VInt 10) ])
     else enhanced_routing)).

(** [_create_security_config] *)
Definition _create_security_config (classification : string) : value :=
  let base_config :=
    [ ("classification", VStr classification);
      ("sandbox", VDict
        [ ("resources", VDict [ ("max_memory_mb", VInt 256);
                                ("max_cpu_percent", VInt 30);
                                ("max_execution_seconds", VInt 60) ]);
          ("environment", VDict [ ("readonly_system", VBool true) ]) ]) ] in
  VDict
    (if String.eqb classification "dangerous" then
       let c := dict_set base_config "requires_approval" (VBool true) in
       let c := dict_set c "approval_workflow" (VStr "security_review") in
       let c := dict_set_path c ["sandbox"; "resources"] "max_memory_mb" (VInt 128) in
       dict_set_path c ["sandbox"; "resources"] "max_execution_seconds" (VInt 30)
     else if String.eqb classification "privileged" then
       let c := dict_set base_config "requires_approval" (VBool true) in
       dict_set_path c ["sandbox"; "resources"] "max_memory_mb" (VInt 512)
     else if String.eqb classification "restricted" then
       let c := dict_set_path base_config ["sandbox"] "filesystem"
                  (VDict [("denied_patterns", strs ["/etc/*"; "/root/*"; "*.private"])]) in
       dict_set_path c ["sandbox"] "network" (VDict [("allowed", VBool false)])
     else base_config).

Definition complex_tools : list string :=
  ["database"; "process"; "analyze"; "transform"].

(** [_create_performance_config] *)
Definition _create_performance_config (tool_name : string) : value :=
  let is_complex := PyStr.any_in complex_tools (PyStr.lower tool_name) in
  VDict
    [ ("estimated_duration", VDict
        [ ("simple_operation", VInt (if negb is_complex then 5 else 15));
          ("complex_operation", VInt (if negb is_complex then 30 else 120)) ]);
      ("complexity", VStr (if is_complex then "complex" else "moderate"));
      ("supports_cancellation", VBool true);
      ("supports_progress", VBool is_complex);
      ("cache_results",
        VBool (PyStr.startswith tool_name "read" || PyStr.startswith tool_name "get"));
      ("cache_ttl_seconds",
        VInt (if PyStr.startswith tool_name "read" then 300 else 0)) ].

Definition intent_mapping : list (string * string) :=
  [ ("read", "data_retrieval"); ("write", "data_modification");
    ("delete", "data_removal"); ("list", "data_enumeration");
    ("create", "data_creation"); ("update", "data_modification");
    ("execute", "command_execution"); ("process", "data_processing");
    ("analyze", "data_analysis"); ("monitor", "system_monitoring") ].

(** [_determine_intent] *)
Definition _determine_intent (tool_name : string) : string :=
  match first_match intent_mapping (PyStr.lower tool_name) with
  | Some intent => intent
  | None => "general_operation"
  end.

Definition operation_keywords : list (string * list string) :=
  [ ("read", ["read"; "retrieve"; "get"; "fetch"]);
    ("write", ["write"; "save"; "store"; "put"]);
    ("delete", ["delete"; "remove"; "unlink"]);
    ("list", ["list"; "enumerate"; "scan"]);
    ("create", ["create"; "make"; "generate"]);
    ("update", ["update"; "modify"; "change"]);
    ("execute", ["execute"; "run"; "invoke"]);
    ("process", ["process"; "transform"; "convert"]);
    ("analyze", ["analyze"; "examine"; "inspect"]);
    ("monitor", ["monitor"; "check"; "watch"]) ].

(** [_determine_operations] *)
Definition _determine_operations (tool_name : string) : list string :=
  let operations :=
    match first_match operation_keywords (PyStr.lower tool_name) with
    | Some ops => ops
    | None => []
    end in
  match operations with
  | [] => ["operate"]
  | _ => operations
  end.

(** [_create_ai_discovery] *)
Definition _create_ai_discovery (tool_name : string) (description : value)
  : value :=
  VDict
    [ ("description",
        VStr ("AI-enhanced " +:+ Py.str description
              +:+ " with intelligent processing and security validation"));
      ("usage_patterns", strs
        [ "use " +:+ tool_name +:+ " to {action}";
          "help me {accomplish_task} with " +:+ tool_name;
          tool_name +:+ " for {specific_purpose}" ]);
      ("semantic_context", VDict
        [ ("primary_intent", VStr (_determine_intent tool_name));
          ("operations", strs (_determine_operations tool_name));
          ("data_types", strs ["structured"; "unstructured"]) ]);
      ("workflow_integration", VDict
        [ ("typically_follows", VList []);
          ("typically_precedes", VList []);
          ("chain_compatibility", strs ["general_workflow"]) ]) ].

(** The loop of [_create_parameter_intelligence].  The name is a string
    here; on a key that is not one, [param_name.lower()] raises
    [AttributeError], after [param_config.get] has returned. *)
Fixpoint parameter_intelligence_loop (its : list (string * value))
         (intelligence : list (string * value))
  : result (list (string * value)) :=
  match its with
  | [] => Ok intelligence
  | (param_name, param_config) :: its' =>
      smart_default <- get param_config "default" VNone ;;
      let param_intel :=
        [ ("smart_default", smart_default);
          ("validation", VList [ VDict
              [ ("rule", VStr "required_validation");
                ("message", VStr (param_name +:+ " must be provided and valid")) ] ]) ] in
      let param_intel :=
        if PyStr.contains "path" (PyStr.lower param_name)
        then dict_set param_intel "smart_suggestions"
               (VList [ VDict
                  [ ("pattern", VStr "*");
                    ("description", VStr "File system paths");
                    ("examples", strs ["/path/to/file"; "./relative/path"]) ] ])
        else param_intel in
      parameter_intelligence_loop its'
        (dict_set intelligence param_name (VDict param_intel))
  end.

(** [_create_parameter_intelligence] *)
Definition _create_parameter_intelligence (input_schema : value) : result value :=
  properties <- get input_schema "properties" (VDict []) ;;
  its <- items properties ;;
  intelligence <- parameter_intelligence_loop its [] ;;
  Ok (VDict intelligence).

(** [_create_monitoring_config] *)
Definition _create_monitoring_config (tool_name : string) : value :=
  let is_complex := PyStr.any_in complex_tools (PyStr.lower tool_name) in
  let config :=
    [ ("progress_tracking", VDict
        [ ("enabled", VBool is_complex);
          ("granularity", VStr (if is_complex then "detailed" else "basic")) ]);
      ("cancellation", VDict
        [ ("enabled", VBool true);
          ("graceful_timeout_seconds", VInt (if is_complex then 30 else 10));
          ("cleanup_required", VBool is_complex) ]);
      ("metrics", VDict
        [ ("track_execution_time", VBool true);
          ("track_success_rate", VBool true);
          ("custom_metrics", strs [tool_name +:+ "_operations_completed"]) ]) ] in
  let sub_operation id name pct :=
    VDict [ ("id", VStr id); ("name", VStr name);
            ("estimated_percentage", VInt pct) ] in
  VDict
    (if is_complex
     then dict_set_path config ["progress_tracking"] "sub_operations"
            (VList [ sub_operation "initialization" "Initializing operation" 20%Z;
                     sub_operation "processing" "Processing data" 70%Z;
                     sub_operation "finalization" "Completing operation" 10%Z ])
     else config).

(** [_determine_permissions] *)
Definition _determine_permissions (classification : string) : list string :=
  let base_permissions := ["tool:execute"] in
  let permission_mapping :=
    [ ("safe", base_permissions);
      ("restricted", base_permissions ++ ["security:validated"]);
      ("privileged", base_permissions ++ ["security:validated"; "admin:elevated"]);
      ("dangerous", base_permissions
                      ++ ["security:validated"; "admin:elevated"; "approval:required"]) ] in
  match assoc permission_mapping classification with
  | Some permissions => permissions
  | None => base_permissions
  end.

(** [self.tool_security_mapping.get(tool_name, self.tool_security_mapping['default'])]:
    the key must be hashable. *)
Definition security_classification_of (tool_name : value) : result string :=
  default <- match assoc tool_security_mapping "default" with
             | Some c => Ok c
             | None => Raise KeyError
             end ;;
  if hashable tool_name
  then Ok (match tool_name with
           | VStr s => match assoc tool_security_mapping s with
                       | Some c => c
                       | None => default
                       end
           | _ => default
           end)
  else Raise TypeError.

(** [_migrate_tool_to_enhanced].  The dictionary display evaluates its
    entries from top to bottom; [tool_name.lower()] is first needed by
    [_create_performance_config]. *)
Definition _migrate_tool_to_enhanced (legacy_tool : value) : result value :=
  tool_name <- get legacy_tool "name" (VStr "unknown_tool") ;;
  description <- get legacy_tool "description"
                   (VStr ("Enhanced " +:+ Py.str tool_name)) ;;
  input_schema <- get legacy_tool "inputSchema" (VDict []) ;;
  routing <- get legacy_tool "routing" (VDict []) ;;
  hidden <- get legacy_tool "hidden" (VBool true) ;;
  security_classification <- security_classification_of tool_name ;;
  core_schema <- _enhance_input_schema input_schema ;;
  enhanced_routing <- _enhance_routing routing ;;
  let security := _create_security_config security_classification in
  name <- as_str tool_name ;;
  let performance := _create_performance_config name in
  let ai_enhanced := _create_ai_discovery name description in
  parameter_intelligence <- _create_parameter_intelligence input_schema ;;
  Ok (VDict
    [ ("name", VStr ("enhanced_" +:+ Py.str tool_name));
      ("core", VDict
        [ ("description",
            VStr ("AI-enhanced " +:+ Py.str description
                  +:+ " with MCP 2025-06-18 compliance"));
          ("input_schema", core_schema) ]);
      ("execution", VDict
        [ ("routing", enhanced_routing);
          ("security", security);
          ("performance", performance) ]);
      ("discovery", VDict
        [ ("ai_enhanced", ai_enhanced);
          ("parameter_intelligence", parameter_intelligence) ]);
      ("monitoring", _create_monitoring_config name);
      ("access", VDict
        [ ("hidden", hidden);
          ("enabled", VBool true);
          ("requires_permissions",
            strs (_determine_permissions security_classification));
          ("user_groups",
            strs (if String.eqb security_classification "safe"
                  then ["all"] else ["administrators"]));
          ("approval_required",
            VBool (existsb (String.eqb security_classification)
                     ["dangerous"; "privileged"])) ]) ]).

(** [_migrate_yaml_content] *)
Definition _migrate_yaml_content (legacy_content : value) (file_stem : string)
  : result value :=
  legacy_metadata <- get legacy_content "metadata" (VDict []) ;;
  legacy_tools <- get legacy_content "tools" (VList []) ;;
  enhanced_metadata <- _create_enhanced_metadata legacy_metadata file_stem ;;
  tools <- iter legacy_tools ;;
  enhanced_tools <- mapM _migrate_tool_to_enhanced tools ;;
  Ok (VDict [ ("metadata", enhanced_metadata);
              ("tools", VList enhanced_tools) ]).

(** *** The stateful part: statistics and the per-file loop *)

Definition with_stats (self : t) (stats : MigrationStats) : t :=
  {| config := config self; migration_stats := stats |}.

(** [self.migration_stats["files_processed"] += 1] *)
Definition incr_files_processed (self : t) : t :=
  let s := migration_stats self in
  with_stats self
    {| files_processed := files_processed s + 1; files_migrated := files_migrated s;
       files_skipped := files_skipped s; errors := errors s |}.

(** [self.migration_stats["files_migrated"] += 1] *)
Definition incr_files_migrated (self : t) : t :=
  let s := migration_stats self in
  with_stats self
    {| files_processed := files_processed s; files_migrated := files_migrated s + 1;
       files_skipped := files_skipped s; errors := errors s |}.

(** [self.migration_stats["files_skipped"] += 1] *)
Definition incr_files_skipped (self : t) : t :=
  let s := migration_stats self in
  with_stats self
    {| files_processed := files_processed s; files_migrated := files_migrated s;
       files_skipped := files_skipped s + 1; errors := errors s |}.

(** [self.migration_stats["errors"].append(error_msg)] *)
Definition append_error (self : t) (error_msg : string) : t :=
  let s := migration_stats self in
  with_stats self
    {| files_processed := files_processed s; files_migrated := files_migrated s;
       files_skipped := files_skipped s; errors := errors s ++ [error_msg] |}.

(** [not output_file] for the optional path argument. *)
Definition no_output (output_file : option string) : bool :=
  match output_file with
  | None => true
  | Some p => String.eqb p EmptyString
  end.

(** [migrate_file]: returns [True] and the updated object, or raises.
    Nothing of [self] is changed before the last point that can raise. *)
Definition migrate_file (input_file : yaml_file) (output_file : option string)
           (self : t) : result (bool * t) :=
  if negb (file_exists input_file) then Raise FileNotFoundError
  else
    _ <- (if create_backup (config self) && no_output output_file
          then backup input_file else Ok tt) ;;
    legacy_content <- load input_file ;;
    enhanced_content <- _migrate_yaml_content legacy_content (stem input_file) ;;
    _ <- write input_file ;;
    let self := incr_files_processed self in
    let self := incr_files_migrated self in
    Ok (true, self).

(** The body of the [try] in the loop of [migrate_directory]. *)
Definition migrate_directory_try (output_root : string) (self : t)
           (yaml_file : yaml_file) : result t :=
  if _is_already_enhanced yaml_file
  then Ok (incr_files_skipped self)
  else
    let output_file := output_root +:+ "/" +:+ rel_path yaml_file in
    _ <- parent_mkdir yaml_file ;;
    r <- migrate_file yaml_file (Some output_file) self ;;
    Ok (snd r).

(** The object after one iteration: what the [try] left, or the object
    with the message that the [except Exception] handler appends. *)
Definition migrate_directory_step (output_root : string) (self : t)
           (yaml_file : yaml_file) : t :=
  match migrate_directory_try output_root self yaml_file with
  | Ok self' => self'
  | Raise e =>
      append_error self
        ("Failed to migrate " +:+ path yaml_file +:+ ": " +:+ exn_text e)
  end.

(** The loop of [migrate_directory].  The handler appends the message and
    then prints it; an exception of that print is raised inside the handler
    and leaves the loop. *)
Fixpoint migrate_directory_loop (input_dir : directory) (output_root : string)
         (files : list yaml_file) (self : t) : result t :=
  match files with
  | [] => Ok self
  | yaml_file :: files' =>
      _ <- match migrate_directory_try output_root self yaml_file with
           | Ok _ => Ok tt
           | Raise e =>
               print_error input_dir
                 ("Failed to migrate " +:+ path yaml_file +:+ ": " +:+ exn_text e)
           end ;;
      migrate_directory_loop input_dir output_root files'
        (migrate_directory_step output_root self yaml_file)
  end.

(** [output_path = Path(output_dir) if output_dir else input_path] *)
Definition output_path (input_dir : directory) (output_dir : option string) : string :=
  if no_output output_dir then dir_path input_dir
  else match output_dir with Some p => p | None => dir_path input_dir end.

(** [migrate_directory]: the test of the input root, the creation of the
    output root and the opening lines come before the loop and outside any
    [try]. *)
Definition migrate_directory (input_dir : directory) (output_dir : option string)
           (self : t) : result (MigrationStats * t) :=
  let output_root := output_path input_dir output_dir in
  if negb (dir_exists input_dir) then Raise FileNotFoundError
  else
    _ <- (if no_output output_dir then Ok tt else output_mkdir input_dir) ;;
    _ <- print_start input_dir ;;
    self <- migrate_directory_loop input_dir output_root (yaml_files input_dir) self ;;
    Ok (migration_stats self, self).

(** *** The summary and the command line *)

(** [print_migration_summary]: the figures it prints.  The success rate is
    [files_migrated / max(files_processed, 1) * 100]; the quotient is kept
    as its two operands. *)
Record Summary : Type := {
  shown_processed : nat;
  shown_migrated : nat;
  shown_skipped : nat;
  shown_errors : nat;
  error_details : list string;
  rate_numerator : nat;
  rate_denominator : nat
}.

Definition print_migration_summary (self : t) : Summary :=
  let s := migration_stats self in
  {| shown_processed := files_processed s;
     shown_migrated := files_migrated s;
     shown_skipped := files_skipped s;
     shown_errors := length (errors s);
     error_details := errors s;
     rate_numerator := files_migrated s;
     rate_denominator := Nat.max (files_processed s) 1 |}.

(** The namespace that [parser.parse_args()] returns. *)
Record Args : Type := {
  arg_input_path : option string;
  arg_file : option string;
  arg_batch : option string;
  arg_output : option string;
  arg_preserve_original : bool;
  arg_no_ai : bool;
  arg_no_security : bool
}.

(** What the paths of the command line name: the file and the directory a
    path stands for, and [Path(p).is_file()]. *)
Record file_system : Type := {
  file_at : string -> yaml_file;
  directory_at : string -> directory;
  is_file : string -> bool
}.

(** The truth value of an optional string argument. *)
Definition given (a : option string) : bool := negb (no_output a).

Definition path_of (a : option string) : string :=
  match a with
  | Some p => p
  | None => EmptyString
  end.

(** The [MigrationConfig] that [main] builds. *)
Definition config_of (args : Args) : MigrationConfig :=
  {| add_ai_enhancement := negb (arg_no_ai args);
     add_security_sandboxing := negb (arg_no_security args);
     add_progress_tracking := true;
     add_comprehensive_monitoring := true;
     preserve_original := arg_preserve_original args;
     create_backup := arg_preserve_original args |}.

(** The body of the [try] of [main], up to the summary. *)
Definition main_run (fs : file_system) (args : Args) (migrator : t) : result t :=
  if given (arg_file args) then
    r <- migrate_file (file_at fs (path_of (arg_file args))) None migrator ;;
    Ok (snd r)
  else if given (arg_batch args) then
    r <- migrate_directory (directory_at fs (path_of (arg_batch args)))
           (arg_output args) migrator ;;
    Ok (snd r)
  else if given (arg_input_path args) then
    let input_path := path_of (arg_input_path args) in
    if is_file fs input_path then
      r <- migrate_file (file_at fs input_path) None migrator ;;
      Ok (snd r)
    else
      r <- migrate_directory (directory_at fs input_path) (arg_output args) migrator ;;
      Ok (snd r)
  else Ok migrator.

(** [main]: the exit status and the summary, when one is printed.
    [parser.error] ends the process with status 2, an exception inside the
    [try] with status 1. *)
Definition main (fs : file_system) (args : Args) : Z * option Summary :=
  if negb (given (arg_input_path args) || given (arg_file args)
           || given (arg_batch args))
  then (2%Z, None)
  else
    let migrator := init (config_of args) in
    match main_run fs args migrator with
    | Ok migrator => (0%Z, Some (print_migration_summary migrator))
    | Raise _ => (1%Z, None)
    end.

End YamlMigrationTool.

(* ===================================================================== *)
(** ** [validate_yaml_migration.py]                                       *)
(* ===================================================================== *)
Module YamlMigrationValidator.

Inductive ValidationLevel : Type := ERROR | WARNING | INFO | SUCCESS.

Definition level_eqb (a b : ValidationLevel) : bool :=
  match a, b with
  | ERROR, ERROR | WARNING, WARNING | INFO, INFO | SUCCESS, SUCCESS => true
  | _, _ => false
  end.

Record ValidationResult : Type := {
  file_path : string;
  level : ValidationLevel;
  message : string;
  details : option string
}.

(** The object: [self.strict_mode] and [self.results]; the four lists set
    up by [__init__] are constants. *)
Record t : Type := {
  strict_mode : bool;
  results : list ValidationResult
}.

(** [__init__] *)
Definition init (strict_mode : bool) : t :=
  {| strict_mode := strict_mode; results := [] |}.

Definition required_enhanced_tool_sections : list string :=
  ["name"; "core"; "execution"; "discovery"; "monitoring"; "access"].

Definition valid_security_levels : list string :=
  ["safe"; "restricted"; "mixed"; "privileged"; "dangerous"; "blocked"].

Definition valid_complexity_levels : list string :=
  ["simple"; "moderate"; "complex"; "varied"; "very_complex"].

(** Methods run on the object and may raise: a state and error monad. *)
Definition M (A : Type) : Type := t -> result (A * t).

Definition mret {A} (a : A) : M A := fun self => Ok (a, self).

Definition mbind {A B} (m : M A) (k : A -> M B) : M B :=
  fun self =>
    match m self with
    | Ok (a, self') => k a self'
    | Raise e => Raise e
    end.

(** A pure computation that may raise, run inside a method. *)
Definition lift {A} (r : result A) : M A :=
  fun self =>
    match r with
    | Ok a => Ok (a, self)
    | Raise e => Raise e
    end.

(** [self.results.append(ValidationResult(file_path, level, message, details))] *)
Definition append (file_path : string) (level : ValidationLevel)
           (message : string) (details : option string) : M unit :=
  fun self =>
    Ok (tt, {| strict_mode := strict_mode self;
               results := results self
                          ++ [ {| file_path := file_path; level := level;
                                  message := message; details := details |} ] |}).

Definition when (b : bool) (m : M unit) : M unit :=
  if b then m else mret tt.

Declare Scope validator_scope.
Delimit Scope validator_scope with validator.
Notation "x <- m ;; k" := (mbind m (fun x => k))
  (at level 100, m at next level, right associativity) : validator_scope.
Notation "m1 ;;; m2" := (mbind m1 (fun _ => m2))
  (at level 100, right associativity) : validator_scope.
Local Open Scope validator_scope.

(** [for i, x in enumerate(xs): body(x, i)] *)
Fixpoint for_enumerate {A} (xs : list A) (i : nat) (body : A -> nat -> M unit)
  : M unit :=
  match xs with
  | [] => mret tt
  | x :: xs' => body x i ;;; for_enumerate xs' (S i) body
  end.

(** [[f for f in fields if f not in v]] *)
Fixpoint missing_in (fields : list string) (v : value) : result (list string) :=
  match fields with
  | [] => Ok []
  | f :: fields' =>
      Py.bind (has f v) (fun present =>
      Py.bind (missing_in fields' v) (fun rest =>
      Ok (if present : bool then rest else f :: rest)))
  end.

Definition nonempty {A} (l : list A) : bool :=
  match l with [] => false | _ => true end.

(** [_is_enhanced_format] *)
Definition _is_enhanced_format (content : value) : bool :=
  match content with
  | VDict c =>
      let metadata := match dict_get c "metadata" with
                      | Some m => m | None => VDict [] end in
      let by_metadata :=
        match metadata with
        | VDict m =>
            dict_has m "classification" || dict_has m "discovery_metadata"
            || dict_has m "mcp_capabilities"
        | _ => false
        end in
      if by_metadata then true
      else
        let tools := match dict_get c "tools" with
                     | Some ts => ts | None => VList [] end in
        match tools with
        | VList (VDict first_tool :: _) =>
            let enhanced_sections :=
              length (List.filter (dict_has first_tool)
                        ["core"; "execution"; "discovery"; "monitoring"; "access"]) in
            if (3 <=? enhanced_sections)%nat then true else false
        | _ => false
        end
  | _ => false
  end.

(** [_validate_classification] *)
Definition _validate_classification (file_path : string) (classification : value)
  : M unit :=
  security_level <- lift (get_none classification "security_level") ;;
  when (truthy security_level && negb (in_strs security_level valid_security_levels))
    (append file_path ERROR
       ("Invalid security_level: " +:+ Py.str security_level
        +:+ ". Must be one of: " +:+ PyStr.join ", " valid_security_levels) None) ;;;
  complexity_level <- lift (get_none classification "complexity_level") ;;
  when (truthy complexity_level
        && negb (in_strs complexity_level valid_complexity_levels))
    (append file_path ERROR
       ("Invalid complexity_level: " +:+ Py.str complexity_level
        +:+ ". Must be one of: " +:+ PyStr.join ", " valid_complexity_levels) None).

(** [_validate_discovery_metadata] *)
Definition _validate_discovery_metadata (file_path : string)
           (discovery_metadata : value) : M unit :=
  let required_fields :=
    ["primary_keywords"; "semantic_embeddings"; "llm_enhanced"; "workflow_enabled"] in
  missing_fields <- lift (missing_in required_fields discovery_metadata) ;;
  when (nonempty missing_fields)
    (append file_path WARNING
       ("Missing recommended discovery_metadata fields: "
        +:+ PyStr.join ", " missing_fields) None).

(** [_validate_mcp_capabilities] *)
Definition _validate_mcp_capabilities (file_path : string)
           (mcp_capabilities : value) : M unit :=
  version <- lift (get_none mcp_capabilities "version") ;;
  when (negb (eq_str version "2025-06-18"))
    (append file_path ERROR
       ("Invalid MCP version: " +:+ Py.str version +:+ ". Expected: 2025-06-18") None) ;;;
  let required_capabilities :=
    ["supports_cancellation"; "supports_progress"; "supports_sampling";
     "supports_validation"; "supports_elicitation"] in
  missing_capabilities <- lift (missing_in required_capabilities mcp_capabilities) ;;
  when (nonempty missing_capabilities)
    (append file_path WARNING
       ("Missing MCP capability declarations: "
        +:+ PyStr.join ", " missing_capabilities) None).

(** [[f for f in fields if f not in metadata or not metadata[f]]] on a dict. *)
Definition missing_or_empty (fields : list string) (metadata : list (string * value))
  : list string :=
  List.filter (fun field =>
            match dict_get metadata field with
            | Some v => negb (truthy v)
            | None => true
            end) fields.

(** [_validate_enhanced_metadata] *)
Definition _validate_enhanced_metadata (file_path : string) (metadata : value)
  : M unit :=
  match metadata with
  | VDict m =>
      let missing_fields :=
        missing_or_empty ["name"; "description"; "version"; "author"] m in
      when (nonempty missing_fields)
        (append file_path ERROR
           ("Missing required metadata fields: " +:+ PyStr.join ", " missing_fields)
           None) ;;;
      classification <- lift (get metadata "classification" (VDict [])) ;;
      when (is_dict classification)
        (_validate_classification file_path classification) ;;;
      discovery_metadata <- lift (get metadata "discovery_metadata" (VDict [])) ;;
      when (is_dict discovery_metadata)
        (_validate_discovery_metadata file_path discovery_metadata) ;;;
      mcp_capabilities <- lift (get metadata "mcp_capabilities" (VDict [])) ;;
      when (is_dict mcp_capabilities)
        (_validate_mcp_capabilities file_path mcp_capabilities)
  | _ =>
      append file_path ERROR "Enhanced format requires metadata object" None
  end.

Definition tool_prefix (tool_name : value) : string :=
  "Tool '" +:+ Py.str tool_name +:+ "': ".

(** [_validate_tool_core] *)
Definition _validate_tool_core (file_path : string) (tool_name core : value)
  : M unit :=
  description <- lift (get_none core "description") ;;
  when (negb (truthy description))
    (append file_path ERROR
       (tool_prefix tool_name +:+ "Core section missing description") None) ;;;
  input_schema <- lift (get_none core "input_schema") ;;
  when (negb (truthy input_schema) || negb (is_dict input_schema))
    (append file_path ERROR
       (tool_prefix tool_name +:+ "Core section missing valid input_schema") None).

(** [_validate_tool_execution] *)
Definition _validate_tool_execution (file_path : string) (tool_name execution : value)
  : M unit :=
  routing <- lift (get execution "routing" (VDict [])) ;;
  routing_type <- lift (get_none routing "type") ;;
  when (negb (truthy routing_type))
    (append file_path ERROR
       (tool_prefix tool_name +:+ "Execution section missing routing type") None) ;;;
  security <- lift (get execution "security" (VDict [])) ;;
  classification <- lift (get_none security "classification") ;;
  when (negb (truthy classification))
    (append file_path WARNING
       (tool_prefix tool_name +:+ "Execution section missing security classification")
       None).

(** [_validate_tool_discovery] *)
Definition _validate_tool_discovery (file_path : string) (tool_name discovery : value)
  : M unit :=
  ai_enhanced <- lift (get discovery "ai_enhanced" (VDict [])) ;;
  description <- lift (get_none ai_enhanced "description") ;;
  when (negb (truthy description))
    (append file_path WARNING
       (tool_prefix tool_name +:+ "Discovery section missing AI-enhanced description")
       None).

(** [_validate_tool_monitoring] *)
Definition _validate_tool_monitoring (file_path : string) (tool_name monitoring : value)
  : M unit :=
  progress_tracking <- lift (get monitoring "progress_tracking" (VDict [])) ;;
  has_enabled <- lift (has "enabled" progress_tracking) ;;
  when (negb has_enabled)
    (append file_path WARNING
       (tool_prefix tool_name +:+ "Monitoring section missing progress_tracking.enabled")
       None) ;;;
  cancellation <- lift (get monitoring "cancellation" (VDict [])) ;;
  has_enabled <- lift (has "enabled" cancellation) ;;
  when (negb has_enabled)
    (append file_path WARNING
       (tool_prefix tool_name +:+ "Monitoring section missing cancellation.enabled")
       None).

(** [_validate_tool_access] *)
Definition _validate_tool_access (file_path : string) (tool_name access : value)
  : M unit :=
  let required_access_fields :=
    ["hidden"; "enabled"; "requires_permissions"; "user_groups"] in
  missing_fields <- lift (missing_in required_access_fields access) ;;
  when (nonempty missing_fields)
    (append file_path WARNING
       (tool_prefix tool_name +:+ "Access section missing fields: "
        +:+ PyStr.join ", " missing_fields) None).

(** [_validate_enhanced_tool] *)
Definition _validate_enhanced_tool (file_path : string) (tool : value) (index : nat)
  : M unit :=
  tool_name <- lift (get tool "name" (VStr ("tool_" +:+ PyStr.of_Z (Z.of_nat index)))) ;;
  missing_sections <- lift (missing_in required_enhanced_tool_sections tool) ;;
  if nonempty missing_sections
  then append file_path ERROR
         (tool_prefix tool_name +:+ "Missing required sections: "
          +:+ PyStr.join ", " missing_sections) None
  else
    core <- lift (get tool "core" (VDict [])) ;;
    _validate_tool_core file_path tool_name core ;;;
    execution <- lift (get tool "execution" (VDict [])) ;;
    _validate_tool_execution file_path tool_name execution ;;;
    discovery <- lift (get tool "discovery" (VDict [])) ;;
    _validate_tool_discovery file_path tool_name discovery ;;;
    monitoring <- lift (get tool "monitoring" (VDict [])) ;;
    _validate_tool_monitoring file_path tool_name monitoring ;;;
    access <- lift (get tool "access" (VDict [])) ;;
    _validate_tool_access file_path tool_name access.

(** [_validate_enhanced_format] *)
Definition _validate_enhanced_format (file_path : string) (content : value)
  : M unit :=
  metadata <- lift (get content "metadata" (VDict [])) ;;
  _validate_enhanced_metadata file_path metadata ;;;
  tools <- lift (get content "tools" (VList [])) ;;
  if negb (truthy tools)
  then append file_path ERROR "Enhanced format must contain at least one tool" None
  else
    ts <- lift (iter tools) ;;
    for_enumerate ts 0 (fun tool i => _validate_enhanced_tool file_path tool i).

(** The body of the loop of [_validate_legacy_format]. *)
Definition validate_legacy_tool (file_path : string) (tool : value) (i : nat)
  : M unit :=
  let index := PyStr.of_Z (Z.of_nat i) in
  tool_name <- lift (get tool "name" (VStr ("tool_" +:+ index))) ;;
  name <- lift (get_none tool "name") ;;
  when (negb (truthy name))
    (append file_path ERROR ("Tool " +:+ index +:+ ": Missing name") None) ;;;
  description <- lift (get_none tool "description") ;;
  when (negb (truthy description))
    (append file_path ERROR (tool_prefix tool_name +:+ "Missing description") None) ;;;
  input_schema <- lift (get_none tool "inputSchema") ;;
  when (negb (truthy input_schema))
    (append file_path ERROR (tool_prefix tool_name +:+ "Missing inputSchema") None) ;;;
  routing <- lift (get tool "routing" (VDict [])) ;;
  routing_type <- lift (get_none routing "type") ;;
  when (negb (truthy routing_type))
    (append file_path ERROR (tool_prefix tool_name +:+ "Missing routing type") None).

(** [_validate_legacy_format] *)
Definition _validate_legacy_format (file_path : string) (content : value)
  : M unit :=
  tools <- lift (get content "tools" (VList [])) ;;
  if negb (truthy tools)
  then append file_path ERROR "Legacy format must contain at least one tool" None
  else
    ts <- lift (iter tools) ;;
    for_enumerate ts 0 (fun tool i => validate_legacy_tool file_path tool i).

(** [return self.results] *)
Definition get_results : M (list ValidationResult) :=
  fun self => Ok (results self, self).

(** [validate_file] *)
Definition validate_file (file : yaml_file) : M (list ValidationResult) :=
  let file_path := path file in
  if negb (file_exists file)
  then append file_path ERROR ("File does not exist: " +:+ file_path) None ;;;
       get_results
  else
    match load file with
    | Raise YAMLError =>
        append file_path ERROR "Invalid YAML syntax" (Some (exn_text YAMLError)) ;;;
        get_results
    | Raise e =>
        append file_path ERROR "Failed to read file" (Some (exn_text e)) ;;;
        get_results
    | Ok content =>
        let is_enhanced := _is_enhanced_format content in
        let format_type :=
          if is_enhanced then "Enhanced MCP 2025-06-18" else "Legacy" in
        append file_path INFO ("Detected format: " +:+ format_type) None ;;;
        (if is_enhanced
         then _validate_enhanced_format file_path content
         else _validate_legacy_format file_path content) ;;;
        get_results
    end.

Fixpoint for_each {A} (xs : list A) (body : A -> M unit) : M unit :=
  match xs with
  | [] => mret tt
  | x :: xs' => body x ;;; for_each xs' body
  end.

(** [validate_directory] *)
Definition validate_directory (directory : directory) : M (list ValidationResult) :=
  let directory_path := dir_path directory in
  if negb (dir_exists directory)
  then append directory_path ERROR
         ("Directory does not exist: " +:+ directory_path) None ;;;
       get_results
  else if negb (nonempty (yaml_files directory))
  then append directory_path WARNING "No YAML files found in directory" None ;;;
       get_results
  else
    append directory_path INFO
      ("Found " +:+ PyStr.of_Z (Z.of_nat (length (yaml_files directory)))
       +:+ " YAML files to validate") None ;;;
    for_each (yaml_files directory)
      (fun yaml_file => _ <- validate_file yaml_file ;; mret tt) ;;;
    get_results.

Definition of_level (l : ValidationLevel) (rs : list ValidationResult)
  : list ValidationResult :=
  List.filter (fun r => level_eqb (level r) l) rs.

(** [print_results]: the returned verdict. *)
Definition print_results (self : t) : bool :=
  let errors := of_level ERROR (results self) in
  let warnings := of_level WARNING (results self) in
  if nonempty errors then false
  else if nonempty warnings then true
  else true.

(** What [main] is pointed at: [os.path.exists] and [os.path.isdir]. *)
Inductive target : Type :=
| NoSuchPath
| IsFile (file : yaml_file)
| IsDir (dir : directory).

(** The validator object of [main] after its [validate_*] call. *)
Definition run (strict : bool) (tg : target) : result t :=
  let validator := init strict in
  match tg with
  | NoSuchPath => Ok validator
  | IsDir d =>
      match validate_directory d validator with
      | Ok (_, validator') => Ok validator'
      | Raise e => Raise e
      end
  | IsFile f =>
      match validate_file f validator with
      | Ok (_, validator') => Ok validator'
      | Raise e => Raise e
      end
  end.

(** [main]: the exit status; an uncaught exception ends the process
    with status 1. *)
Definition main (strict : bool) (tg : target) : Z :=
  match tg with
  | NoSuchPath => 1
  | _ =>
      match run strict tg with
      | Ok validator => if print_results validator then 0 else 1
      | Raise _ => 1
      end
  end.

End YamlMigrationValidator.

(* ===================================================================== *)
(** ** Objects with identity                                              *)
(* ===================================================================== *)

(** Python dictionaries and lists are objects: a variable holds a reference,
  and [dict.copy()] copies one level only.  The store maps locations to
  objects; a field of an object is an immediate value or a reference. *)
Module Heap.

Abbreviation loc := nat (only parsing).

Inductive ref_value : Type :=
| RNone
| RBool (b : bool)
| RInt (z : Z)
| RStr (s : string)
| RRef (l : loc).

Inductive object : Type :=
| ODict (d : list (string * ref_value))
| OList (l : list ref_value).

Abbreviation heap := (list object) (only parsing).

(** A new object, at the next free location. *)
Definition alloc (h : heap) (o : object) : heap * loc := (h ++ [o], length h).

Fixpoint field_get (d : list (string * ref_value)) (k : string) : option ref_value :=
  match d with
  | [] => None
  | (k', v) :: d' => if String.eqb k' k then Some v else field_get d' k
  end.

Fixpoint field_set (d : list (string * ref_value)) (k : string) (v : ref_value)
  : list (string * ref_value) :=
  match d with
  | [] => [(k, v)]
  | (k', v') :: d' =>
      if String.eqb k' k then (k', v) :: d' else (k', v') :: field_set d' k v
  end.

(** Builds the objects of a document, children first: what the loader
    does for a document without aliases. *)
Fixpoint store (v : value) (h : heap) {struct v} : heap * ref_value :=
  match v with
  | VNone => (h, RNone)
  | VBool b => (h, RBool b)
  | VInt z => (h, RInt z)
  | VStr s => (h, RStr s)
  | VList l =>
      let fix go (l : list value) (h : heap) : heap * list ref_value :=
        match l with
        | [] => (h, [])
        | x :: l' =>
            let '(h1, r) := store x h in
            let '(h2, rs) := go l' h1 in (h2, r :: rs)
        end in
      let '(h1, rs) := go l h in
      let '(h2, p) := alloc h1 (OList rs) in (h2, RRef p)
  | VDict d =>
      let fix go (d : list (string * value)) (h : heap)
        : heap * list (string * ref_value) :=
        match d with
        | [] => (h, [])
        | (k, x) :: d' =>
            let '(h1, r) := store x h in
            let '(h2, rs) := go d' h1 in (h2, (k, r) :: rs)
        end in
      let '(h1, rs) := go d h in
      let '(h2, p) := alloc h1 (ODict rs) in (h2, RRef p)
  end.

(** The document reachable from a reference, read back as a tree;
    [None] when the references go deeper than [fuel] or dangle. *)
Fixpoint view (fuel : nat) (h : heap) (r : ref_value) : option value :=
  match r with
  | RNone => Some VNone
  | RBool b => Some (VBool b)
  | RInt z => Some (VInt z)
  | RStr s => Some (VStr s)
  | RRef p =>
      match fuel with
      | O => None
      | S fuel' =>
          match h !! p with
          | Some (OList rs) =>
              let fix go (rs : list ref_value) : option (list value) :=
                match rs with
                | [] => Some []
                | r :: rs' =>
                    match view fuel' h r, go rs' with
                    | Some v, Some vs => Some (v :: vs)
                    | _, _ => None
                    end
                end in
              match go rs with Some vs => Some (VList vs) | None => None end
          | Some (ODict d) =>
              let fix go (d : list (string * ref_value))
                : option (list (string * value)) :=
                match d with
                | [] => Some []
                | (k, r) :: d' =>
                    match view fuel' h r, go d' with
                    | Some v, Some vs => Some ((k, v) :: vs)
                    | _, _ => None
                    end
                end in
              match go d with Some vs => Some (VDict vs) | None => None end
          | None => None
          end
      end
  end.

End Heap.

(** [_enhance_input_schema] on objects: the function as the interpreter
  runs it, with the one-level copy and the assignments in place. *)
Module InPlace.
Import Heap.

(** [prop_config['validation'] = {...}]: a new dictionary object, stored
    under the key of the dictionary at [q]. *)
Definition set_validation (h : heap) (q : loc) (cfg : list (string * ref_value))
           (validation : list (string * ref_value)) : heap :=
  let '(h1, v) := alloc h (ODict validation) in
  <[q := ODict (field_set cfg "validation" (RRef v))]> h1.

(** The body of the loop for one item. *)
Definition enhance_property (h : heap) (prop_name : string) (prop_config : ref_value)
  : heap :=
  match prop_config with
  | RRef q =>
      match h !! q with
      | Some (ODict cfg) =>
          if PyStr.contains "path" (PyStr.lower prop_name)
          then set_validation h q cfg
                 [("path_traversal_protection", RBool true); ("security_scan", RBool true)]
          else if PyStr.contains "content" (PyStr.lower prop_name)
          then set_validation h q cfg
                 [("max_size_mb", RInt 10); ("content_filter", RBool true)]
          else h
      | _ => h
      end
  | _ => h
  end.

(** [for prop_name, prop_config in properties.items()] over the live
    dictionary at [p]: the iterator reads entry [i] of the dictionary as it
    is at that step, and raises [RuntimeError] when the dictionary has
    changed size since the loop began. *)
Fixpoint items_loop (steps i size : nat) (p : loc) (h : heap) : result heap :=
  match h !! p with
  | Some (ODict properties) =>
      if negb (length properties =? size)%nat then Raise RuntimeError
      else
        match steps with
        | O => Ok h
        | S steps' =>
            match properties !! i with
            | Some (prop_name, prop_config) =>
                items_loop steps' (S i) size p (enhance_property h prop_name prop_config)
            | None => Ok h
            end
        end
  | _ => Raise RuntimeError
  end.

(** [_enhance_input_schema]: the new store and the returned reference.
    A reference always leads to an object in a store the loader built, and
    the copy is a dictionary, so the [RuntimeError] branches of the model
    are never taken there. *)
Definition _enhance_input_schema (h : heap) (legacy_schema : ref_value)
  : result (heap * ref_value) :=
  match legacy_schema with
  | RRef l =>
      match h !! l with
      | Some (ODict d) =>
          (* enhanced_schema = legacy_schema.copy() *)
          let '(h, enhanced_schema) := alloc h (ODict d) in
          h <- match field_get d "properties" with
               | Some (RRef p) =>
                   match h !! p with
                   | Some (ODict properties) =>
                       items_loop (length properties) 0 (length properties) p h
                   | _ => Raise AttributeError
                   end
               | Some _ => Raise AttributeError
               | None => Ok h
               end ;;
          (* enhanced_schema['additionalProperties'] = False *)
          match h !! enhanced_schema with
          | Some (ODict e) =>
              Ok (<[enhanced_schema := ODict (field_set e "additionalProperties" (RBool false))]> h,
                  RRef enhanced_schema)
          | _ => Raise RuntimeError
          end
      | Some (OList _) => Raise TypeError
      | None => Raise RuntimeError
      end
  | _ => Raise AttributeError
  end.

End InPlace.


(* ===================================================================== *)
(** * Part II -- the vocabulary of the properties                         *)
(* ===================================================================== *)

(** The predicates, sample inputs and named parts of methods the theorems
    of Part III are stated with; one module per module of Part III. *)

Module PyStrSpec.
Import PyStr.

(** [w] occurs in [s]. *)
Definition occurs (w s : string) : Prop :=
  exists pre post, s = pre +:+ w +:+ post.

End PyStrSpec.

Module ClassifierSpec.
Import YamlMigrationTool PyStrSpec.

(** The trigger words of the three buckets, in their order of priority. *)
Definition privileged_triggers : list string := ["admin"; "system"; "root"; "security"].

Definition restricted_triggers : list string := ["file"; "database"; "network"].

Definition dangerous_triggers : list string := ["delete"; "remove"; "execute"].

(** A bucket matches an identifier when one of its trigger words occurs in
    the lower-cased identifier. *)
Definition bucket_matches (bucket : list string) (file_stem : string) : Prop :=
  exists w, In w bucket /\ occurs w (PyStr.lower file_stem).

(** The security level of a result of [_classify_capability]. *)
Definition security_level_result
           (r : result (string * string * string * list string)) : option string :=
  match r with
  | Ok (security_level, _, _, _) => Some security_level
  | Raise _ => None
  end.

(** The entry [k] of the dictionary [_create_performance_config] builds. *)
Definition performance_field (tool_name k : string) : option value :=
  match _create_performance_config tool_name with
  | VDict d => dict_get d k
  | _ => None
  end.

End ClassifierSpec.

Module FormatDetectorSpec.
Import YamlMigrationTool.

(** A file at [file_path] that exists and parses to [content]. *)
Definition parsed (file_path : string) (content : value) : yaml_file :=
  {| path := file_path; rel_path := file_path; stem := "manifest";
     file_exists := true; load := Ok content;
     backup := Ok tt; parent_mkdir := Ok tt; write := Ok tt |}.

(** The rule in the words of the specification, first half: the metadata
    mapping contains any of the three enhanced keys. *)
Definition metadata_marks_enhanced (content : value) : bool :=
  match content with
  | VDict c =>
      match dict_get c "metadata" with
      | Some (VDict m) =>
          dict_has m "classification" || dict_has m "discovery_metadata"
          || dict_has m "mcp_capabilities"
      | _ => false
      end
  | _ => false
  end.

(** Second half: how many of the five enhanced sections the first tool
    entry has. *)
Definition first_tool_sections (content : value) : nat :=
  match content with
  | VDict c =>
      match dict_get c "tools" with
      | Some (VList (VDict first_tool :: _)) =>
          length (List.filter (dict_has first_tool)
                    ["core"; "execution"; "discovery"; "monitoring"; "access"])
      | _ => 0
      end
  | _ => 0
  end.

(** The rule of the specification. *)
Definition spec_is_enhanced (content : value) : bool :=
  metadata_marks_enhanced content || (3 <=? first_tool_sections content)%nat.

(** The manifest is a mapping whose metadata is absent or a mapping. *)
Definition metadata_is_mapping (content : value) : bool :=
  match content with
  | VDict c =>
      match dict_get c "metadata" with
      | Some (VDict _) | None => true
      | Some _ => false
      end
  | _ => false
  end.

(** The test the orchestrator has in place of the section count. *)
Definition mentions_protocol_tag (content : value) : bool :=
  PyStr.contains "MCP 2025-06-18" (Py.str content).

(** Three enhanced sections in the first tool, no enhanced metadata. *)
Definition sections_only : value :=
  VDict [ ("tools", VList [ VDict [ ("name", VStr "t"); ("core", VDict []);
                                    ("execution", VDict []);
                                    ("discovery", VDict []) ] ]) ].

(** A legacy manifest whose description names the protocol version. *)
Definition tagged_legacy : value :=
  VDict [ ("metadata", VDict [ ("description", VStr "Ported to MCP 2025-06-18") ]);
          ("tools", VList [ VDict [ ("name", VStr "t") ] ]) ].

End FormatDetectorSpec.

Module OrchestratorSpec.
Import YamlMigrationTool.

(** The message the [except] branch appends for a file. *)
Definition failure_message (f : yaml_file) (e : exn) : string :=
  "Failed to migrate " +:+ path f +:+ ": " +:+ exn_text e.

(** Files the run has accounted for: migrated, skipped or failed. *)
Definition accounted (self : t) : nat :=
  files_migrated (migration_stats self) + files_skipped (migration_stats self)
  + length (errors (migration_stats self)).

(** [files_processed] equals [files_migrated]. *)
Definition counters_agree (self : t) : Prop :=
  files_processed (migration_stats self) = files_migrated (migration_stats self).

(** The end-to-end manifest of the specification: one legacy tool. *)
Definition read_file_manifest : value :=
  VDict [ ("tools", VList [ VDict
    [ ("name", VStr "read_file");
      ("description", VStr "Reads a file");
      ("inputSchema", VDict
        [ ("type", VStr "object");
          ("properties", VDict [ ("path", VDict [ ("type", VStr "string") ]) ]) ]);
      ("routing", VDict
        [ ("type", VStr "subprocess");
          ("config", VDict [ ("command", VStr "cat");
                             ("args", VList [ VStr "{path}" ]) ]) ]);
      ("hidden", VBool true) ] ]) ].

(** A manifest that already carries enhanced metadata. *)
Definition sample_enhanced_metadata : value :=
  VDict [ ("metadata", VDict [ ("classification", VDict []) ]) ].

(** An existing file [caps/<name>.yaml] that loads as [loaded]. *)
Definition file_with (name : string) (loaded : result value) : yaml_file :=
  {| path := "caps/" +:+ name +:+ ".yaml"; rel_path := name +:+ ".yaml"; stem := name;
     file_exists := true; load := loaded;
     backup := Ok tt; parent_mkdir := Ok tt; write := Ok tt |}.

(** A legacy file, an unparseable file, an enhanced file, a legacy file. *)
Definition sample_files : list yaml_file :=
  [ file_with "file_ops" (Ok read_file_manifest);
    file_with "broken" (Raise YAMLError);
    file_with "done" (Ok sample_enhanced_metadata);
    file_with "more_ops" (Ok read_file_manifest) ].

(** A directory that enumerates them. *)
Definition sample_dir : directory :=
  {| dir_path := "caps"; dir_exists := true; yaml_files := sample_files;
     output_mkdir := Ok tt; print_start := Ok tt; print_error := fun _ => Ok tt |}.

(** A file fails when it is not skipped and creating the output directory
    or [migrate_file] raises. *)
Definition fails_with (root : string) (self : t) (f : yaml_file) (e : exn) : Prop :=
  _is_already_enhanced f = false
  /\ (parent_mkdir f = Raise e
      \/ (parent_mkdir f = Ok tt
          /\ migrate_file f (Some (root +:+ "/" +:+ rel_path f)) self = Raise e)).

(** The run reaches its loop: the input root exists, the output root is
    there or can be created, and the opening lines are printed. *)
Definition starts (input_dir : directory) (output_dir : option string) : Prop :=
  dir_exists input_dir = true
  /\ (if no_output output_dir then Ok tt else output_mkdir input_dir) = Ok tt
  /\ print_start input_dir = Ok tt.

(** The console prints every message the handler hands it. *)
Definition prints_errors (input_dir : directory) : Prop :=
  forall error_msg, print_error input_dir error_msg = Ok tt.

(** The object after the loop over [files], when no print stops it. *)
Definition after_files (input_dir : directory) (output_dir : option string)
           (files : list yaml_file) (self : t) : t :=
  fold_left (migrate_directory_step (output_path input_dir output_dir)) files self.

(** The sample directory with an output root that cannot be created. *)
Definition blocked_output_dir : directory :=
  {| dir_path := "caps"; dir_exists := true; yaml_files := sample_files;
     output_mkdir := Raise OSError; print_start := Ok tt;
     print_error := fun _ => Ok tt |}.

(** The sample directory with a console that cannot print the message of
    the unparseable file. *)
Definition mute_dir : directory :=
  {| dir_path := "caps"; dir_exists := true; yaml_files := sample_files;
     output_mkdir := Ok tt; print_start := Ok tt;
     print_error := fun error_msg =>
       if String.eqb error_msg "Failed to migrate caps/broken.yaml: YAMLError"
       then Raise OSError else Ok tt |}.

End OrchestratorSpec.

Module ValidatorSpec.
Import YamlMigrationValidator.
Local Open Scope validator_scope.

(** The object after [out] has been appended to its results. *)
Definition extend (self : t) (out : list ValidationResult) : t :=
  {| strict_mode := strict_mode self; results := results self ++ out |}.

(** [m] behaves the same on every object: it raises, or returns [a] and
    appends [out], as [r] says. *)
Definition appends {A} (m : M A) (r : result (A * list ValidationResult)) : Prop :=
  forall self,
    m self = match r with
             | Ok (a, out) => Ok (a, extend self out)
             | Raise e => Raise e
             end.

Definition appends_only {A} (m : M A) : Prop := exists r, appends m r.

(** A method that ends in [return self.results]: it raises, or appends
    [out] and returns the results it then holds. *)
Definition returns_results (m : M (list ValidationResult)) : Prop :=
  exists r : result (list ValidationResult),
    forall self,
      m self = match r with
               | Ok out => Ok (results self ++ out, extend self out)
               | Raise e => Raise e
               end.

(** What a call returned, without the object. *)
Definition returned {A} (r : result (A * t)) : result A :=
  match r with
  | Ok (a, _) => Ok a
  | Raise e => Raise e
  end.

(** Two runs end alike: the same exception, or the same diagnostics and
    the same verdict. *)
Definition same_outcome (r1 r2 : result t) : Prop :=
  match r1, r2 with
  | Ok v1, Ok v2 => results v1 = results v2 /\ print_results v1 = print_results v2
  | Raise e1, Raise e2 => e1 = e2
  | _, _ => False
  end.

(** *** The parts of the enhanced path *)

Definition errors_of (rs : list ValidationResult) : list ValidationResult :=
  of_level ERROR rs.

Definition dict_or (o : option value) (default : value) : value :=
  match o with Some v => v | None => default end.

(** The tool loop of [_validate_enhanced_format]. *)
Definition tools_part (fp : string) (tools : value) : M unit :=
  if negb (truthy tools)
  then append fp ERROR "Enhanced format must contain at least one tool" None
  else
    ts <- lift (iter tools) ;;
    for_enumerate ts 0 (fun tool i => _validate_enhanced_tool fp tool i).

(** The required-field check of [_validate_enhanced_metadata]. *)
Definition required_part (fp : string) (m : list (string * value)) : M unit :=
  let missing_fields := missing_or_empty ["name"; "description"; "version"; "author"] m in
  when (nonempty missing_fields)
    (append fp ERROR
       ("Missing required metadata fields: " +:+ PyStr.join ", " missing_fields) None).

(** What [_validate_enhanced_metadata] does after the classification. *)
Definition after_classification (fp : string) (discovery_metadata mcp_capabilities : value)
  : M unit :=
  when (is_dict discovery_metadata)
    (_validate_discovery_metadata fp discovery_metadata) ;;;
  when (is_dict mcp_capabilities)
    (_validate_mcp_capabilities fp mcp_capabilities).

Definition security_level_part (fp : string) (security_level : value) : M unit :=
  when (truthy security_level && negb (in_strs security_level valid_security_levels))
    (append fp ERROR
       ("Invalid security_level: " +:+ Py.str security_level
        +:+ ". Must be one of: " +:+ PyStr.join ", " valid_security_levels) None).

Definition complexity_level_part (fp : string) (complexity_level : value) : M unit :=
  when (truthy complexity_level
        && negb (in_strs complexity_level valid_complexity_levels))
    (append fp ERROR
       ("Invalid complexity_level: " +:+ Py.str complexity_level
        +:+ ". Must be one of: " +:+ PyStr.join ", " valid_complexity_levels) None).

(** A manifest with a classification mapping in its metadata mapping. *)
Definition classified (content : value) : Prop :=
  exists c m cl,
    content = VDict c /\ dict_get c "metadata" = Some (VDict m)
    /\ dict_get m "classification" = Some (VDict cl).

(** [content] with [metadata.classification.security_level] set to [lvl]. *)
Definition with_security_level (content : value) (lvl : string) : value :=
  match content with
  | VDict c =>
      VDict (dict_set_path c ["metadata"; "classification"] "security_level" (VStr lvl))
  | _ => content
  end.

Definition invalid_security_level_message (lvl : string) : string :=
  "Invalid security_level: " +:+ lvl
  +:+ ". Must be one of: safe, restricted, mixed, privileged, dangerous, blocked".

(** The checks of [validate_file] on a parsed file, before it returns. *)
Definition file_checks (fp : string) (content : value) : M unit :=
  let is_enhanced := _is_enhanced_format content in
  append fp INFO
    ("Detected format: " +:+ (if is_enhanced then "Enhanced MCP 2025-06-18" else "Legacy"))
    None ;;;
  (if is_enhanced then _validate_enhanced_format fp content
   else _validate_legacy_format fp content).

(** The first diagnostic of a file detected as enhanced. *)
Definition enhanced_info (fp : string) : ValidationResult :=
  {| file_path := fp; level := INFO;
     message := "Detected format: Enhanced MCP 2025-06-18"; details := None |}.

(** The enhanced manifest the migration makes of the end-to-end example. *)
Definition sample_enhanced : value :=
  match YamlMigrationTool._migrate_yaml_content
          OrchestratorSpec.read_file_manifest "file_ops" with
  | Ok enhanced => enhanced
  | Raise _ => VNone
  end.

End ValidatorSpec.

Module RoundTripSpec.
Import ValidatorSpec.

(** The legacy metadata has no [author] key, or an author that is true in
    Python's sense: not [None], not empty, not zero, not [False].  A key that
    is present with a false value is not replaced by the default of
    [_create_enhanced_metadata], and the validator reports it. *)
Definition author_not_empty (legacy_metadata : value) : bool :=
  match legacy_metadata with
  | VDict m => match dict_get m "author" with
               | Some author => truthy author
               | None => true
               end
  | _ => true
  end.

(** *** Manifests on which migration returns

  The conditions below are stated on the tree model: they say nothing of a
  mapping with a key that is not a string, on which [prop_name.lower()]
  raises, nor of a document with aliases. *)

(** [len] is defined on it. *)
Definition sized (v : value) : bool :=
  match v with
  | VList _ | VDict _ | VStr _ => true
  | _ => false
  end.

(** It can be iterated and its elements can go into a set. *)
Definition tags_typed (v : value) : bool :=
  match v with
  | VList l => forallb hashable l
  | VStr _ | VDict _ => true
  | _ => false
  end.

Definition metadata_typed (legacy_metadata : value) : bool :=
  match legacy_metadata with
  | VDict m =>
      match dict_get m "tools" with Some ts => sized ts | None => true end
      && match dict_get m "tags" with Some tags => tags_typed tags | None => true end
  | _ => false
  end.

Definition schema_typed (input_schema : value) : bool :=
  match input_schema with
  | VDict d =>
      match dict_get d "properties" with
      | Some (VDict ps) => forallb (fun item => is_dict (snd item)) ps
      | Some _ => false
      | None => true
      end
  | _ => false
  end.

Definition routing_typed (routing : value) : bool :=
  match routing with
  | VDict d => match dict_get d "config" with Some c => is_dict c | None => true end
  | _ => false
  end.

Definition tool_typed (tool : value) : bool :=
  match tool with
  | VDict t =>
      match dict_get t "name" with Some (VStr _) | None => true | Some _ => false end
      && schema_typed (dict_or (dict_get t "inputSchema") (VDict []))
      && routing_typed (dict_or (dict_get t "routing") (VDict []))
  | _ => false
  end.

(** Every field migration looks into has the type migration expects. *)
Definition well_typed_legacy (legacy_content : value) : bool :=
  match legacy_content with
  | VDict c =>
      metadata_typed (dict_or (dict_get c "metadata") (VDict []))
      && match dict_or (dict_get c "tools") (VList []) with
         | VList tools => forallb tool_typed tools
         | _ => false
         end
  | _ => false
  end.

(** Every tool carries [name], [description], [inputSchema] and
    [routing.type]. *)
Definition carries_fields (tool : value) : bool :=
  match tool with
  | VDict t =>
      dict_has t "name" && dict_has t "description" && dict_has t "inputSchema"
      && match dict_get t "routing" with
         | Some (VDict r) => dict_has r "type"
         | _ => false
         end
  | _ => false
  end.

(** A legacy manifest with a non-empty tools list of such tools. *)
Definition well_formed_legacy (legacy_content : value) : bool :=
  match legacy_content with
  | VDict c =>
      match dict_get c "tools" with
      | Some (VList (tool :: tools)) => forallb carries_fields (tool :: tools)
      | _ => false
      end
  | _ => false
  end.

Definition legacy_author_not_empty (legacy_content : value) : bool :=
  match legacy_content with
  | VDict c => author_not_empty (dict_or (dict_get c "metadata") (VDict []))
  | _ => true
  end.

(** The end-to-end manifest, with an empty author in its metadata. *)
Definition empty_author_manifest : value :=
  match OrchestratorSpec.read_file_manifest with
  | VDict c => VDict (("metadata", VDict [("author", VStr EmptyString)]) :: c)
  | other => other
  end.

(** A well-formed manifest whose tool name is a number: [tool_name.lower()]
    raises, and migration produces nothing to validate. *)
Definition numeric_name_manifest : value :=
  VDict [ ("tools", VList [ VDict
    [ ("name", VInt 7); ("description", VStr "Seventh tool");
      ("inputSchema", VDict [ ("type", VStr "object") ]);
      ("routing", VDict [ ("type", VStr "subprocess") ]) ] ]) ].

End RoundTripSpec.

Module InPlaceSpec.
Import Heap InPlace.

(** The input schema of the end-to-end example. *)
Definition legacy_schema : value :=
  VDict [ ("type", VStr "object");
          ("properties", VDict [ ("path", VDict [ ("type", VStr "string") ]) ]) ].

(** The store after loading it, and the reference to it. *)
Definition loaded : heap := fst (store legacy_schema []).

Definition legacy_ref : ref_value := snd (store legacy_schema []).

(** The legacy schema as it reads after the call. *)
Definition legacy_schema_after : value :=
  VDict [ ("type", VStr "object");
          ("properties", VDict
            [ ("path", VDict
                [ ("type", VStr "string");
                  ("validation", VDict [ ("path_traversal_protection", VBool true);
                                         ("security_scan", VBool true) ]) ]) ]) ].

(** What a call returned, read back as a tree together with the legacy
    schema in the store the call left. *)
Definition read_back (r : result (heap * ref_value)) (legacy : ref_value)
  : option (value * value) :=
  match r with
  | Ok (h', enhanced) =>
      match view 8 h' enhanced, view 8 h' legacy with
      | Some e, Some l => Some (e, l)
      | _, _ => None
      end
  | Raise _ => None
  end.

End InPlaceSpec.

Module ManifestSpec.

(** [v[k1][k2]...[kn]], when every step is a key of a dictionary. *)
Fixpoint get_path (v : value) (path : list string) : option value :=
  match path with
  | [] => Some v
  | k :: rest =>
      match v with
      | VDict d => match dict_get d k with
                   | Some x => get_path x rest
                   | None => None
                   end
      | _ => None
      end
  end.

(** The keys of a dictionary, in order. *)
Definition keys (v : value) : list string :=
  match v with
  | VDict d => map fst d
  | _ => []
  end.

(** The keys of the dictionary at [path]. *)
Definition keys_at (v : value) (path : list string) : option (list string) :=
  match get_path v path with
  | Some x => Some (keys x)
  | None => None
  end.

(** The tool entries of a manifest. *)
Definition tools_of (content : value) : list value :=
  match get_path content ["tools"] with
  | Some (VList tools) => tools
  | _ => []
  end.

(** [tool.get('name', 'unknown_tool')] of a tool that is a dictionary. *)
Definition name_or_unknown (tool : value) : value :=
  match get_path tool ["name"] with
  | Some name => name
  | None => VStr "unknown_tool"
  end.

(** The names of the tool entries, where present. *)
Definition tool_names (content : value) : list (option value) :=
  map (fun tool => get_path tool ["name"]) (tools_of content).


(** The end-to-end manifest of the specification after migration. *)
Definition migrated_read_file : value :=
  match YamlMigrationTool._migrate_yaml_content
          OrchestratorSpec.read_file_manifest "file_ops" with
  | Ok enhanced => enhanced
  | Raise _ => VNone
  end.

(** A file that loads it. *)
Definition migrated_file (name : string) : yaml_file :=
  OrchestratorSpec.file_with name (Ok migrated_read_file).

(** The tool-level classifications. *)
Definition tool_levels : list string := ["safe"; "restricted"; "privileged"; "dangerous"].

(** The six keys of an enhanced tool and the keys of its sections. *)
Definition enhanced_tool_layout (et : value) : Prop :=
  keys et = ["name"; "core"; "execution"; "discovery"; "monitoring"; "access"]
  /\ keys_at et ["core"] = Some ["description"; "input_schema"]
  /\ keys_at et ["execution"] = Some ["routing"; "security"; "performance"]
  /\ keys_at et ["discovery"] = Some ["ai_enhanced"; "parameter_intelligence"]
  /\ keys_at et ["monitoring"] = Some ["progress_tracking"; "cancellation"; "metrics"]
  /\ keys_at et ["access"]
     = Some ["hidden"; "enabled"; "requires_permissions"; "user_groups";
             "approval_required"].

(** The approval and permission entries of an enhanced tool all follow
    from the one classification recorded in its security section. *)
Definition approval_consistent (et : value) : Prop :=
  exists cls,
    get_path et ["execution"; "security"; "classification"] = Some (VStr cls)
    /\ In cls tool_levels
    /\ get_path et ["access"; "requires_permissions"]
       = Some (YamlMigrationTool.strs (YamlMigrationTool._determine_permissions cls))
    /\ get_path et ["access"; "approval_required"]
       = Some (VBool (existsb (String.eqb cls) ["dangerous"; "privileged"]))
    /\ get_path et ["execution"; "security"; "requires_approval"]
       = (if existsb (String.eqb cls) ["dangerous"; "privileged"]
          then Some (VBool true) else None)
    /\ get_path et ["access"; "user_groups"]
       = Some (YamlMigrationTool.strs
                 (if String.eqb cls "safe" then ["all"] else ["administrators"])).

(** The name that [_create_enhanced_metadata] falls back on. *)
Definition default_metadata_name (file_stem : string) : string :=
  "Enhanced " +:+ PyStr.title (PyStr.replace_char "_" " " file_stem).

(** A manifest without metadata. *)
Definition bare_manifest : value :=
  VDict [("tools", VList [VDict [("name", VStr "ping")]])].

(** A manifest with a name and a version of its own, and no tools. *)
Definition named_manifest : value :=
  VDict [("metadata", VDict [("name", VStr "File tools"); ("version", VStr "1.2.0")]);
         ("tools", VList [])].

Definition migrated_named : value :=
  match YamlMigrationTool._migrate_yaml_content named_manifest "file_ops" with
  | Ok enhanced => enhanced
  | Raise _ => VNone
  end.

Definition migrated_bare : value :=
  match YamlMigrationTool._migrate_yaml_content bare_manifest "net_tools" with
  | Ok enhanced => enhanced
  | Raise _ => VNone
  end.

(** A schema with a path property that already has a [validation] entry,
    a property that is both a path and a content, and a scalar one. *)
Definition sample_schema : list (string * value) :=
  [ ("type", VStr "object");
    ("properties", VDict
      [ ("file_path", VDict [ ("type", VStr "string");
                              ("validation", VStr "legacy rule") ]);
        ("content_path", VDict [ ("type", VStr "string") ]);
        ("mode", VDict [ ("type", VStr "string"); ("default", VStr "r") ]) ]);
    ("additionalProperties", VBool true) ].

Definition migrated_sample_schema : value :=
  match YamlMigrationTool._enhance_input_schema (VDict sample_schema) with
  | Ok enhanced => enhanced
  | Raise _ => VNone
  end.

(** A tool whose schema declares a property in short form. *)
Definition short_form_tool : list (string * value) :=
  [ ("name", VStr "read_file");
    ("description", VStr "Reads a file");
    ("inputSchema", VDict
      [ ("properties", VDict [ ("path", VStr "string") ]) ]) ].

(** The routing of a tool that declares none. *)
Definition default_primary : value :=
  VDict [ ("command", VStr "echo"); ("args", VList []); ("timeout_seconds", VInt 30) ].

(** No two elements of the list are equal in Python's sense. *)
Definition no_duplicates (l : list value) : Prop :=
  ForallOrdPairs (fun x y => eq_hashable y x = false) l.

(** Legacy metadata whose tags repeat a keyword of the file name. *)
Definition tagged_metadata : list (string * value) :=
  [ ("name", VStr "File tools");
    ("tags", VList [VStr "file"; VStr "io"; VStr "io"]) ].

(** The entry of [_create_parameter_intelligence] for one property. *)
Definition parameter_entry_keys (name : string) : list string :=
  if PyStr.contains "path" (PyStr.lower name)
  then ["smart_default"; "validation"; "smart_suggestions"]
  else ["smart_default"; "validation"].

(** The whole entry, for a property configured by [cfg]. *)
Definition entry_of (name : string) (cfg : list (string * value)) : value :=
  let param_intel :=
    [ ("smart_default", ValidatorSpec.dict_or (dict_get cfg "default") VNone);
      ("validation", VList [ VDict
          [ ("rule", VStr "required_validation");
            ("message", VStr (name +:+ " must be provided and valid")) ] ]) ] in
  VDict (if PyStr.contains "path" (PyStr.lower name)
         then dict_set param_intel "smart_suggestions"
                (VList [ VDict
                   [ ("pattern", VStr "*");
                     ("description", VStr "File system paths");
                     ("examples",
                       YamlMigrationTool.strs ["/path/to/file"; "./relative/path"]) ] ])
         else param_intel).

(** The sandbox that goes with a classification. *)
Definition sandbox_of (cls : string) (et : value) : Prop :=
  get_path et ["execution"; "security"; "sandbox"; "resources"; "max_memory_mb"]
  = Some (VInt (if String.eqb cls "dangerous" then 128
                else if String.eqb cls "privileged" then 512 else 256))
  /\ get_path et ["execution"; "security"; "sandbox"; "resources";
                  "max_execution_seconds"]
     = Some (VInt (if String.eqb cls "dangerous" then 30 else 60))
  /\ keys_at et ["execution"; "security"; "sandbox"]
     = Some (if String.eqb cls "restricted"
             then ["resources"; "environment"; "filesystem"; "network"]
             else ["resources"; "environment"])
  /\ get_path et ["execution"; "security"; "sandbox"; "network"; "allowed"]
     = (if String.eqb cls "restricted" then Some (VBool false) else None).

Definition sandbox_by_classification (et : value) : Prop :=
  exists cls,
    get_path et ["execution"; "security"; "classification"] = Some (VStr cls)
    /\ In cls tool_levels
    /\ sandbox_of cls et.

(** A manifest with a dangerous tool. *)
Definition delete_manifest : value :=
  VDict [("tools", VList [VDict [("name", VStr "delete_file")]])].

Definition migrated_delete : value :=
  match YamlMigrationTool._migrate_yaml_content delete_manifest "cleanup" with
  | Ok enhanced => enhanced
  | Raise _ => VNone
  end.

(** Twelve tools and no metadata. *)
Definition twelve_tools : value :=
  VDict [("tools", VList (repeat (VDict [("name", VStr "ping")]) 12))].

Definition migrated_twelve : value :=
  match YamlMigrationTool._migrate_yaml_content twelve_tools "net_tools" with
  | Ok enhanced => enhanced
  | Raise _ => VNone
  end.

(** Progress and cancellation as the performance and the monitoring
    sections of an enhanced tool declare them. *)
Definition progress_consistent (et : value) : Prop :=
  exists tracked : bool,
    get_path et ["execution"; "performance"; "supports_progress"] = Some (VBool tracked)
    /\ get_path et ["monitoring"; "progress_tracking"; "enabled"] = Some (VBool tracked)
    /\ get_path et ["monitoring"; "cancellation"; "cleanup_required"]
       = Some (VBool tracked)
    /\ keys_at et ["monitoring"; "progress_tracking"]
       = Some (if tracked then ["enabled"; "granularity"; "sub_operations"]
               else ["enabled"; "granularity"])
    /\ get_path et ["execution"; "performance"; "supports_cancellation"]
       = Some (VBool true)
    /\ get_path et ["monitoring"; "cancellation"; "enabled"] = Some (VBool true).

End ManifestSpec.


Module ValidationRunSpec.
Import YamlMigrationValidator ValidatorSpec.

(** What validating one file alone reports: the list that [validate_file]
    returns on a validator that holds no results yet. *)
Definition file_report (f : yaml_file) : result (list ValidationResult) :=
  returned (validate_file f (init false)).

(** The reports of the files one after the other, up to the first
    exception. *)
Fixpoint reports (files : list yaml_file) : result (list ValidationResult) :=
  match files with
  | [] => Ok []
  | f :: files' =>
      match file_report f with
      | Ok out =>
          match reports files' with
          | Ok outs => Ok (out ++ outs)
          | Raise e => Raise e
          end
      | Raise e => Raise e
      end
  end.

(** The first result of a directory with files. *)
Definition found_header (d : directory) : ValidationResult :=
  {| file_path := dir_path d; level := INFO;
     message := "Found " +:+ PyStr.of_Z (Z.of_nat (length (yaml_files d)))
                +:+ " YAML files to validate";
     details := None |}.

(** A file cannot be read: it does not exist, or loading it raises. *)
Definition unreadable (f : yaml_file) : Prop :=
  file_exists f = false \/ exists e, load f = Raise e.



(** A file that is missing, a file that is empty, and a directory with
    both after a legacy file. *)
Definition missing_file : yaml_file :=
  {| path := "caps/gone.yaml"; rel_path := "gone.yaml"; stem := "gone";
     file_exists := false; load := Raise FileNotFoundError;
     backup := Ok tt; parent_mkdir := Ok tt; write := Ok tt |}.

Definition empty_file : yaml_file := OrchestratorSpec.file_with "empty" (Ok VNone).

Definition unreadable_dir : directory :=
  {| dir_path := "caps"; dir_exists := true;
     yaml_files := [missing_file; OrchestratorSpec.file_with "broken" (Raise YAMLError)];
     output_mkdir := Ok tt; print_start := Ok tt;
     print_error := fun _ => Ok tt |}.

Definition dir_with_empty_file : directory :=
  {| dir_path := "caps"; dir_exists := true;
     yaml_files := [OrchestratorSpec.file_with "file_ops" (Ok OrchestratorSpec.read_file_manifest);
                    empty_file];
     output_mkdir := Ok tt; print_start := Ok tt;
     print_error := fun _ => Ok tt |}.

End ValidationRunSpec.

Module CommandLineSpec.
Import YamlMigrationTool.

(** The same command line with other [--no-ai] and [--no-security]. *)
Definition with_flags (no_ai no_security : bool) (args : Args) : Args :=
  {| arg_input_path := arg_input_path args; arg_file := arg_file args;
     arg_batch := arg_batch args; arg_output := arg_output args;
     arg_preserve_original := arg_preserve_original args;
     arg_no_ai := no_ai; arg_no_security := no_security |}.

(** The same file where making the backup copy ends as [b]. *)
Definition set_backup (b : result unit) (f : yaml_file) : yaml_file :=
  {| path := path f; rel_path := rel_path f; stem := stem f;
     file_exists := file_exists f; load := load f;
     backup := b; parent_mkdir := parent_mkdir f; write := write f |}.

(** The same directory where the backup copy of file [f] ends as [g f]. *)
Definition with_backups (g : yaml_file -> result unit) (d : directory) : directory :=
  {| dir_path := dir_path d; dir_exists := dir_exists d;
     yaml_files := map (fun f => set_backup (g f) f) (yaml_files d);
     output_mkdir := output_mkdir d; print_start := print_start d;
     print_error := print_error d |}.

(** The statistics a directory run returned. *)
Definition returned_stats (r : result (MigrationStats * t)) : result MigrationStats :=
  match r with
  | Ok (stats, _) => Ok stats
  | Raise e => Raise e
  end.

(** Two runs end alike: both raise the same exception, or both return
    with the same statistics. *)
Definition same_stats (r1 r2 : result t) : Prop :=
  match r1, r2 with
  | Ok a, Ok b => migration_stats a = migration_stats b
  | Raise e1, Raise e2 => e1 = e2
  | _, _ => False
  end.

(** The directory that [main] runs on, when it takes the directory
    branch. *)
Definition directory_target (fs : file_system) (args : Args) : option string :=
  if given (arg_file args) then None
  else if given (arg_batch args) then Some (path_of (arg_batch args))
  else if given (arg_input_path args)
       then if is_file fs (path_of (arg_input_path args)) then None
            else Some (path_of (arg_input_path args))
       else None.




(** A file system where every path names the sample directory, and a file
    that cannot be read. *)
Definition failing_dir : directory :=
  {| dir_path := "caps"; dir_exists := true;
     yaml_files := [ OrchestratorSpec.file_with "a" (Raise YAMLError);
                     OrchestratorSpec.file_with "b" (Ok VNone) ];
     output_mkdir := Ok tt; print_start := Ok tt;
     print_error := fun _ => Ok tt |}.

Definition sample_fs (d : directory) (f : yaml_file) : file_system :=
  {| file_at := fun _ => f; directory_at := fun _ => d; is_file := fun _ => false |}.

Definition batch_args (preserve : bool) : Args :=
  {| arg_input_path := None; arg_file := None; arg_batch := Some "caps";
     arg_output := None; arg_preserve_original := preserve;
     arg_no_ai := false; arg_no_security := false |}.

Definition batch_to (output : string) : Args :=
  {| arg_input_path := None; arg_file := None; arg_batch := Some "caps";
     arg_output := Some output; arg_preserve_original := false;
     arg_no_ai := false; arg_no_security := false |}.


End CommandLineSpec.

Module InPlaceFrameSpec.
Import Heap InPlace.

(** What a call may do to the objects that were there before it: the
    store only grows, a list stays as it is, and a dictionary keeps every
    entry other than [validation]. *)
Definition preserved (h h' : heap) : Prop :=
  length h <= length h'
  /\ forall x o,
       h !! x = Some o ->
       match o with
       | OList rs => h' !! x = Some (OList rs)
       | ODict d =>
           exists d', h' !! x = Some (ODict d')
                      /\ forall k, k <> "validation" -> field_get d' k = field_get d k
       end.

(** The rules that the name of a property selects. *)
Definition validation_for (prop_name : string) : option (list (string * ref_value)) :=
  if PyStr.contains "path" (PyStr.lower prop_name)
  then Some [("path_traversal_protection", RBool true); ("security_scan", RBool true)]
  else if PyStr.contains "content" (PyStr.lower prop_name)
  then Some [("max_size_mb", RInt 10); ("content_filter", RBool true)]
  else None.

(** The objects that configure the properties. *)
Definition config_refs (properties : list (string * ref_value)) : list loc :=
  flat_map (fun item => match snd item with RRef r => [r] | _ => [] end) properties.

(** No alias reaches the configuration at [q]: one property only is
    configured by it; and the configurations are objects of the store [h],
    none of them the properties dictionary [p] itself. *)
Definition sole_owner (h : heap) (p q : loc) (properties : list (string * ref_value))
  : bool :=
  (length (List.filter (Nat.eqb q) (config_refs properties)) =? 1)%nat
  && forallb (fun r => (r <? length h)%nat && negb (r =? p)%nat)
       (config_refs properties).

(** What the call leaves at [q], the configuration [cfg] of a property
    named [prop_name], in a store that had [n] objects. *)
Definition enhanced_in_place (n : nat) (h' : heap) (prop_name : string) (q : loc)
           (cfg : list (string * ref_value)) : Prop :=
  match validation_for prop_name with
  | Some rules =>
      exists v, n < v /\ h' !! v = Some (ODict rules)
                /\ h' !! q = Some (ODict (field_set cfg "validation" (RRef v)))
  | None => h' !! q = Some (ODict cfg)
  end.

(** The sample schema as the loader stores it. *)
Definition sample_store : heap := fst (store (VDict ManifestSpec.sample_schema) []).

Definition sample_ref : ref_value := snd (store (VDict ManifestSpec.sample_schema) []).

Definition sample_after : heap :=
  match _enhance_input_schema sample_store sample_ref with
  | Ok r => fst r
  | Raise _ => []
  end.

(** A schema whose two properties are configured by one object, as a YAML
    alias makes them. *)
Definition aliased_store : heap :=
  [ ODict [("type", RStr "string")];
    ODict [("file_path", RRef 0); ("mode", RRef 0)];
    ODict [("properties", RRef 1)] ].

Definition aliased_after : heap :=
  match _enhance_input_schema aliased_store (RRef 2) with
  | Ok r => fst r
  | Raise _ => []
  end.

(** The store and the reference that the call on the loaded end-to-end
    schema leaves. *)
Definition after_call : heap * ref_value :=
  match _enhance_input_schema InPlaceSpec.loaded InPlaceSpec.legacy_ref with
  | Ok r => r
  | Raise _ => ([], RNone)
  end.

End InPlaceFrameSpec.
(* ===================================================================== *)
(** * Part III -- properties                                              *)
(* ===================================================================== *)

(** ** Strings *)
Module PyStrFacts.
Import PyStr.
Import PyStrSpec.

Lemma startswith_spec (s p : string) :
  startswith s p = true <-> exists rest, s = p +:+ rest.
Proof.
  revert s; induction p as [|a p IH]; intros s; simpl.
  - split; [intros _; now exists s | now destruct s].
  - destruct s as [|b s]; simpl.
    + split; [discriminate | intros [rest H]; discriminate].
    + rewrite Bool.andb_true_iff, Ascii.eqb_eq, IH. split.
      * intros [-> [rest ->]]. now exists rest.
      * intros [rest H]. injection H as -> ->. split; [reflexivity | now exists rest].
Qed.

Lemma contains_nil (w : string) : contains w EmptyString = startswith EmptyString w.
Proof. destruct w; reflexivity. Qed.

Lemma contains_cons (w : string) c s :
  contains w (String c s) = startswith (String c s) w || contains w s.
Proof. destruct w; reflexivity. Qed.

Lemma contains_spec (w s : string) : contains w s = true <-> occurs w s.
Proof.
  unfold occurs. induction s as [|c s IH].
  - rewrite contains_nil, startswith_spec. split.
    + intros [rest H]. now exists EmptyString, rest.
    + intros [pre [post H]]. destruct pre; simpl in H; [now exists post | discriminate].
  - rewrite contains_cons, orb_true_iff, startswith_spec, IH. split.
    + intros [[rest H] | [pre [post H]]].
      * now exists EmptyString, rest.
      * exists (String c pre), post. simpl. now rewrite H.
    + intros [pre [post H]]. destruct pre as [|c' pre]; simpl in H.
      * left. now exists post.
      * right. injection H as -> ->. now exists pre, post.
Qed.

Lemma any_in_spec (words : list string) (s : string) :
  any_in words s = true <-> exists w, In w words /\ occurs w s.
Proof.
  unfold any_in. rewrite existsb_exists.
  split; intros [w [Hin H]]; exists w; (split; [exact Hin|]);
    now apply contains_spec.
Qed.

Lemma any_in_false (words : list string) (s : string) :
  any_in words s = false <-> ~ exists w, In w words /\ occurs w s.
Proof.
  rewrite <- any_in_spec. destruct (any_in words s); intuition congruence.
Qed.

(** A string that starts with "get" does not start with "read". *)
Lemma startswith_get_not_read (s : string) :
  startswith s "get" = true -> startswith s "read" = false.
Proof.
  intros H. apply startswith_spec in H as [rest ->]. reflexivity.
Qed.

End PyStrFacts.

(** ** Dictionaries and the error monad *)
Module PyFacts.

Lemma dict_get_set_same d k v : dict_get (dict_set d k v) k = Some v.
Proof.
  induction d as [|[k' v'] d IH]; simpl.
  - now rewrite String.eqb_refl.
  - destruct (String.eqb k' k) eqn:E; simpl; rewrite E; [reflexivity | exact IH].
Qed.

Lemma dict_get_set_other d k k' v :
  k <> k' -> dict_get (dict_set d k v) k' = dict_get d k'.
Proof.
  intros Hne. induction d as [|[k0 v0] d IH]; simpl.
  - destruct (String.eqb k k') eqn:E; [apply String.eqb_eq in E; contradiction | reflexivity].
  - destruct (String.eqb k0 k) eqn:E; simpl.
    + apply String.eqb_eq in E; subst k0.
      destruct (String.eqb k k') eqn:E'; [apply String.eqb_eq in E'; contradiction | reflexivity].
    + destruct (String.eqb k0 k'); [reflexivity | exact IH].
Qed.

Lemma dict_has_set_same d k v : dict_has (dict_set d k v) k = true.
Proof. unfold dict_has. now rewrite dict_get_set_same. Qed.

Lemma dict_has_set_other d k k' v :
  k <> k' -> dict_has (dict_set d k v) k' = dict_has d k'.
Proof. intros H. unfold dict_has. now rewrite dict_get_set_other. Qed.

Lemma dict_set_nonempty d k v : dict_set d k v <> [].
Proof. destruct d as [|[k' v'] d]; simpl; [|destruct (String.eqb k' k)]; discriminate. Qed.

Lemma bind_ok {A B} (m : result A) (k : A -> result B) (b : B) :
  Py.bind m k = Ok b -> exists a, m = Ok a /\ k a = Ok b.
Proof. destruct m as [a|e]; simpl; [now exists a | discriminate]. Qed.

Lemma mapM_ok_Forall2 {A B} (f : A -> result B) xs ys :
  mapM f xs = Ok ys -> Forall2 (fun x y => f x = Ok y) xs ys.
Proof.
  revert ys; induction xs as [|x xs IH]; intros ys H; simpl in H.
  - injection H as <-. constructor.
  - apply bind_ok in H as [y [Hy H]]. apply bind_ok in H as [ys' [Hys H]].
    injection H as <-. constructor; [exact Hy | now apply IH].
Qed.

End PyFacts.

(* ===================================================================== *)
(** ** The classifier and the per-tool tables                             *)
(* ===================================================================== *)
Module ClassifierProps.
Import YamlMigrationTool PyStrFacts.
Import ClassifierSpec.

Lemma classify_security_level file_stem metadata lvl cx dom uc :
  _classify_capability file_stem metadata = Ok (lvl, cx, dom, uc) ->
  lvl = security_level_of file_stem.
Proof.
  unfold _classify_capability. intros H.
  apply PyFacts.bind_ok in H as [tools [_ H]].
  apply PyFacts.bind_ok in H as [n [_ H]].
  now injection H as <- _ _ _.
Qed.

Lemma security_level_of_priority file_stem :
  (bucket_matches privileged_triggers file_stem ->
     security_level_of file_stem = "privileged")
  /\ (~ bucket_matches privileged_triggers file_stem ->
      bucket_matches restricted_triggers file_stem ->
      security_level_of file_stem = "restricted")
  /\ (~ bucket_matches privileged_triggers file_stem ->
      ~ bucket_matches restricted_triggers file_stem ->
      bucket_matches dangerous_triggers file_stem ->
      security_level_of file_stem = "dangerous")
  /\ (~ bucket_matches privileged_triggers file_stem ->
      ~ bucket_matches restricted_triggers file_stem ->
      ~ bucket_matches dangerous_triggers file_stem ->
      security_level_of file_stem = "safe").
Proof.
  unfold bucket_matches, security_level_of,
    privileged_triggers, restricted_triggers, dangerous_triggers.
  repeat split; intros;
    repeat match goal with
      | H : ~ _ |- _ => apply any_in_false in H; rewrite H
      | H : exists _, _ |- _ => apply any_in_spec in H; rewrite H
      end; reflexivity.
Qed.

(** C2, as the source has it: the identifier "delete_file" holds the
    trigger "file" of the restricted bucket, which is tested before the
    dangerous bucket, so the classifier answers restricted for it and not
    dangerous. *)
Lemma delete_file_classified_restricted :
  security_level_result (_classify_capability "delete_file" (VDict []))
  = Some "restricted"
  /\ security_level_result (_classify_capability "delete_file" (VDict []))
     <> Some "dangerous".
Proof. split; [reflexivity | discriminate]. Qed.

(** C2 (amended): whenever [_classify_capability] returns, its security
    level is decided by the first matching bucket in the order privileged,
    restricted, dangerous, and is safe when no bucket matches; "admin_tools"
    is privileged, "delete_file" is restricted (its "file" is met before its
    "delete"), and "delete_items" is dangerous. *)
Theorem security_buckets_first_match file_stem metadata lvl cx dom uc :
  _classify_capability file_stem metadata = Ok (lvl, cx, dom, uc) ->
  ((bucket_matches privileged_triggers file_stem -> lvl = "privileged")
   /\ (~ bucket_matches privileged_triggers file_stem ->
       bucket_matches restricted_triggers file_stem -> lvl = "restricted")
   /\ (~ bucket_matches privileged_triggers file_stem ->
       ~ bucket_matches restricted_triggers file_stem ->
       bucket_matches dangerous_triggers file_stem -> lvl = "dangerous")
   /\ (~ bucket_matches privileged_triggers file_stem ->
       ~ bucket_matches restricted_triggers file_stem ->
       ~ bucket_matches dangerous_triggers file_stem -> lvl = "safe"))
  /\ security_level_result (_classify_capability "admin_tools" metadata)
     = Some "privileged"
  /\ security_level_result (_classify_capability "delete_file" metadata)
     = Some "restricted"
  /\ security_level_result (_classify_capability "delete_items" metadata)
     = Some "dangerous".
Proof.
  intros H. pose proof (classify_security_level _ _ _ _ _ _ H) as ->.
  split; [apply security_level_of_priority|].
  unfold _classify_capability in *.
  destruct (get metadata "tools" (VList [])) as [tools|]; simpl in *; [|discriminate].
  destruct (len tools); simpl in *; [|discriminate].
  repeat split.
Qed.

Lemma security_buckets_first_match_witness :
  bucket_matches dangerous_triggers "delete_items"
  /\ security_level_result (_classify_capability "delete_items" (VDict []))
     = Some "dangerous".
Proof.
  split.
  - exists "delete". split; [simpl; tauto | now exists EmptyString, "_items"].
  - pose proof (security_buckets_first_match "delete_items" (VDict [])
                  "dangerous" "simple" "general" ["general_purpose"] eq_refl)
      as [_ [_ [_ H]]].
    exact H.
Defined.

(** C4: the permission lists grow along safe, restricted, privileged,
    dangerous: safe holds the base execute permission only, and each later
    list contains the list before it. *)
Theorem permissions_monotonic :
  _determine_permissions "safe" = ["tool:execute"]
  /\ incl (_determine_permissions "safe") (_determine_permissions "restricted")
  /\ incl (_determine_permissions "restricted") (_determine_permissions "privileged")
  /\ incl (_determine_permissions "privileged") (_determine_permissions "dangerous")
  /\ (length (_determine_permissions "safe")
      < length (_determine_permissions "restricted")
      < length (_determine_permissions "privileged"))%nat
  /\ (length (_determine_permissions "privileged")
      < length (_determine_permissions "dangerous"))%nat.
Proof.
  repeat split; try (intros x Hx; simpl in *; tauto); simpl; lia.
Qed.

Lemma read_prefix_cached_300 tool_name :
  PyStr.startswith tool_name "read" = true ->
  performance_field tool_name "cache_results" = Some (VBool true)
  /\ performance_field tool_name "cache_ttl_seconds" = Some (VInt 300).
Proof.
  intros H. unfold performance_field, _create_performance_config. simpl.
  now rewrite H.
Qed.

Lemma other_prefix_not_cached tool_name :
  PyStr.startswith tool_name "read" = false ->
  PyStr.startswith tool_name "get" = false ->
  performance_field tool_name "cache_results" = Some (VBool false)
  /\ performance_field tool_name "cache_ttl_seconds" = Some (VInt 0).
Proof.
  intros H1 H2. unfold performance_field, _create_performance_config. simpl.
  now rewrite H1, H2.
Qed.

(** C7, what the source does for a get-prefixed name: [cache_results] tests
    both prefixes, [cache_ttl_seconds] tests "read" only, so the tool is
    marked cacheable with a time to live of 0 and not of 300. *)
Theorem get_prefix_cached_with_ttl_0 tool_name :
  PyStr.startswith tool_name "get" = true ->
  performance_field tool_name "cache_results" = Some (VBool true)
  /\ performance_field tool_name "cache_ttl_seconds" = Some (VInt 0).
Proof.
  intros H. pose proof (startswith_get_not_read _ H) as Hr.
  unfold performance_field, _create_performance_config. simpl.
  now rewrite H, Hr.
Qed.

Lemma get_prefix_cached_with_ttl_0_witness :
  PyStr.startswith "get_user" "get" = true
  /\ performance_field "get_user" "cache_results" = Some (VBool true)
  /\ performance_field "get_user" "cache_ttl_seconds" = Some (VInt 0).
Proof.
  split; [reflexivity | apply (get_prefix_cached_with_ttl_0 "get_user"); reflexivity].
Defined.

End ClassifierProps.

(* ===================================================================== *)
(** ** Format detection in the two pipelines                              *)
(* ===================================================================== *)
Module FormatDetectorProps.
Import YamlMigrationTool.
Import FormatDetectorSpec.

Lemma validator_detector_is_spec content :
  YamlMigrationValidator._is_enhanced_format content = spec_is_enhanced content.
Proof.
  unfold YamlMigrationValidator._is_enhanced_format, spec_is_enhanced,
    metadata_marks_enhanced, first_tool_sections.
  destruct content as [| | | | |c]; try reflexivity.
  destruct (dict_get c "metadata") as [[| | | | |m]|];
    destruct (dict_get c "tools") as [[| | | |[|[| | | | |ft] ?]|]|];
    cbv beta iota;
    try destruct (dict_has m "classification" || dict_has m "discovery_metadata"
                  || dict_has m "mcp_capabilities");
    try reflexivity;
    now destruct (3 <=? _)%nat.
Qed.

Lemma orchestrator_detector_on_mappings fp content :
  metadata_is_mapping content = true ->
  _is_already_enhanced (parsed fp content)
  = metadata_marks_enhanced content || mentions_protocol_tag content.
Proof.
  unfold metadata_is_mapping, _is_already_enhanced, metadata_marks_enhanced,
    mentions_protocol_tag.
  destruct content as [| | | | |c]; try discriminate. simpl.
  destruct (dict_get c "metadata") as [[| | | | |m]|]; try discriminate; intros _.
  - simpl. unfold por; simpl.
    destruct (dict_has m "classification"); simpl; [reflexivity|].
    destruct (dict_has m "discovery_metadata"); simpl; [reflexivity|].
    destruct (dict_has m "mcp_capabilities"); reflexivity.
  - reflexivity.
Qed.

(** C3, as the source has it: the two detectors are different functions.
    Three enhanced sections without enhanced metadata are enhanced for the
    validator only; a legacy manifest that mentions the protocol version in
    a description is enhanced for the orchestrator only. *)
Lemma detectors_disagree :
  YamlMigrationValidator._is_enhanced_format sections_only = true
  /\ _is_already_enhanced (parsed "caps/sections.yaml" sections_only) = false
  /\ YamlMigrationValidator._is_enhanced_format tagged_legacy = false
  /\ _is_already_enhanced (parsed "caps/tagged.yaml" tagged_legacy) = true.
Proof. repeat split; vm_compute; reflexivity. Qed.

(** C3 (amended): the rule of the specification is the validator's format
    detector, on every parsed manifest.  The orchestrator's check shares its
    metadata half only: both answer true when the metadata mapping holds one
    of the three keys; on a manifest with a metadata mapping (or none) the
    orchestrator otherwise answers whether the text "MCP 2025-06-18" occurs
    in the printed manifest, and never looks at the tool sections. *)
Theorem format_detectors_compared fp content :
  YamlMigrationValidator._is_enhanced_format content = spec_is_enhanced content
  /\ (metadata_marks_enhanced content = true ->
      _is_already_enhanced (parsed fp content) = true
      /\ YamlMigrationValidator._is_enhanced_format content = true)
  /\ (metadata_is_mapping content = true ->
      _is_already_enhanced (parsed fp content)
      = metadata_marks_enhanced content || mentions_protocol_tag content).
Proof.
  split; [apply validator_detector_is_spec|]. split.
  - intros H. split.
    + rewrite orchestrator_detector_on_mappings; [now rewrite H|].
      unfold metadata_marks_enhanced, metadata_is_mapping in *.
      destruct content as [| | | | |c]; try discriminate.
      destruct (dict_get c "metadata") as [[| | | | |m]|]; try discriminate; reflexivity.
    + rewrite validator_detector_is_spec. unfold spec_is_enhanced. now rewrite H.
  - apply orchestrator_detector_on_mappings.
Qed.

Lemma format_detectors_compared_witness :
  metadata_is_mapping tagged_legacy = true
  /\ _is_already_enhanced (parsed "caps/tagged.yaml" tagged_legacy)
     = metadata_marks_enhanced tagged_legacy || mentions_protocol_tag tagged_legacy.
Proof.
  split; [reflexivity|].
  exact (proj2 (proj2 (format_detectors_compared "caps/tagged.yaml" tagged_legacy))
           eq_refl).
Defined.

End FormatDetectorProps.

(* ===================================================================== *)
(** ** The migration run: statistics and error isolation                  *)
(* ===================================================================== *)
Module OrchestratorProps.
Import YamlMigrationTool.
Import OrchestratorSpec.

Lemma migrate_file_ok f out self b self' :
  migrate_file f out self = Ok (b, self') ->
  b = true /\ self' = incr_files_migrated (incr_files_processed self).
Proof.
  unfold migrate_file. destruct (negb (file_exists f)); [discriminate|].
  intros H.
  apply PyFacts.bind_ok in H as [_ [_ H]].
  apply PyFacts.bind_ok in H as [legacy [_ H]].
  apply PyFacts.bind_ok in H as [enhanced [_ H]].
  apply PyFacts.bind_ok in H as [_ [_ H]].
  now injection H as <- <-.
Qed.

(** Whether [migrate_file] raises does not depend on the statistics. *)
Lemma migrate_file_raise f out self1 self2 e :
  config self1 = config self2 ->
  migrate_file f out self1 = Raise e -> migrate_file f out self2 = Raise e.
Proof.
  unfold migrate_file. intros <-. destruct (negb (file_exists f)); [easy|].
  destruct (if create_backup (config self1) && no_output out then backup f else Ok tt);
    [|easy]; simpl.
  destruct (load f); [|easy]; simpl.
  destruct (_migrate_yaml_content _ _); [|easy]; simpl.
  destruct (write f); [discriminate | easy].
Qed.

(** The three ends of one iteration. *)
Lemma step_cases root self f :
  (_is_already_enhanced f = true
   /\ migrate_directory_step root self f = incr_files_skipped self)
  \/ (_is_already_enhanced f = false
      /\ migrate_directory_step root self f
         = incr_files_migrated (incr_files_processed self))
  \/ (_is_already_enhanced f = false
      /\ exists e, migrate_directory_step root self f
                   = append_error self (failure_message f e)).
Proof.
  unfold migrate_directory_step, migrate_directory_try, failure_message.
  destruct (_is_already_enhanced f); [left; now split|]. right.
  destruct (parent_mkdir f) as [[]|e]; simpl; [|right; split; [reflexivity | now exists e]].
  destruct (migrate_file f _ self) as [[b self']|e] eqn:E; simpl.
  - left. split; [reflexivity|]. now apply migrate_file_ok in E.
  - right. split; [reflexivity | now exists e].
Qed.

Lemma step_config root self f :
  config (migrate_directory_step root self f) = config self.
Proof.
  destruct (step_cases root self f) as [[_ ->] | [[_ ->] | [_ [e ->]]]]; reflexivity.
Qed.

Lemma step_accounted root self f :
  accounted (migrate_directory_step root self f) = accounted self + 1.
Proof.
  destruct (step_cases root self f) as [[_ ->] | [[_ ->] | [_ [e ->]]]];
    unfold accounted; simpl; rewrite ?length_app; simpl; lia.
Qed.

Lemma step_counters_agree root self f :
  counters_agree self -> counters_agree (migrate_directory_step root self f).
Proof.
  unfold counters_agree.
  destruct (step_cases root self f) as [[_ ->] | [[_ ->] | [_ [e ->]]]];
    simpl; lia.
Qed.

Lemma run_accounted root files self :
  accounted (fold_left (migrate_directory_step root) files self)
  = accounted self + length files.
Proof.
  revert self; induction files as [|f files IH]; intros self; simpl; [lia|].
  rewrite IH, step_accounted. lia.
Qed.

Lemma run_counters_agree root files self :
  counters_agree self ->
  counters_agree (fold_left (migrate_directory_step root) files self).
Proof.
  revert self; induction files as [|f files IH]; intros self H; simpl; [exact H|].
  apply IH, step_counters_agree, H.
Qed.

Lemma run_config root files self :
  config (fold_left (migrate_directory_step root) files self) = config self.
Proof.
  revert self; induction files as [|f files IH]; intros self; simpl; [reflexivity|].
  now rewrite IH, step_config.
Qed.

Lemma step_failure root self f e :
  fails_with root self f e ->
  migrate_directory_step root self f = append_error self (failure_message f e).
Proof.
  unfold fails_with, migrate_directory_step, migrate_directory_try, failure_message.
  intros [-> [-> | [-> ->]]]; reflexivity.
Qed.

(** The loop and the iterations: when the loop returns, it returns the
    object the iterations leave. *)
Lemma loop_returns d root files self s :
  migrate_directory_loop d root files self = Ok s ->
  s = fold_left (migrate_directory_step root) files self.
Proof.
  revert self. induction files as [|f files IH]; intros self; cbn [migrate_directory_loop].
  - now intros [= <-].
  - intros H. apply PyFacts.bind_ok in H as [_ [_ H]]. exact (IH _ H).
Qed.

Lemma loop_printed d root files self :
  prints_errors d ->
  migrate_directory_loop d root files self
  = Ok (fold_left (migrate_directory_step root) files self).
Proof.
  intros Hp. revert self.
  induction files as [|f files IH]; intros self; cbn [migrate_directory_loop fold_left];
    [reflexivity|].
  destruct (migrate_directory_try root self f); [|rewrite Hp]; cbn [Py.bind]; apply IH.
Qed.

Lemma loop_app d root before after self :
  migrate_directory_loop d root (before ++ after) self
  = (s <- migrate_directory_loop d root before self ;;
     migrate_directory_loop d root after s).
Proof.
  revert self. induction before as [|f before IH]; intros self; [reflexivity|].
  cbn [app migrate_directory_loop].
  destruct (match migrate_directory_try root self f with
            | Ok _ => Ok tt | Raise e => _ end); [|reflexivity].
  cbn [Py.bind]. apply IH.
Qed.

Lemma try_failure root self f e :
  fails_with root self f e -> migrate_directory_try root self f = Raise e.
Proof.
  unfold fails_with, migrate_directory_try.
  intros [-> [-> | [-> ->]]]; reflexivity.
Qed.

Lemma run_from_start input_dir output_dir self :
  starts input_dir output_dir ->
  migrate_directory input_dir output_dir self
  = (s <- migrate_directory_loop input_dir (output_path input_dir output_dir)
            (yaml_files input_dir) self ;;
     Ok (migration_stats s, s)).
Proof.
  intros (Hd & Hm & Hp). unfold migrate_directory. now rewrite Hd, Hm, Hp.
Qed.

(** The source run with an output root that cannot be created: the input
    root exists, and the call raises before any file is touched. *)
Lemma output_root_failure_aborts :
  dir_exists blocked_output_dir = true
  /\ migrate_directory blocked_output_dir (Some "out") (init default_config)
     = Raise OSError.
Proof. split; reflexivity. Qed.

(** C9 (amended): which exceptions leave a directory run.  The run raises
    before any file is touched when the input root does not exist, and also
    when the output root has to be created and cannot be, or when the opening
    lines cannot be printed.  Once the loop is reached and the console prints
    the messages of the handler, the run returns whatever the files do: its
    result is the object that the iterations leave, one after the other, and
    every enumerated file is accounted for.  A file that fails adds its one
    message to [errors] and leaves the rest of the statistics alone, and the
    files after it are processed from that state.  The handler prints the
    message it appended; if that print raises, the exception leaves the loop
    and the run. *)
Theorem batch_error_isolation input_dir output_dir self :
  (dir_exists input_dir = false ->
   migrate_directory input_dir output_dir self = Raise FileNotFoundError)
  /\ (forall e,
        dir_exists input_dir = true -> no_output output_dir = false ->
        output_mkdir input_dir = Raise e ->
        migrate_directory input_dir output_dir self = Raise e)
  /\ (forall e,
        dir_exists input_dir = true ->
        (if no_output output_dir then Ok tt else output_mkdir input_dir) = Ok tt ->
        print_start input_dir = Raise e ->
        migrate_directory input_dir output_dir self = Raise e)
  /\ (starts input_dir output_dir -> prints_errors input_dir ->
      migrate_directory input_dir output_dir self
      = Ok (migration_stats (after_files input_dir output_dir (yaml_files input_dir) self),
            after_files input_dir output_dir (yaml_files input_dir) self)
      /\ accounted (after_files input_dir output_dir (yaml_files input_dir) self)
         = accounted self + length (yaml_files input_dir))
  /\ (forall before f after e,
        yaml_files input_dir = before ++ f :: after ->
        fails_with (output_path input_dir output_dir)
          (after_files input_dir output_dir before self) f e ->
        after_files input_dir output_dir (yaml_files input_dir) self
        = after_files input_dir output_dir after
            (append_error (after_files input_dir output_dir before self)
                          (failure_message f e)))
  /\ (forall before f after e e',
        starts input_dir output_dir ->
        yaml_files input_dir = before ++ f :: after ->
        migrate_directory_loop input_dir (output_path input_dir output_dir) before self
        = Ok (after_files input_dir output_dir before self) ->
        fails_with (output_path input_dir output_dir)
          (after_files input_dir output_dir before self) f e ->
        print_error input_dir (failure_message f e) = Raise e' ->
        migrate_directory input_dir output_dir self = Raise e').
Proof.
  split; [|split; [|split; [|split; [|split]]]].
  - unfold migrate_directory. now intros ->.
  - intros e Hd Ho He. unfold migrate_directory. now rewrite Hd, Ho, He.
  - intros e Hd Ho He. unfold migrate_directory. now rewrite Hd, Ho, He.
  - intros Hs Hp. rewrite (run_from_start _ _ _ Hs), (loop_printed _ _ _ _ Hp).
    split; [reflexivity | apply run_accounted].
  - intros before f after e -> H. unfold after_files in *.
    rewrite fold_left_app. cbn [fold_left]. now rewrite (step_failure _ _ _ _ H).
  - intros before f after e e' Hs Hfiles Hbefore Hf He.
    rewrite (run_from_start _ _ _ Hs), Hfiles, loop_app, Hbefore.
    cbn [Py.bind migrate_directory_loop].
    rewrite (try_failure _ _ _ _ Hf).
    unfold failure_message in He. now rewrite He.
Qed.

Lemma batch_error_isolation_witness :
  starts sample_dir None
  /\ migrate_directory sample_dir None (init default_config)
     = Ok (migration_stats (after_files sample_dir None sample_files (init default_config)),
           after_files sample_dir None sample_files (init default_config))
  /\ accounted (after_files sample_dir None sample_files (init default_config))
     = accounted (init default_config) + 4
  /\ migrate_directory mute_dir None (init default_config) = Raise OSError.
Proof.
  assert (Hs : starts sample_dir None) by (repeat split).
  assert (Hm : starts mute_dir None) by (repeat split).
  destruct (batch_error_isolation sample_dir None (init default_config))
    as (_ & _ & _ & Hreturns & _ & _).
  destruct (batch_error_isolation mute_dir None (init default_config))
    as (_ & _ & _ & _ & _ & Hescapes).
  destruct (Hreturns Hs (fun _ => eq_refl)) as [Hrun Hacc].
  split; [exact Hs|]. split; [exact Hrun|]. split; [exact Hacc|].
  apply (Hescapes [file_with "file_ops" (Ok read_file_manifest)]
           (file_with "broken" (Raise YAMLError))
           [file_with "done" (Ok sample_enhanced_metadata);
            file_with "more_ops" (Ok read_file_manifest)]
           YAMLError OSError Hm eq_refl).
  - vm_compute. reflexivity.
  - split; [reflexivity|]. right. split; reflexivity.
  - reflexivity.
Defined.

(** The run on the sample directory: two files migrated, one skipped, one
    failed with its message, and the failure did not stop the fourth file. *)
Example sample_run :
  migrate_directory sample_dir None (init default_config)
  = Ok ({| files_processed := 2; files_migrated := 2; files_skipped := 1;
           errors := ["Failed to migrate caps/broken.yaml: YAMLError"] |},
        {| config := default_config;
           migration_stats :=
             {| files_processed := 2; files_migrated := 2; files_skipped := 1;
                errors := ["Failed to migrate caps/broken.yaml: YAMLError"] |} |}).
Proof. vm_compute. reflexivity. Qed.

(** The directory scenario of the specification: three legacy files and
    one already enhanced file. *)
Example three_legacy_one_enhanced :
  migrate_directory
    {| dir_path := "caps"; dir_exists := true;
       yaml_files := [ file_with "a" (Ok read_file_manifest);
                       file_with "b" (Ok read_file_manifest);
                       file_with "c" (Ok sample_enhanced_metadata);
                       file_with "d" (Ok read_file_manifest) ];
       output_mkdir := Ok tt; print_start := Ok tt;
       print_error := fun _ => Ok tt |}
    (Some "out") (init default_config)
  = Ok ({| files_processed := 3; files_migrated := 3; files_skipped := 1;
           errors := [] |},
        {| config := default_config;
           migration_stats := {| files_processed := 3; files_migrated := 3;
                                 files_skipped := 1; errors := [] |} |}).
Proof. vm_compute. reflexivity. Qed.

(** C10: from a state where [files_processed] equals [files_migrated] (the
    initial state is one), the two are equal after every iteration of a
    directory run; an iteration on an already enhanced file increments
    [files_skipped] only, every other iteration either increments both
    [files_processed] and [files_migrated] or appends one message to [errors]
    and changes no counter; a successful [migrate_file] increments both. *)
Theorem processed_equals_migrated root self files :
  counters_agree self ->
  (forall n, counters_agree (fold_left (migrate_directory_step root) (take n files) self))
  /\ (forall f,
        (_is_already_enhanced f = true ->
         migrate_directory_step root self f = incr_files_skipped self)
        /\ (_is_already_enhanced f = false ->
            migrate_directory_step root self f
            = incr_files_migrated (incr_files_processed self)
            \/ exists e, migrate_directory_step root self f
                         = append_error self (failure_message f e)))
  /\ (forall f out b self',
        migrate_file f out self = Ok (b, self') ->
        self' = incr_files_migrated (incr_files_processed self)
        /\ counters_agree self').
Proof.
  intros H. repeat split.
  - intros n. now apply run_counters_agree.
  - intros E. destruct (step_cases root self f) as [[_ ->] | [[E' _] | [E' _]]];
      [reflexivity | congruence | congruence].
  - intros E. destruct (step_cases root self f) as [[E' _] | [[_ ->] | [_ [e ->]]]];
      [congruence | now left | right; now exists e].
  - now apply migrate_file_ok in H0.
  - apply migrate_file_ok in H0 as [_ ->]. unfold counters_agree in *. simpl. lia.
Qed.

Lemma processed_equals_migrated_witness :
  counters_agree (init default_config)
  /\ counters_agree
       (fold_left (migrate_directory_step "caps") (take 2 sample_files)
                  (init default_config)).
Proof.
  split; [reflexivity|].
  exact (proj1 (processed_equals_migrated "caps" (init default_config) sample_files
                  eq_refl) 2).
Defined.

End OrchestratorProps.

(* ===================================================================== *)
(** ** The validator: what a run appends                                  *)
(* ===================================================================== *)
Module ValidatorProps.
Import YamlMigrationValidator.
Local Open Scope validator_scope.
Import ValidatorSpec.

Lemma extend_nil self : extend self [] = self.
Proof. destruct self. unfold extend. simpl. now rewrite app_nil_r. Qed.

Lemma extend_extend self out1 out2 :
  extend (extend self out1) out2 = extend self (out1 ++ out2).
Proof. unfold extend. simpl. now rewrite app_assoc. Qed.

Lemma appends_mret {A} (a : A) : appends (mret a) (Ok (a, [])).
Proof. intros self. unfold mret. now rewrite extend_nil. Qed.

Lemma appends_lift {A} (r : result A) :
  appends (lift r) (match r with Ok a => Ok (a, []) | Raise e => Raise e end).
Proof. intros self. unfold lift. destruct r; [now rewrite extend_nil | reflexivity]. Qed.

Lemma appends_append fp l msg d :
  appends (append fp l msg d)
    (Ok (tt, [ {| file_path := fp; level := l; message := msg; details := d |} ])).
Proof. intros self. reflexivity. Qed.

Lemma appends_bind {A B} (m : M A) (k : A -> M B) rm rk :
  appends m rm -> (forall a, appends (k a) (rk a)) ->
  appends (mbind m k)
    (match rm with
     | Ok (a, out) =>
         match rk a with
         | Ok (b, out') => Ok (b, out ++ out')
         | Raise e => Raise e
         end
     | Raise e => Raise e
     end).
Proof.
  intros Hm Hk self. unfold mbind. rewrite Hm.
  destruct rm as [[a out]|e]; [|reflexivity].
  rewrite Hk. destruct (rk a) as [[b out']|e]; [|reflexivity].
  now rewrite extend_extend.
Qed.

Lemma appends_only_mret {A} (a : A) : appends_only (mret a).
Proof. eexists. apply appends_mret. Qed.

Lemma appends_only_lift {A} (r : result A) : appends_only (lift r).
Proof. eexists. apply appends_lift. Qed.

Lemma appends_only_append fp l msg d : appends_only (append fp l msg d).
Proof. eexists. apply appends_append. Qed.

Lemma appends_only_bind {A B} (m : M A) (k : A -> M B) :
  appends_only m -> (forall a, appends_only (k a)) -> appends_only (mbind m k).
Proof.
  intros [rm Hm] Hk. destruct rm as [[a out]|e].
  - destruct (Hk a) as [rk Hka].
    exists (match rk with Ok (b, out') => Ok (b, out ++ out') | Raise e => Raise e end).
    intros self. unfold mbind. rewrite Hm, Hka.
    destruct rk as [[b out']|e]; [now rewrite extend_extend | reflexivity].
  - exists (Raise e). intros self. unfold mbind. now rewrite Hm.
Qed.

Lemma appends_only_when b (m : M unit) : appends_only m -> appends_only (when b m).
Proof. destruct b; simpl; [easy | intros _; apply appends_only_mret]. Qed.

Lemma appends_only_for_enumerate {A} (xs : list A) i (body : A -> nat -> M unit) :
  (forall x j, appends_only (body x j)) -> appends_only (for_enumerate xs i body).
Proof.
  intros Hb. revert i; induction xs as [|x xs IH]; intros i; simpl.
  - apply appends_only_mret.
  - apply appends_only_bind; [apply Hb | intros _; apply IH].
Qed.

Lemma appends_only_for_each {A} (xs : list A) (body : A -> M unit) :
  (forall x, appends_only (body x)) -> appends_only (for_each xs body).
Proof.
  intros Hb. induction xs as [|x xs IH]; simpl.
  - apply appends_only_mret.
  - apply appends_only_bind; [apply Hb | intros _; apply IH].
Qed.

Create HintDb appends discriminated.
#[local] Hint Resolve appends_only_mret appends_only_lift appends_only_append
  appends_only_when : appends.

(** Peels a method body down to the primitives. *)
Ltac appends_step :=
  first
    [ apply appends_only_mret
    | apply appends_only_lift
    | apply appends_only_append
    | apply appends_only_when
    | apply appends_only_bind; [|intros ?]
    | apply appends_only_for_enumerate; intros ? ?
    | apply appends_only_for_each; intros ?
    | match goal with
      | |- appends_only (if ?b then _ else _) => destruct b
      | |- appends_only (match ?v with _ => _ end) => destruct v
      end ].

Ltac appends_tac := repeat appends_step; auto with appends.

Lemma classification_appends fp c : appends_only (_validate_classification fp c).
Proof. unfold _validate_classification. appends_tac. Qed.

Lemma discovery_metadata_appends fp d : appends_only (_validate_discovery_metadata fp d).
Proof. unfold _validate_discovery_metadata. appends_tac. Qed.

Lemma mcp_capabilities_appends fp c : appends_only (_validate_mcp_capabilities fp c).
Proof. unfold _validate_mcp_capabilities. appends_tac. Qed.

#[local] Hint Resolve classification_appends discovery_metadata_appends
  mcp_capabilities_appends : appends.

Lemma enhanced_metadata_appends fp m : appends_only (_validate_enhanced_metadata fp m).
Proof. unfold _validate_enhanced_metadata. appends_tac. Qed.

Lemma tool_core_appends fp n c : appends_only (_validate_tool_core fp n c).
Proof. unfold _validate_tool_core. appends_tac. Qed.

Lemma tool_execution_appends fp n c : appends_only (_validate_tool_execution fp n c).
Proof. unfold _validate_tool_execution. appends_tac. Qed.

Lemma tool_discovery_appends fp n c : appends_only (_validate_tool_discovery fp n c).
Proof. unfold _validate_tool_discovery. appends_tac. Qed.

Lemma tool_monitoring_appends fp n c : appends_only (_validate_tool_monitoring fp n c).
Proof. unfold _validate_tool_monitoring. appends_tac. Qed.

Lemma tool_access_appends fp n c : appends_only (_validate_tool_access fp n c).
Proof. unfold _validate_tool_access. appends_tac. Qed.

#[local] Hint Resolve enhanced_metadata_appends tool_core_appends
  tool_execution_appends tool_discovery_appends tool_monitoring_appends
  tool_access_appends : appends.

Lemma enhanced_tool_appends fp tool i : appends_only (_validate_enhanced_tool fp tool i).
Proof. unfold _validate_enhanced_tool. appends_tac. Qed.

Lemma legacy_tool_appends fp tool i : appends_only (validate_legacy_tool fp tool i).
Proof. unfold validate_legacy_tool. appends_tac. Qed.

#[local] Hint Resolve enhanced_tool_appends legacy_tool_appends : appends.

Lemma enhanced_format_appends fp c : appends_only (_validate_enhanced_format fp c).
Proof. unfold _validate_enhanced_format. appends_tac. Qed.

Lemma legacy_format_appends fp c : appends_only (_validate_legacy_format fp c).
Proof. unfold _validate_legacy_format. appends_tac. Qed.

#[local] Hint Resolve enhanced_format_appends legacy_format_appends : appends.

Lemma returns_get_results : returns_results get_results.
Proof.
  exists (Ok []). intros self. unfold get_results.
  now rewrite extend_nil, app_nil_r.
Qed.

Lemma returns_after {A} (m : M A) (k : A -> M (list ValidationResult)) :
  appends_only m -> (forall a, returns_results (k a)) -> returns_results (mbind m k).
Proof.
  intros [rm Hm] Hk. destruct rm as [[a out]|e].
  - destruct (Hk a) as [rk Hka].
    exists (match rk with Ok out' => Ok (out ++ out') | Raise e => Raise e end).
    intros self. unfold mbind. rewrite Hm, Hka.
    destruct rk as [out'|e]; [|reflexivity].
    rewrite extend_extend. simpl. now rewrite app_assoc.
  - exists (Raise e). intros self. unfold mbind. now rewrite Hm.
Qed.

Lemma discard_returned (m : M (list ValidationResult)) :
  returns_results m -> appends_only (mbind m (fun _ => mret tt)).
Proof.
  intros [r H]. destruct r as [out|e].
  - exists (Ok (tt, out)). intros self. unfold mbind, mret. now rewrite H.
  - exists (Raise e). intros self. unfold mbind. now rewrite H.
Qed.

Ltac returns_tac :=
  repeat first
    [ apply returns_get_results
    | apply returns_after; [appends_tac | intros ?] ].

Lemma validate_file_returns f : returns_results (validate_file f).
Proof.
  unfold validate_file.
  destruct (negb (file_exists f)); [returns_tac|].
  destruct (load f) as [content|[]]; returns_tac.
Qed.

Lemma validate_directory_returns d : returns_results (validate_directory d).
Proof.
  unfold validate_directory.
  destruct (negb (dir_exists d)); [returns_tac|].
  destruct (negb (nonempty (yaml_files d))); [returns_tac|].
  apply returns_after; [appends_tac | intros _].
  apply returns_after; [|intros _; apply returns_get_results].
  apply appends_only_for_each. intros f.
  apply discard_returned, validate_file_returns.
Qed.

Lemma returned_any_object (m : M (list ValidationResult)) b1 b2 :
  returns_results m ->
  returned (m (init b1)) = returned (m (init b2))
  /\ same_outcome
       (match m (init b1) with Ok (_, v) => Ok v | Raise e => Raise e end)
       (match m (init b2) with Ok (_, v) => Ok v | Raise e => Raise e end).
Proof.
  intros [r H]. rewrite !H. destruct r as [out|e]; simpl; repeat split.
Qed.

(** C8: the flag is never consulted.  With [strict_mode] true and false,
    [validate_file] and [validate_directory] return the same diagnostic list
    (or raise the same exception), the validator of [main] ends with the same
    results and the same verdict of [print_results], and [main] exits with
    the same status; a run whose only findings are warnings passes in both. *)
Theorem strict_mode_not_consulted :
  (forall f, returned (validate_file f (init true))
             = returned (validate_file f (init false)))
  /\ (forall d, returned (validate_directory d (init true))
                = returned (validate_directory d (init false)))
  /\ (forall tg, same_outcome (run true tg) (run false tg))
  /\ (forall tg, main true tg = main false tg)
  /\ (forall b rs, of_level ERROR rs = [] ->
        print_results {| strict_mode := b; results := rs |} = true).
Proof.
  repeat split.
  - intros f. apply returned_any_object, validate_file_returns.
  - intros d. apply returned_any_object, validate_directory_returns.
  - intros [|f|d]; unfold run.
    + simpl. split; reflexivity.
    + apply returned_any_object, validate_file_returns.
    + apply returned_any_object, validate_directory_returns.
  - intros [|f|d]; unfold main, run; [reflexivity| |].
    + destruct (validate_file_returns f) as [r H]. rewrite !H.
      destruct r; reflexivity.
    + destruct (validate_directory_returns d) as [r H]. rewrite !H.
      destruct r; reflexivity.
  - intros b rs H. unfold print_results. simpl. rewrite H. simpl.
    now destruct (nonempty _).
Qed.

Lemma strict_mode_not_consulted_witness :
  of_level ERROR [ {| file_path := "caps"; level := WARNING;
                      message := "No YAML files found in directory"; details := None |} ]
  = []
  /\ print_results
       {| strict_mode := true;
          results := [ {| file_path := "caps"; level := WARNING;
                          message := "No YAML files found in directory";
                          details := None |} ] |} = true.
Proof.
  split; [reflexivity|].
  exact (proj2 (proj2 (proj2 (proj2 strict_mode_not_consulted))) true
           [ {| file_path := "caps"; level := WARNING;
                message := "No YAML files found in directory"; details := None |} ]
           eq_refl).
Defined.

(** *** Sequencing checks *)

Lemma appends_unique {A} (m : M A) r1 r2 : appends m r1 -> appends m r2 -> r1 = r2.
Proof.
  intros H1 H2. specialize (H1 (init false)). rewrite (H2 (init false)) in H1.
  destruct r1 as [[a1 o1]|e1], r2 as [[a2 o2]|e2]; try discriminate.
  - unfold extend in H1. simpl in H1. now injection H1 as -> ->.
  - now injection H1 as ->.
Qed.

Lemma seq_intro (p q : M unit) op oq :
  appends p (Ok (tt, op)) -> appends q (Ok (tt, oq)) ->
  appends (p ;;; q) (Ok (tt, op ++ oq)).
Proof.
  intros Hp Hq. exact (appends_bind p (fun _ => q) _ (fun _ => Ok (tt, oq)) Hp (fun _ => Hq)).
Qed.

Lemma seq_inv (p q : M unit) o :
  appends_only p -> appends_only q -> appends (p ;;; q) (Ok (tt, o)) ->
  exists op oq, appends p (Ok (tt, op)) /\ appends q (Ok (tt, oq)) /\ o = op ++ oq.
Proof.
  intros [rp Hp] [rq Hq] H.
  pose proof (appends_bind p (fun _ => q) rp (fun _ => rq) Hp (fun _ => Hq)) as H'.
  pose proof (appends_unique _ _ _ H H') as E.
  destruct rp as [[[] op]|e]; [|discriminate].
  destruct rq as [[[] oq]|e]; [|discriminate].
  injection E as ->. now exists op, oq.
Qed.

Lemma when_true_appends b (m : M unit) o :
  b = true -> appends m (Ok (tt, o)) -> appends (when b m) (Ok (tt, o)).
Proof. now intros ->. Qed.

Lemma when_false_appends b (m : M unit) :
  b = false -> appends (when b m) (Ok (tt, [])).
Proof. intros ->. apply appends_mret. Qed.

Lemma errors_of_app rs1 rs2 : errors_of (rs1 ++ rs2) = errors_of rs1 ++ errors_of rs2.
Proof. unfold errors_of, of_level. apply List.filter_app. Qed.

Lemma enhanced_format_parts fp c :
  _validate_enhanced_format fp (VDict c)
  = (_validate_enhanced_metadata fp (dict_or (dict_get c "metadata") (VDict [])) ;;;
     tools_part fp (dict_or (dict_get c "tools") (VList []))).
Proof. reflexivity. Qed.

Lemma enhanced_metadata_parts fp m cl :
  dict_get m "classification" = Some (VDict cl) ->
  _validate_enhanced_metadata fp (VDict m)
  = (required_part fp m ;;;
     (security_level_part fp (dict_or (dict_get cl "security_level") VNone) ;;;
      complexity_level_part fp (dict_or (dict_get cl "complexity_level") VNone)) ;;;
     after_classification fp (dict_or (dict_get m "discovery_metadata") (VDict []))
                             (dict_or (dict_get m "mcp_capabilities") (VDict []))).
Proof.
  intros H. unfold _validate_enhanced_metadata, required_part. simpl. rewrite H.
  reflexivity.
Qed.

Lemma file_checks_appends fp content : appends_only (file_checks fp content).
Proof. unfold file_checks. appends_tac. Qed.

Lemma validate_parsed_file fp content self :
  validate_file (FormatDetectorSpec.parsed fp content) self
  = (file_checks fp content ;;; get_results) self.
Proof.
  unfold validate_file, file_checks. simpl. unfold mbind.
  destruct (append _ _ _ _ self) as [[[] s1]|e]; [|reflexivity].
  destruct (_is_enhanced_format content); reflexivity.
Qed.

Lemma validate_parsed_ok fp content b rs v :
  validate_file (FormatDetectorSpec.parsed fp content) (init b) = Ok (rs, v) ->
  appends (file_checks fp content) (Ok (tt, rs)).
Proof.
  rewrite validate_parsed_file. destruct (file_checks_appends fp content) as [r H].
  unfold mbind. rewrite H. destruct r as [[[] out]|e]; [|discriminate].
  unfold get_results. simpl. now intros [= <- _].
Qed.

Lemma validate_parsed_run fp content b rs :
  appends (file_checks fp content) (Ok (tt, rs)) ->
  validate_file (FormatDetectorSpec.parsed fp content) (init b)
  = Ok (rs, extend (init b) rs).
Proof.
  intros H. rewrite validate_parsed_file. unfold mbind. now rewrite H.
Qed.

Lemma classified_is_enhanced c m :
  dict_get c "metadata" = Some (VDict m) -> dict_has m "classification" = true ->
  _is_enhanced_format (VDict c) = true.
Proof. intros H1 H2. unfold _is_enhanced_format. now rewrite H1, H2. Qed.

Lemma required_part_appends fp m : appends_only (required_part fp m).
Proof. unfold required_part. appends_tac. Qed.

Lemma security_level_part_appends fp v : appends_only (security_level_part fp v).
Proof. unfold security_level_part. appends_tac. Qed.

Lemma complexity_level_part_appends fp v : appends_only (complexity_level_part fp v).
Proof. unfold complexity_level_part. appends_tac. Qed.

Lemma after_classification_appends fp d c : appends_only (after_classification fp d c).
Proof. unfold after_classification. appends_tac. Qed.

Lemma tools_part_appends fp tools : appends_only (tools_part fp tools).
Proof. unfold tools_part. appends_tac. Qed.

#[local] Hint Resolve required_part_appends security_level_part_appends
  complexity_level_part_appends after_classification_appends tools_part_appends
  : appends.

Lemma required_part_other_key fp m k v :
  ~ In k ["name"; "description"; "version"; "author"] ->
  required_part fp (dict_set m k v) = required_part fp m.
Proof.
  intros H. unfold required_part, missing_or_empty. simpl.
  rewrite !PyFacts.dict_get_set_other; [reflexivity|..];
    intros ->; apply H; simpl; tauto.
Qed.

Lemma unsafe_security_level_appends fp :
  appends (security_level_part fp (VStr "unsafe"))
    (Ok (tt, [ {| file_path := fp; level := ERROR;
                  message := invalid_security_level_message "unsafe";
                  details := None |} ])).
Proof. intros self. reflexivity. Qed.

(** The diagnostics of a parsed file that is a classified manifest, part
    by part. *)
Lemma classified_checks_inv fp c m cl rs :
  dict_get c "metadata" = Some (VDict m) ->
  dict_get m "classification" = Some (VDict cl) ->
  appends (file_checks fp (VDict c)) (Ok (tt, rs)) ->
  exists o_req o_sec o_cx o_after o_tools,
    rs = [enhanced_info fp] ++ (o_req ++ ((o_sec ++ o_cx) ++ o_after)) ++ o_tools
    /\ appends (required_part fp m) (Ok (tt, o_req))
    /\ appends (complexity_level_part fp (dict_or (dict_get cl "complexity_level") VNone))
         (Ok (tt, o_cx))
    /\ appends (after_classification fp
                  (dict_or (dict_get m "discovery_metadata") (VDict []))
                  (dict_or (dict_get m "mcp_capabilities") (VDict [])))
         (Ok (tt, o_after))
    /\ appends (tools_part fp (dict_or (dict_get c "tools") (VList [])))
         (Ok (tt, o_tools)).
Proof.
  intros Hm Hcl H. unfold file_checks in H.
  rewrite (classified_is_enhanced c m Hm) in H
    by (unfold dict_has; now rewrite Hcl).
  apply seq_inv in H as (o0 & o1 & H0 & H1 & ->); [|appends_tac..].
  pose proof (appends_unique _ _ _ H0 (appends_append _ _ _ _)) as E.
  injection E as ->.
  rewrite enhanced_format_parts, Hm in H1. simpl dict_or in H1.
  apply seq_inv in H1 as (oM & oT & HM & HT & ->); [|appends_tac..].
  rewrite (enhanced_metadata_parts fp m cl Hcl) in HM.
  apply seq_inv in HM as (oA & oX & HA & HX & ->); [|appends_tac..].
  apply seq_inv in HX as (oSC & oR & HSC & HR & ->); [|appends_tac..].
  apply seq_inv in HSC as (oS & oC & HS & HC & ->); [|appends_tac..].
  exists oA, oS, oC, oR, oT. repeat split; assumption.
Qed.

Lemma metadata_parts_reclassified fp m cl' :
  _validate_enhanced_metadata fp (VDict (dict_set m "classification" (VDict cl')))
  = (required_part fp m ;;;
     (security_level_part fp (dict_or (dict_get cl' "security_level") VNone) ;;;
      complexity_level_part fp (dict_or (dict_get cl' "complexity_level") VNone)) ;;;
     after_classification fp (dict_or (dict_get m "discovery_metadata") (VDict []))
                             (dict_or (dict_get m "mcp_capabilities") (VDict []))).
Proof.
  rewrite (enhanced_metadata_parts fp _ cl') by apply PyFacts.dict_get_set_same.
  rewrite required_part_other_key
    by (simpl; intros [H|[H|[H|[H|[]]]]]; discriminate).
  now rewrite !PyFacts.dict_get_set_other by discriminate.
Qed.

Lemma format_parts_new_metadata fp c md :
  _validate_enhanced_format fp (VDict (dict_set c "metadata" md))
  = (_validate_enhanced_metadata fp md ;;;
     tools_part fp (dict_or (dict_get c "tools") (VList []))).
Proof.
  rewrite enhanced_format_parts, PyFacts.dict_get_set_same.
  now rewrite PyFacts.dict_get_set_other by discriminate.
Qed.

(** C5: take an enhanced manifest with a classification mapping whose
    validation reports no ERROR, and set [classification.security_level] to
    "unsafe".  Validation of the result reports exactly one ERROR, and its
    message lists the allowed values safe, restricted, mixed, privileged,
    dangerous, blocked. *)
Theorem unsafe_security_level_one_error fp content b rs v :
  classified content ->
  validate_file (FormatDetectorSpec.parsed fp content) (init b) = Ok (rs, v) ->
  errors_of rs = [] ->
  exists rs' v',
    validate_file (FormatDetectorSpec.parsed fp (with_security_level content "unsafe"))
                  (init b) = Ok (rs', v')
    /\ errors_of rs'
       = [ {| file_path := fp; level := ERROR;
              message := "Invalid security_level: unsafe. Must be one of: safe, restricted, mixed, privileged, dangerous, blocked";
              details := None |} ].
Proof.
  intros (c & m & cl & -> & Hm & Hcl) Hrun Herr.
  apply validate_parsed_ok in Hrun.
  destruct (classified_checks_inv _ c m cl rs Hm Hcl Hrun)
    as (oA & oS & oC & oR & oT & -> & HA & HC & HR & HT).
  pose (err := {| file_path := fp; level := ERROR;
                  message := invalid_security_level_message "unsafe";
                  details := None |}).
  assert (Hshape : with_security_level (VDict c) "unsafe"
            = VDict (dict_set c "metadata"
                (VDict (dict_set m "classification"
                   (VDict (dict_set cl "security_level" (VStr "unsafe"))))))).
  { unfold with_security_level. simpl. now rewrite Hm, Hcl. }
  assert (Hchecks : appends (file_checks fp (with_security_level (VDict c) "unsafe"))
            (Ok (tt, [enhanced_info fp]
                     ++ (oA ++ (([err] ++ oC) ++ oR)) ++ oT))).
  { rewrite Hshape. unfold file_checks.
    rewrite (classified_is_enhanced _ _ (PyFacts.dict_get_set_same _ _ _))
      by apply PyFacts.dict_has_set_same.
    apply seq_intro; [apply appends_append|].
    rewrite format_parts_new_metadata.
    apply seq_intro; [|exact HT].
    rewrite metadata_parts_reclassified.
    apply seq_intro; [exact HA|].
    apply seq_intro; [|exact HR].
    apply seq_intro.
    - rewrite PyFacts.dict_get_set_same. apply unsafe_security_level_appends.
    - rewrite PyFacts.dict_get_set_other by discriminate. exact HC. }
  eexists _, _. split; [apply validate_parsed_run, Hchecks|].
  rewrite !errors_of_app in *.
  apply app_eq_nil in Herr as [Hi Herr].
  apply app_eq_nil in Herr as [Herr HeT].
  apply app_eq_nil in Herr as [HeA Herr].
  apply app_eq_nil in Herr as [Herr HeR].
  apply app_eq_nil in Herr as [_ HeC].
  rewrite Hi, HeA, HeC, HeR, HeT. reflexivity.
Qed.

Lemma unsafe_security_level_one_error_witness :
  classified sample_enhanced
  /\ exists rs' v',
       validate_file (FormatDetectorSpec.parsed "manifest.yaml"
                        (with_security_level sample_enhanced "unsafe"))
                     (init false) = Ok (rs', v')
       /\ errors_of rs'
          = [ {| file_path := "manifest.yaml"; level := ERROR;
                 message := "Invalid security_level: unsafe. Must be one of: safe, restricted, mixed, privileged, dangerous, blocked";
                 details := None |} ].
Proof.
  assert (Hc : classified sample_enhanced).
  { eexists _, _, _. split; [vm_compute; reflexivity|]. split; reflexivity. }
  split; [exact Hc|].
  eapply (unsafe_security_level_one_error "manifest.yaml" sample_enhanced false _ _ Hc).
  - vm_compute. reflexivity.
  - reflexivity.
Defined.

(** *** What the validator finds in a migrated manifest *)

Lemma nonempty_string_truthy x :
  x <> EmptyString -> negb (String.eqb x EmptyString) = true.
Proof.
  intros Hx. destruct (String.eqb x EmptyString) eqn:E;
    [apply String.eqb_eq in E; contradiction | reflexivity].
Qed.

(** An enhanced tool with its five sections filled in as the validator
    wants them draws no diagnostic. *)
Lemma enhanced_tool_quiet fp i n d s r ty sec cls perf ai aid pi mon pt cn acc :
  d <> EmptyString -> s <> [] ->
  dict_get r "type" = Some (VStr ty) -> ty <> EmptyString ->
  dict_get sec "classification" = Some (VStr cls) -> cls <> EmptyString ->
  dict_get ai "description" = Some (VStr aid) -> aid <> EmptyString ->
  dict_get mon "progress_tracking" = Some (VDict pt) -> dict_has pt "enabled" = true ->
  dict_get mon "cancellation" = Some (VDict cn) -> dict_has cn "enabled" = true ->
  dict_has acc "hidden" = true -> dict_has acc "enabled" = true ->
  dict_has acc "requires_permissions" = true -> dict_has acc "user_groups" = true ->
  appends
    (_validate_enhanced_tool fp
       (VDict [ ("name", n);
                ("core", VDict [ ("description", VStr d); ("input_schema", VDict s) ]);
                ("execution", VDict [ ("routing", VDict r); ("security", VDict sec);
                                      ("performance", perf) ]);
                ("discovery", VDict [ ("ai_enhanced", VDict ai);
                                      ("parameter_intelligence", pi) ]);
                ("monitoring", VDict mon);
                ("access", VDict acc) ]) i)
    (Ok (tt, [])).
Proof.
  intros Hd Hs Hty Hty' Hcls Hcls' Hai Hai' Hpt Hpt' Hcn Hcn' Ha1 Ha2 Ha3 Ha4 self.
  unfold _validate_enhanced_tool, _validate_tool_core, _validate_tool_execution,
    _validate_tool_discovery, _validate_tool_monitoring, _validate_tool_access.
  unfold mbind, lift, when, mret.
  cbn [get get_none dict_get missing_in required_enhanced_tool_sections has dict_has
       Py.bind String.eqb Ascii.eqb Bool.eqb nonempty truthy is_dict negb orb andb].
  rewrite Hty, Hcls, Hai, Hpt, Hcn.
  cbn [truthy has dict_has get dict_get].
  fold (dict_has pt "enabled") (dict_has cn "enabled") (dict_has acc "hidden")
       (dict_has acc "enabled") (dict_has acc "requires_permissions")
       (dict_has acc "user_groups").
  rewrite Hpt', Hcn', Ha1, Ha2, Ha3, Ha4, !nonempty_string_truthy by assumption.
  destruct s; [contradiction|].
  cbn. now rewrite extend_nil.
Qed.

Lemma for_enumerate_quiet {A} (xs : list A) i (body : A -> nat -> M unit) :
  (forall x j, In x xs -> appends (body x j) (Ok (tt, []))) ->
  appends (for_enumerate xs i body) (Ok (tt, [])).
Proof.
  revert i; induction xs as [|x xs IH]; intros i H; simpl.
  - apply appends_mret.
  - apply (seq_intro _ _ [] []); [apply H; now left|].
    apply IH. intros y j Hy. apply H. now right.
Qed.

End ValidatorProps.

(* ===================================================================== *)
(** ** Migration followed by validation                                   *)
(* ===================================================================== *)
Module RoundTripProps.
Import YamlMigrationTool YamlMigrationValidator ValidatorProps.
Import ValidatorSpec RoundTripSpec.

Lemma enhance_schema_shape s r :
  _enhance_input_schema s = Ok r -> exists d, r = VDict d /\ d <> [].
Proof.
  unfold _enhance_input_schema. destruct s as [| | | | |d]; try discriminate.
  intros H. apply PyFacts.bind_ok in H as [d' [_ H]]. injection H as <-.
  eexists. split; [reflexivity | apply PyFacts.dict_set_nonempty].
Qed.

Lemma routing_shape rt er :
  _enhance_routing rt = Ok er ->
  exists d ty, er = VDict d /\ dict_get d "type" = Some (VStr ty) /\ ty <> EmptyString.
Proof.
  unfold _enhance_routing. intros H.
  apply PyFacts.bind_ok in H as [routing_type [_ H]].
  do 6 (apply PyFacts.bind_ok in H as [? [_ H]]).
  injection H as <-.
  destruct (eq_str routing_type "subprocess");
    eexists _, _; (split; [reflexivity|]); (split; [reflexivity | discriminate]).
Qed.

Lemma security_config_shape cls :
  exists d, _create_security_config cls = VDict d
            /\ dict_get d "classification" = Some (VStr cls).
Proof.
  unfold _create_security_config.
  destruct (String.eqb cls "dangerous"); [eexists; split; reflexivity|].
  destruct (String.eqb cls "privileged"); [eexists; split; reflexivity|].
  destruct (String.eqb cls "restricted"); eexists; split; reflexivity.
Qed.

Lemma security_mapping_nonempty s cls :
  assoc tool_security_mapping s = Some cls -> cls <> EmptyString.
Proof.
  unfold tool_security_mapping. cbn [assoc].
  repeat match goal with
         | |- context [if String.eqb ?a s then _ else _] => destruct (String.eqb a s)
         end; intros [= <-]; discriminate.
Qed.

Lemma security_classification_nonempty tool_name cls :
  security_classification_of tool_name = Ok cls -> cls <> EmptyString.
Proof.
  unfold security_classification_of.
  change (assoc tool_security_mapping "default") with (Some "restricted").
  cbn [Py.bind].
  destruct (hashable tool_name); [|intros H; discriminate H].
  destruct tool_name as [| | |s| |]; try (intros [= <-]; discriminate).
  destruct (assoc tool_security_mapping s) as [c|] eqn:E;
    intros [= <-]; [|discriminate].
  exact (security_mapping_nonempty s c E).
Qed.

Lemma monitoring_shape name :
  exists d pt cn,
    _create_monitoring_config name = VDict d
    /\ dict_get d "progress_tracking" = Some (VDict pt) /\ dict_has pt "enabled" = true
    /\ dict_get d "cancellation" = Some (VDict cn) /\ dict_has cn "enabled" = true.
Proof.
  unfold _create_monitoring_config.
  destruct (PyStr.any_in complex_tools (PyStr.lower name));
    eexists _, _, _; repeat split; reflexivity.
Qed.

(** A migrated tool draws no diagnostic. *)
Lemma migrated_tool_quiet legacy_tool enhanced_tool fp i :
  _migrate_tool_to_enhanced legacy_tool = Ok enhanced_tool ->
  appends (_validate_enhanced_tool fp enhanced_tool i) (Ok (tt, [])).
Proof.
  unfold _migrate_tool_to_enhanced. intros H.
  apply PyFacts.bind_ok in H as [tool_name [_ H]].
  apply PyFacts.bind_ok in H as [description [_ H]].
  apply PyFacts.bind_ok in H as [input_schema [_ H]].
  apply PyFacts.bind_ok in H as [routing [_ H]].
  apply PyFacts.bind_ok in H as [hidden [_ H]].
  apply PyFacts.bind_ok in H as [cls [Hcls H]].
  apply PyFacts.bind_ok in H as [core_schema [Hschema H]].
  apply PyFacts.bind_ok in H as [enhanced_routing [Hrouting H]].
  apply PyFacts.bind_ok in H as [name [_ H]].
  apply PyFacts.bind_ok in H as [parameter_intelligence [_ H]].
  injection H as <-.
  apply enhance_schema_shape in Hschema as (s & -> & Hs).
  apply routing_shape in Hrouting as (r & ty & -> & Hty & Hty').
  apply security_classification_nonempty in Hcls.
  destruct (security_config_shape cls) as (sec & -> & Hsec).
  destruct (monitoring_shape name) as (mon & pt & cn & -> & Hpt & Hpt' & Hcn & Hcn').
  eapply enhanced_tool_quiet with (ty := ty) (cls := cls) (pt := pt) (cn := cn);
    try reflexivity; try assumption;
    intros Hx; cbn [String.append] in Hx; discriminate Hx.
Qed.

Lemma security_level_valid stem :
  in_strs (VStr (security_level_of stem)) valid_security_levels = true.
Proof. unfold security_level_of. repeat destruct (PyStr.any_in _ _); reflexivity. Qed.

Lemma complexity_level_valid n :
  in_strs (VStr (complexity_level_of n)) valid_complexity_levels = true.
Proof. unfold complexity_level_of. repeat destruct (_ <? _)%nat; reflexivity. Qed.

Lemma security_level_nonempty stem : security_level_of stem <> EmptyString.
Proof. unfold security_level_of. repeat destruct (PyStr.any_in _ _); discriminate. Qed.

Lemma complexity_level_nonempty n : complexity_level_of n <> EmptyString.
Proof. unfold complexity_level_of. repeat destruct (_ <? _)%nat; discriminate. Qed.

Lemma append_nonempty_r x y : y <> EmptyString -> x +:+ y <> EmptyString.
Proof. destruct x; simpl; [easy | discriminate]. Qed.

Lemma classify_shape stem lm sl cx dom uc :
  _classify_capability stem lm = Ok (sl, cx, dom, uc) ->
  sl = security_level_of stem /\ exists n, cx = complexity_level_of n.
Proof.
  unfold _classify_capability. intros H.
  apply PyFacts.bind_ok in H as [tools [_ H]].
  apply PyFacts.bind_ok in H as [n [_ H]].
  injection H as <- <- _ _. split; [reflexivity | now exists n].
Qed.

Lemma migrated_metadata_quiet lm stem em fp :
  _create_enhanced_metadata lm stem = Ok em -> author_not_empty lm = true ->
  appends (_validate_enhanced_metadata fp em) (Ok (tt, [])).
Proof.
  unfold _create_enhanced_metadata. intros H Hauthor.
  apply PyFacts.bind_ok in H as [name [_ H]].
  apply PyFacts.bind_ok in H as [description [_ H]].
  apply PyFacts.bind_ok in H as [author [Ha H]].
  apply PyFacts.bind_ok in H as [[[[sl cx] dom] uc] [Hc H]].
  apply PyFacts.bind_ok in H as [kws [_ H]].
  injection H as <-.
  apply classify_shape in Hc as [-> [n ->]].
  assert (Hta : truthy author = true).
  { destruct lm as [| | | | |m]; try discriminate. simpl in Ha, Hauthor.
    injection Ha as <-. now destruct (dict_get m "author"). }
  erewrite enhanced_metadata_parts by reflexivity.
  change (dict_or (dict_get _ "security_level") VNone)
    with (VStr (security_level_of stem)).
  change (dict_or (dict_get _ "complexity_level") VNone)
    with (VStr (complexity_level_of n)).
  apply (seq_intro _ _ [] []); [|apply (seq_intro _ _ [] []); [apply (seq_intro _ _ [] [])|]].
  - apply when_false_appends. unfold missing_or_empty.
    cbn [List.filter dict_get String.eqb Ascii.eqb Bool.eqb truthy].
    rewrite Hta.
    rewrite (nonempty_string_truthy ("Enhanced " +:+ Py.str name)) by discriminate.
    rewrite (nonempty_string_truthy (Py.str description +:+ _))
      by (apply append_nonempty_r; discriminate).
    reflexivity.
  - apply when_false_appends.
    now rewrite security_level_valid, andb_false_r.
  - apply when_false_appends.
    now rewrite complexity_level_valid, andb_false_r.
  - intros self. rewrite extend_nil. reflexivity.
Qed.

Lemma metadata_shape lm stem em :
  _create_enhanced_metadata lm stem = Ok em ->
  exists m, em = VDict m /\ dict_has m "classification" = true.
Proof.
  unfold _create_enhanced_metadata. intros H.
  do 4 (apply PyFacts.bind_ok in H as [? [_ H]]).
  destruct x2 as [[[sl cx] dom] uc].
  apply PyFacts.bind_ok in H as [kws [_ H]].
  injection H as <-. eexists. split; reflexivity.
Qed.

Lemma migrated_tools_quiet fp legacy_tools enhanced_tools :
  mapM _migrate_tool_to_enhanced legacy_tools = Ok enhanced_tools ->
  enhanced_tools <> [] ->
  appends (tools_part fp (VList enhanced_tools)) (Ok (tt, [])).
Proof.
  intros H Hne. apply PyFacts.mapM_ok_Forall2 in H.
  assert (Hall : forall et, In et enhanced_tools ->
            forall i, appends (_validate_enhanced_tool fp et i) (Ok (tt, []))).
  { induction H as [|lt et lts ets Hlt _ IH]; intros et' Hin i; [destruct Hin|].
    destruct Hin as [<- | Hin].
    - now apply (migrated_tool_quiet lt).
    - apply IH; [|exact Hin]. now destruct ets. }
  destruct enhanced_tools as [|et ets]; [contradiction|].
  unfold tools_part. cbn [truthy negb iter].
  intros self. unfold mbind, lift.
  apply for_enumerate_quiet. intros x j Hx. now apply Hall.
Qed.

Lemma keywords_total file_stem m :
  metadata_typed (VDict m) = true ->
  exists k, _generate_keywords file_stem (VDict m) = Ok k.
Proof.
  unfold metadata_typed, _generate_keywords. intros H.
  apply andb_true_iff in H as [_ H].
  cbn [has Py.bind]. unfold dict_has.
  set (kws := match first_match name_keywords (PyStr.lower file_stem) with
              | Some kw_list => _ | None => _ end).
  assert (Hk : forallb hashable kws = true).
  { unfold kws. destruct (first_match _ _); simpl; [|reflexivity].
    apply forallb_forall. intros x Hx. apply in_map_iff in Hx as [s [<- _]]. reflexivity. }
  destruct (dict_get m "tags") as [tags|] eqn:E; cbn [get Py.bind]; rewrite ?E.
  - assert (Ht : exists extra, iter tags = Ok extra /\ forallb hashable extra = true).
    { destruct tags as [| | |s|l|d]; try discriminate; simpl in *.
      - eexists; split; [reflexivity|]. apply forallb_forall. intros x Hx.
        apply in_map_iff in Hx as [? [<- _]]. reflexivity.
      - now exists l.
      - eexists; split; [reflexivity|]. apply forallb_forall. intros x Hx.
        apply in_map_iff in Hx as [? [<- _]]. reflexivity. }
    destruct Ht as (extra & -> & He). cbn [Py.bind]. unfold list_set.
    rewrite forallb_app, Hk, He. simpl. now eexists.
  - unfold list_set. rewrite Hk. simpl. now eexists.
Qed.

Lemma metadata_total file_stem lm :
  metadata_typed lm = true ->
  exists em, _create_enhanced_metadata lm file_stem = Ok em.
Proof.
  intros H. destruct lm as [| | | | |m]; try discriminate.
  destruct (keywords_total file_stem m H) as [k Hk].
  unfold _create_enhanced_metadata, _classify_capability.
  cbn [get Py.bind]. unfold metadata_typed in H. apply andb_true_iff in H as [H _].
  assert (Hlen : exists n, len (match dict_get m "tools" with
                                | Some x => x | None => VList [] end) = Ok n).
  { destruct (dict_get m "tools") as [[| | |?|?|?]|]; try discriminate; simpl; now eexists. }
  destruct Hlen as [n ->]. cbn [Py.bind]. rewrite Hk. cbn [Py.bind]. now eexists.
Qed.

Lemma parameter_intelligence_total ps acc :
  forallb (fun item => is_dict (snd item)) ps = true ->
  exists r, parameter_intelligence_loop ps acc = Ok r.
Proof.
  revert acc; induction ps as [|[name cfg] ps IH]; intros acc H; simpl in *.
  - now eexists.
  - apply andb_true_iff in H as [Hc H]. destruct cfg; try discriminate.
    cbn [get Py.bind]. apply IH, H.
Qed.

Lemma schema_total s :
  schema_typed s = true ->
  (exists r, _enhance_input_schema s = Ok r)
  /\ (exists r, _create_parameter_intelligence s = Ok r).
Proof.
  unfold schema_typed, _enhance_input_schema, _create_parameter_intelligence.
  destruct s as [| | | | |d]; try discriminate. cbn [get Py.bind].
  destruct (dict_get d "properties") as [[| | | | |ps]|]; try discriminate; intros H.
  - split; [cbn [items Py.bind]; now eexists|].
    cbn [items Py.bind].
    destruct (parameter_intelligence_total ps [] H) as [r ->]. cbn [Py.bind]. now eexists.
  - split; [cbn [Py.bind]; now eexists|]. simpl. now eexists.
Qed.

Lemma routing_total r :
  routing_typed r = true -> exists er, _enhance_routing r = Ok er.
Proof.
  unfold routing_typed, _enhance_routing.
  destruct r as [| | | | |d]; try discriminate. cbn [get Py.bind].
  destruct (dict_get d "config") as [[| | | | |c]|]; try discriminate; intros _;
    cbn [get Py.bind]; now eexists.
Qed.

Lemma security_classification_total tool_name :
  hashable tool_name = true -> exists c, security_classification_of tool_name = Ok c.
Proof.
  unfold security_classification_of.
  change (assoc tool_security_mapping "default") with (Some "restricted").
  cbn [Py.bind]. intros ->. now eexists.
Qed.

Lemma tool_total tool :
  tool_typed tool = true -> exists et, _migrate_tool_to_enhanced tool = Ok et.
Proof.
  unfold tool_typed. destruct tool as [| | | | |t]; try discriminate. intros H.
  apply andb_true_iff in H as [H Hr]. apply andb_true_iff in H as [Hn Hs].
  unfold _migrate_tool_to_enhanced. cbn [get Py.bind]. unfold dict_or in *.
  set (tool_name := match dict_get t "name" with Some x => x | None => VStr "unknown_tool" end).
  assert (Hname : exists s, tool_name = VStr s).
  { unfold tool_name. destruct (dict_get t "name") as [[| | |s| |]|]; try discriminate;
      now eexists. }
  destruct Hname as [s Hname]. rewrite Hname.
  destruct (security_classification_total (VStr s) eq_refl) as [c ->].
  destruct (schema_total _ Hs) as [[cs ->] [pi ->]].
  destruct (routing_total _ Hr) as [er ->].
  cbn [Py.bind as_str]. now eexists.
Qed.

Lemma tools_total tools :
  forallb tool_typed tools = true ->
  exists ets, mapM _migrate_tool_to_enhanced tools = Ok ets.
Proof.
  induction tools as [|t ts IH]; simpl; intros H; [now eexists|].
  apply andb_true_iff in H as [Ht H].
  destruct (tool_total t Ht) as [et ->]. destruct (IH H) as [ets ->].
  simpl. now eexists.
Qed.

(** In the tree model, migration returns on every well-typed manifest. *)
Lemma migration_total L file_stem :
  well_typed_legacy L = true -> exists E, _migrate_yaml_content L file_stem = Ok E.
Proof.
  unfold well_typed_legacy. destruct L as [| | | | |c]; try discriminate. intros H.
  apply andb_true_iff in H as [Hm Ht].
  unfold _migrate_yaml_content. cbn [get Py.bind]. unfold dict_or in *.
  destruct (metadata_total file_stem _ Hm) as [em ->]. cbn [Py.bind].
  destruct (match dict_get c "tools" with Some x => x | None => VList [] end)
    as [| | | |tools|]; try discriminate.
  cbn [iter Py.bind]. destruct (tools_total tools Ht) as [ets ->].
  cbn [Py.bind]. now eexists.
Qed.

(** C1, as the source has it: the author of the legacy metadata is copied
    as it is, and the validator wants it non-empty; a well-formed legacy
    manifest with an empty author migrates to a manifest with one ERROR. *)
Lemma empty_author_fails_validation :
  well_formed_legacy empty_author_manifest = true
  /\ exists E rs v,
       _migrate_yaml_content empty_author_manifest "file_ops" = Ok E
       /\ validate_file (FormatDetectorSpec.parsed "manifest.yaml" E) (init false)
          = Ok (rs, v)
       /\ errors_of rs
          = [ {| file_path := "manifest.yaml"; level := ERROR;
                 message := "Missing required metadata fields: author";
                 details := None |} ].
Proof.
  split; [reflexivity|].
  eexists _, _, _. split; [vm_compute; reflexivity|].
  split; vm_compute; reflexivity.
Qed.

Lemma well_formed_migration_may_raise :
  well_formed_legacy numeric_name_manifest = true
  /\ legacy_author_not_empty numeric_name_manifest = true
  /\ _migrate_yaml_content numeric_name_manifest "ops" = Raise AttributeError.
Proof. repeat split. Qed.

(** C1 (amended): take a well-formed legacy manifest whose metadata has no
    [author] key or an author that is true in Python's sense.  Whenever
    migration returns a manifest, validating that manifest returns and reports
    no ERROR.  Migration itself need not return on a well-formed manifest: it
    raises when a tool name is not a string. *)
Theorem migrated_manifest_validates L file_stem fp b E :
  well_formed_legacy L = true ->
  legacy_author_not_empty L = true ->
  _migrate_yaml_content L file_stem = Ok E ->
  exists rs v,
    validate_file (FormatDetectorSpec.parsed fp E) (init b) = Ok (rs, v)
    /\ errors_of rs = [].
Proof.
  intros Hwf Hauthor H.
  destruct L as [| | | | |c]; try discriminate.
  unfold well_formed_legacy in Hwf.
  destruct (dict_get c "tools") as [[| | | |[|t ts]|]|] eqn:Htools; try discriminate.
  unfold _migrate_yaml_content in H. cbn [get Py.bind] in H. rewrite Htools in H.
  apply PyFacts.bind_ok in H as [em [Hem H]].
  cbn [iter Py.bind] in H.
  apply PyFacts.bind_ok in H as [ets [Hets H]].
  injection H as <-.
  destruct (metadata_shape _ _ _ Hem) as (m & -> & Hcls).
  assert (Hne : ets <> []).
  { intros ->. simpl in Hets.
    apply PyFacts.bind_ok in Hets as [? [_ Hets]].
    apply PyFacts.bind_ok in Hets as [? [_ Hets]]. discriminate. }
  assert (Hchecks : appends
            (file_checks fp (VDict [("metadata", VDict m); ("tools", VList ets)]))
            (Ok (tt, [enhanced_info fp] ++ ([] ++ [])))).
  { unfold file_checks.
    rewrite (classified_is_enhanced [("metadata", VDict m); ("tools", VList ets)] m
               eq_refl Hcls).
    apply seq_intro; [apply appends_append|].
    rewrite enhanced_format_parts.
    apply seq_intro.
    - apply (migrated_metadata_quiet _ _ _ _ Hem). exact Hauthor.
    - apply (migrated_tools_quiet _ _ _ Hets Hne). }
  eexists _, _. split; [apply validate_parsed_run, Hchecks | reflexivity].
Qed.

Lemma migrated_manifest_validates_witness :
  well_formed_legacy OrchestratorSpec.read_file_manifest = true
  /\ legacy_author_not_empty OrchestratorSpec.read_file_manifest = true
  /\ exists E rs v,
       _migrate_yaml_content OrchestratorSpec.read_file_manifest "file_ops" = Ok E
       /\ validate_file (FormatDetectorSpec.parsed "manifest.yaml" E) (init false)
          = Ok (rs, v)
       /\ errors_of rs = [].
Proof.
  split; [reflexivity|]. split; [reflexivity|].
  destruct (migration_total OrchestratorSpec.read_file_manifest "file_ops" eq_refl)
    as [E HE].
  destruct (migrated_manifest_validates OrchestratorSpec.read_file_manifest
              "file_ops" "manifest.yaml" false E eq_refl eq_refl HE)
    as (rs & v & Hrun & Herr).
  now exists E, rs, v.
Defined.
End RoundTripProps.

(* ===================================================================== *)
(** ** The input schema under migration                                   *)
(* ===================================================================== *)
Module InPlaceProps.
Import Heap InPlace.
Import InPlaceSpec.

(** On any store: a schema with one property whose name contains "path"
    and whose configuration is a dictionary.  The call returns a new
    dictionary (the one-level copy, with [additionalProperties]); the
    configuration object of the legacy schema itself receives the
    [validation] entry; every other object of the old store is as before. *)
Lemma path_property_mutated (h : heap) l d p name q cfg :
  h !! l = Some (ODict d) ->
  field_get d "properties" = Some (RRef p) ->
  h !! p = Some (ODict [(name, RRef q)]) ->
  h !! q = Some (ODict cfg) ->
  q <> p ->
  PyStr.contains "path" (PyStr.lower name) = true ->
  exists h',
    _enhance_input_schema h (RRef l) = Ok (h', RRef (length h))
    /\ h' !! q = Some (ODict (field_set cfg "validation" (RRef (S (length h)))))
    /\ h' !! S (length h)
       = Some (ODict [("path_traversal_protection", RBool true); ("security_scan", RBool true)])
    /\ h' !! length h = Some (ODict (field_set d "additionalProperties" (RBool false)))
    /\ (forall x, x < length h -> x <> q -> h' !! x = h !! x).
Proof.
  intros Hl Hd Hp Hq Hqp Hname.
  pose proof (lookup_lt_Some _ _ _ Hl) as Ll.
  pose proof (lookup_lt_Some _ _ _ Hp) as Lp.
  pose proof (lookup_lt_Some _ _ _ Hq) as Lq.
  unfold _enhance_input_schema. rewrite Hl. unfold alloc. rewrite Hd.
  rewrite (lookup_app_l_Some _ _ _ _ Hp).
  cbn [length items_loop].
  rewrite (lookup_app_l_Some _ _ _ _ Hp). cbn [length Nat.eqb negb].
  change ([(name, RRef q)] !! 0) with (Some (name, RRef q)). cbn iota beta.
  unfold enhance_property. rewrite (lookup_app_l_Some _ _ _ _ Hq), Hname.
  unfold set_validation, alloc.
  rewrite list_lookup_insert_ne by exact Hqp.
  rewrite lookup_app_l by (rewrite length_app; simpl; lia).
  rewrite (lookup_app_l_Some _ _ _ _ Hp). cbn [length Nat.eqb negb Py.bind].
  rewrite list_lookup_insert_ne by lia.
  rewrite lookup_app_l by (rewrite length_app; simpl; lia).
  rewrite lookup_app_r by lia. rewrite Nat.sub_diag. cbn [lookup list_lookup].
  eexists. split; [reflexivity|].
  rewrite !length_app. cbn [length]. replace (length h + 1) with (S (length h)) by lia.
  repeat split.
  - rewrite list_lookup_insert_ne by lia.
    apply list_lookup_insert_eq. rewrite !length_app. simpl. lia.
  - rewrite !list_lookup_insert_ne by lia.
    rewrite lookup_app_r by (rewrite length_app; simpl; lia).
    rewrite length_app. simpl. now replace (S (length h) - (length h + 1)) with 0 by lia.
  - apply list_lookup_insert_eq. rewrite length_insert, !length_app. simpl. lia.
  - intros x Hx Hxq. rewrite !list_lookup_insert_ne by lia.
    rewrite <- app_assoc. now apply lookup_app_l.
Qed.

(** C6, the source at the end-to-end schema: [copy()] copies one level, so
    the nested property configuration is shared between the legacy schema and
    the enhanced one, and the injected [validation] entry shows in the legacy
    input after the call.  Only [additionalProperties], set on the copied
    root, stays out of it.  The returned tree is the one the tree model
    computes. *)
Theorem enhance_input_schema_changes_legacy :
  view 8 loaded legacy_ref = Some legacy_schema
  /\ read_back (_enhance_input_schema loaded legacy_ref) legacy_ref
     = match YamlMigrationTool._enhance_input_schema legacy_schema with
       | Ok enhanced => Some (enhanced, legacy_schema_after)
       | Raise _ => None
       end
  /\ legacy_schema_after <> legacy_schema
  /\ match legacy_schema_after with
     | VDict root => dict_has root "additionalProperties"
     | _ => true
     end = false.
Proof.
  split; [vm_compute; reflexivity|].
  split; [vm_compute; reflexivity|].
  split; [discriminate | reflexivity].
Qed.

End InPlaceProps.

(* ===================================================================== *)
(** ** What a migrated manifest looks like                                *)
(* ===================================================================== *)
Module MigratedManifestProps.
Import YamlMigrationTool ManifestSpec ValidatorSpec RoundTripSpec.

(** Everything [_migrate_tool_to_enhanced] computed on the way to its
    result. *)
Lemma migrated_tool_shape legacy_tool et :
  _migrate_tool_to_enhanced legacy_tool = Ok et ->
  exists t name description hidden cls core_schema routing pi,
    legacy_tool = VDict t
    /\ name_or_unknown legacy_tool = VStr name
    /\ security_classification_of (VStr name) = Ok cls
    /\ et = VDict
      [ ("name", VStr ("enhanced_" +:+ name));
        ("core", VDict
          [ ("description",
              VStr ("AI-enhanced " +:+ Py.str description
                    +:+ " with MCP 2025-06-18 compliance"));
            ("input_schema", core_schema) ]);
        ("execution", VDict
          [ ("routing", routing);
            ("security", _create_security_config cls);
            ("performance", _create_performance_config name) ]);
        ("discovery", VDict
          [ ("ai_enhanced", _create_ai_discovery name description);
            ("parameter_intelligence", pi) ]);
        ("monitoring", _create_monitoring_config name);
        ("access", VDict
          [ ("hidden", hidden);
            ("enabled", VBool true);
            ("requires_permissions", strs (_determine_permissions cls));
            ("user_groups",
              strs (if String.eqb cls "safe" then ["all"] else ["administrators"]));
            ("approval_required",
              VBool (existsb (String.eqb cls) ["dangerous"; "privileged"])) ]) ].
Proof.
  unfold _migrate_tool_to_enhanced. intros H.
  destruct legacy_tool as [| | | | |t]; try discriminate.
  cbn [get Py.bind] in H.
  apply PyFacts.bind_ok in H as [cls [Hcls H]].
  apply PyFacts.bind_ok in H as [core_schema [_ H]].
  apply PyFacts.bind_ok in H as [routing [_ H]].
  apply PyFacts.bind_ok in H as [name [Hname H]].
  apply PyFacts.bind_ok in H as [pi [_ H]].
  injection H as <-.
  assert (Hn : match dict_get t "name" with
               | Some x => x | None => VStr "unknown_tool" end = VStr name).
  { destruct (match dict_get t "name" with Some x => x | None => _ end);
      try discriminate. now injection Hname as ->. }
  rewrite Hn in *.
  eexists t, name, _, _, cls, core_schema, routing, pi.
  repeat split; try reflexivity; try assumption.
  unfold name_or_unknown. simpl. destruct (dict_get t "name"); exact Hn.
Qed.

(** The classification of a tool is one of the four known levels. *)
Lemma tool_classification_cases tool_name cls :
  security_classification_of tool_name = Ok cls ->
  cls = "safe" \/ cls = "restricted" \/ cls = "privileged" \/ cls = "dangerous".
Proof.
  unfold security_classification_of.
  change (assoc tool_security_mapping "default") with (Some "restricted").
  cbn [Py.bind]. destruct (hashable tool_name); [|intros H; discriminate H].
  destruct tool_name as [| | |s| |]; try (intros [= <-]; tauto).
  unfold tool_security_mapping. cbn [assoc].
  repeat match goal with
         | |- context [if String.eqb ?a s then _ else _] => destruct (String.eqb a s)
         end; intros [= <-]; tauto.
Qed.

Lemma migrated_content_shape L file_stem E :
  _migrate_yaml_content L file_stem = Ok E ->
  exists c em ts ets,
    L = VDict c
    /\ _create_enhanced_metadata (dict_or (dict_get c "metadata") (VDict [])) file_stem
       = Ok em
    /\ iter (dict_or (dict_get c "tools") (VList [])) = Ok ts
    /\ mapM _migrate_tool_to_enhanced ts = Ok ets
    /\ E = VDict [("metadata", em); ("tools", VList ets)].
Proof.
  unfold _migrate_yaml_content. intros H.
  destruct L as [| | | | |c]; try discriminate. cbn [get Py.bind] in H.
  apply PyFacts.bind_ok in H as [em [Hem H]].
  apply PyFacts.bind_ok in H as [ts [Hts H]].
  apply PyFacts.bind_ok in H as [ets [Hets H]].
  injection H as <-. now exists c, em, ts, ets.
Qed.

Lemma metadata_full_shape lm file_stem em :
  _create_enhanced_metadata lm file_stem = Ok em ->
  exists m name description author n dom uc kws,
    lm = VDict m
    /\ get lm "name"
         (VStr ("Enhanced " +:+ PyStr.title (PyStr.replace_char "_" " " file_stem)))
       = Ok name
    /\ em = VDict
      [ ("name", VStr ("Enhanced " +:+ Py.str name));
        ("description",
          VStr (Py.str description +:+ " - MCP 2025-06-18 compliant with AI enhancement"));
        ("version", VStr "3.0.0");
        ("author", author);
        ("classification", VDict
          [ ("security_level", VStr (security_level_of file_stem));
            ("complexity_level", VStr (complexity_level_of n));
            ("domain", VStr dom);
            ("use_cases", strs uc) ]);
        ("discovery_metadata", VDict
          [ ("primary_keywords", kws);
            ("semantic_embeddings", VBool true);
            ("llm_enhanced", VBool true);
            ("workflow_enabled", VBool true) ]);
        ("mcp_capabilities", VDict
          [ ("version", VStr "2025-06-18");
            ("supports_cancellation", VBool true);
            ("supports_progress", VBool true);
            ("supports_sampling", VBool false);
            ("supports_validation", VBool true);
            ("supports_elicitation", VBool false) ]) ].
Proof.
  unfold _create_enhanced_metadata. intros H.
  apply PyFacts.bind_ok in H as [name [Hname H]].
  apply PyFacts.bind_ok in H as [description [_ H]].
  apply PyFacts.bind_ok in H as [author [_ H]].
  apply PyFacts.bind_ok in H as [[[[sl cx] dom] uc] [Hc H]].
  apply PyFacts.bind_ok in H as [kws [_ H]].
  injection H as <-.
  unfold _classify_capability in Hc.
  apply PyFacts.bind_ok in Hc as [tools [_ Hc]].
  apply PyFacts.bind_ok in Hc as [n [_ Hc]].
  injection Hc as <- <- <- <-.
  destruct lm as [| | | | |m]; try discriminate.
  eexists m, name, description, author, n, _, _, kws.
  split; [reflexivity|]. split; [exact Hname | reflexivity].
Qed.

(** The iterated tools of a manifest that migrated are its tool entries. *)
Lemma iterated_tools_are_entries c ts ets :
  iter (dict_or (dict_get c "tools") (VList [])) = Ok ts ->
  mapM _migrate_tool_to_enhanced ts = Ok ets ->
  ts = tools_of (VDict c).
Proof.
  unfold tools_of, get_path, dict_or.
  destruct (dict_get c "tools") as [[| | |s|l|d]|]; simpl; try discriminate.
  - intros [= <-]. destruct s as [|a s]; [reflexivity|]. discriminate.
  - now intros [= <-].
  - intros [= <-]. destruct d as [|[k v] d]; [reflexivity|]. discriminate.
  - now intros [= <-].
Qed.

Lemma names_after_migration ts ets :
  mapM _migrate_tool_to_enhanced ts = Ok ets ->
  map (fun tool => get_path tool ["name"]) ets
  = map (fun tool => Some (VStr ("enhanced_" +:+ Py.str (name_or_unknown tool)))) ts.
Proof.
  intros H. apply PyFacts.mapM_ok_Forall2 in H.
  induction H as [|t et ts ets Ht _ IH]; [reflexivity|].
  cbn [map]. rewrite IH. f_equal.
  destruct (migrated_tool_shape t et Ht)
    as (d & name & ? & ? & ? & ? & ? & ? & _ & -> & _ & ->).
  reflexivity.
Qed.

Lemma migrated_tool_typed legacy_tool et :
  _migrate_tool_to_enhanced legacy_tool = Ok et -> tool_typed et = true.
Proof.
  intros H.
  destruct (migrated_tool_shape legacy_tool et H)
    as (d & name & ? & ? & ? & ? & ? & ? & _ & _ & _ & ->).
  reflexivity.
Qed.

Lemma migrated_content_typed L file_stem E :
  _migrate_yaml_content L file_stem = Ok E -> well_typed_legacy E = true.
Proof.
  intros H.
  destruct (migrated_content_shape L file_stem E H)
    as (c & em & ts & ets & -> & Hem & Hts & Hets & ->).
  destruct (metadata_full_shape _ _ _ Hem)
    as (m & ? & ? & ? & ? & ? & ? & ? & _ & _ & ->).
  assert (Htools : forallb tool_typed ets = true).
  { apply PyFacts.mapM_ok_Forall2 in Hets. clear -Hets.
    induction Hets as [|t et ts' ets' Ht _ IH]; [reflexivity|].
    cbn [forallb]. now rewrite (migrated_tool_typed t et Ht), IH. }
  unfold well_typed_legacy, dict_or.
  cbn [dict_get String.eqb Ascii.eqb Bool.eqb]. now rewrite Htools.
Qed.

(** A file that loads a migrated manifest counts as already enhanced. *)
Lemma migrated_is_already_enhanced L file_stem E f :
  _migrate_yaml_content L file_stem = Ok E -> load f = Ok E ->
  _is_already_enhanced f = true.
Proof.
  intros H Hf.
  destruct (migrated_content_shape L file_stem E H)
    as (c & em & ts & ets & -> & Hem & Hts & Hets & ->).
  destruct (metadata_full_shape _ _ _ Hem)
    as (m & ? & ? & ? & ? & ? & ? & ? & _ & _ & ->).
  unfold _is_already_enhanced. rewrite Hf. reflexivity.
Qed.

Lemma migrated_read_file_eq :
  _migrate_yaml_content OrchestratorSpec.read_file_manifest "file_ops"
  = Ok migrated_read_file.
Proof. vm_compute. reflexivity. Qed.

Lemma Forall_migrated_tools (P : value -> Prop) L file_stem E :
  (forall t et, _migrate_tool_to_enhanced t = Ok et -> P et) ->
  _migrate_yaml_content L file_stem = Ok E -> Forall P (tools_of E).
Proof.
  intros HP H.
  destruct (migrated_content_shape L file_stem E H)
    as (c & em & ts & ets & -> & _ & _ & Hets & ->).
  change (tools_of _) with ets.
  apply PyFacts.mapM_ok_Forall2 in Hets. clear -HP Hets.
  induction Hets as [|t et ts ets Ht _ IH]; constructor; eauto.
Qed.

(** X1: a manifest that migration returns is detected as enhanced by
    both pipelines: the validator takes the enhanced path for it, and the
    orchestrator counts every file that loads it as already enhanced. *)
Theorem migrated_manifest_detected_enhanced L file_stem E :
  _migrate_yaml_content L file_stem = Ok E ->
  YamlMigrationValidator._is_enhanced_format E = true
  /\ forall f, load f = Ok E -> _is_already_enhanced f = true.
Proof.
  intros H. split.
  - destruct (migrated_content_shape L file_stem E H)
      as (c & em & ts & ets & -> & Hem & _ & _ & ->).
    destruct (metadata_full_shape _ _ _ Hem)
      as (m & ? & ? & ? & ? & ? & ? & ? & _ & _ & ->).
    reflexivity.
  - intros f Hf. exact (migrated_is_already_enhanced L file_stem E f H Hf).
Qed.

Lemma migrated_manifest_detected_enhanced_witness :
  YamlMigrationValidator._is_enhanced_format migrated_read_file = true
  /\ _is_already_enhanced (migrated_file "file_ops") = true.
Proof.
  destruct (migrated_manifest_detected_enhanced _ _ _ migrated_read_file_eq) as [Hv Ho].
  split; [exact Hv | exact (Ho (migrated_file "file_ops") eq_refl)].
Defined.







(** X3: migration keeps the number and the order of the tool entries, and
    names each enhanced tool [enhanced_] followed by the name of the legacy
    tool at the same place, [enhanced_unknown_tool] when that tool has no
    name. *)
Theorem migration_keeps_tools_in_order L file_stem E :
  _migrate_yaml_content L file_stem = Ok E ->
  length (tools_of E) = length (tools_of L)
  /\ tool_names E
     = map (fun tool => Some (VStr ("enhanced_" +:+ Py.str (name_or_unknown tool))))
           (tools_of L).
Proof.
  intros H.
  destruct (migrated_content_shape L file_stem E H)
    as (c & em & ts & ets & -> & _ & Hts & Hets & ->).
  rewrite <- (iterated_tools_are_entries c ts ets Hts Hets).
  unfold tool_names. change (tools_of (VDict [("metadata", em); ("tools", VList ets)])) with ets.
  pose proof (names_after_migration ts ets Hets) as Hn.
  split; [|exact Hn].
  apply (f_equal (@length _)) in Hn. now rewrite !length_map in Hn.
Qed.

Lemma migration_keeps_tools_in_order_witness :
  length (tools_of migrated_read_file) = 1
  /\ tool_names migrated_read_file = [Some (VStr "enhanced_read_file")].
Proof.
  exact (migration_keeps_tools_in_order _ _ _ migrated_read_file_eq).
Defined.

Lemma names_after_second_migration ts ets :
  mapM _migrate_tool_to_enhanced ts = Ok ets ->
  map (fun tool => Some (VStr ("enhanced_" +:+ Py.str (name_or_unknown tool)))) ets
  = map (fun tool => Some (VStr ("enhanced_enhanced_" +:+ Py.str (name_or_unknown tool))))
        ts.
Proof.
  intros H. apply PyFacts.mapM_ok_Forall2 in H.
  induction H as [|t et ts ets Ht _ IH]; [reflexivity|].
  cbn [map]. rewrite IH. f_equal.
  destruct (migrated_tool_shape t et Ht)
    as (d & name & ? & ? & ? & ? & ? & ? & _ & -> & _ & ->).
  reflexivity.
Qed.

(** X4: migration does not recognise its own output.  Applied to a
    manifest it returned, [_migrate_yaml_content] returns again, and the
    tools come out with the prefix twice: only the skip test of the
    directory loop keeps a file from being migrated a second time. *)
Theorem migration_of_migrated_manifest L file_stem E file_stem' :
  _migrate_yaml_content L file_stem = Ok E ->
  exists E',
    _migrate_yaml_content E file_stem' = Ok E'
    /\ tool_names E'
       = map (fun tool =>
                Some (VStr ("enhanced_enhanced_" +:+ Py.str (name_or_unknown tool))))
             (tools_of L).
Proof.
  intros H.
  destruct (RoundTripProps.migration_total E file_stem'
              (migrated_content_typed L file_stem E H)) as [E' HE'].
  exists E'. split; [exact HE'|].
  destruct (migrated_content_shape L file_stem E H)
    as (c & em & ts & ets & -> & _ & Hts & Hets & ->).
  rewrite <- (iterated_tools_are_entries c ts ets Hts Hets).
  destruct (migrated_content_shape _ _ _ HE')
    as (c' & em' & ts' & ets' & Hc' & _ & Hts' & Hets' & ->).
  injection Hc' as <-. cbn in Hts'. injection Hts' as <-.
  unfold tool_names.
  change (tools_of (VDict [("metadata", em'); ("tools", VList ets')])) with ets'.
  rewrite (names_after_migration ets ets' Hets').
  exact (names_after_second_migration ts ets Hets).
Qed.

Lemma migration_of_migrated_manifest_witness :
  exists E',
    _migrate_yaml_content migrated_read_file "file_ops" = Ok E'
    /\ tool_names E' = [Some (VStr "enhanced_enhanced_read_file")].
Proof.
  exact (migration_of_migrated_manifest _ _ _ "file_ops" migrated_read_file_eq).
Defined.

Lemma migrated_tool_layout t et :
  _migrate_tool_to_enhanced t = Ok et -> enhanced_tool_layout et.
Proof.
  intros H.
  destruct (migrated_tool_shape t et H)
    as (d & name & ? & ? & cls & ? & ? & ? & _ & _ & _ & ->).
  unfold enhanced_tool_layout, keys_at, _create_monitoring_config.
  destruct (PyStr.any_in complex_tools (PyStr.lower name)); repeat split.
Qed.

(** X5: every tool of a migrated manifest has the six entries name, core,
    execution, discovery, monitoring, access, in this order, and each of the
    five sections has all of its entries: none is left out, whatever the
    legacy tool held. *)
Theorem migrated_tools_have_all_sections L file_stem E :
  _migrate_yaml_content L file_stem = Ok E ->
  Forall enhanced_tool_layout (tools_of E).
Proof. apply Forall_migrated_tools. exact migrated_tool_layout. Qed.

Lemma migrated_tools_have_all_sections_witness :
  Forall enhanced_tool_layout (tools_of migrated_read_file).
Proof.
  exact (migrated_tools_have_all_sections _ _ _ migrated_read_file_eq).
Defined.

Lemma migrated_tool_approval t et :
  _migrate_tool_to_enhanced t = Ok et -> approval_consistent et.
Proof.
  intros H.
  destruct (migrated_tool_shape t et H)
    as (d & name & ? & ? & cls & ? & ? & ? & _ & _ & Hcls & ->).
  exists cls.
  destruct (tool_classification_cases _ _ Hcls) as [-> | [-> | [-> | ->]]];
    repeat split; simpl; tauto.
Qed.

(** X6: in every tool of a migrated manifest the approval and permission
    entries agree with the classification in its security section, which is
    one of safe, restricted, privileged, dangerous: [access.approval_required]
    is true exactly when [execution.security.requires_approval] is present
    (dangerous and privileged), the permissions are the list of that
    classification, and the user group is [all] only for safe. *)
Theorem migrated_tools_approval_consistent L file_stem E :
  _migrate_yaml_content L file_stem = Ok E ->
  Forall approval_consistent (tools_of E).
Proof. apply Forall_migrated_tools. exact migrated_tool_approval. Qed.

Lemma migrated_tools_approval_consistent_witness :
  Forall approval_consistent (tools_of migrated_read_file).
Proof.
  exact (migrated_tools_approval_consistent _ _ _ migrated_read_file_eq).
Defined.

Lemma migrated_named_eq :
  _migrate_yaml_content named_manifest "file_ops" = Ok migrated_named.
Proof. vm_compute. reflexivity. Qed.

Lemma migrated_bare_eq :
  _migrate_yaml_content bare_manifest "net_tools" = Ok migrated_bare.
Proof. vm_compute. reflexivity. Qed.

Lemma metadata_name_cases c m file_stem name :
  get (dict_or (dict_get c "metadata") (VDict [])) "name"
      (VStr (default_metadata_name file_stem)) = Ok name ->
  dict_or (dict_get c "metadata") (VDict []) = VDict m ->
  match get_path (VDict c) ["metadata"; "name"] with
  | Some given => name = given
  | None => name = VStr (default_metadata_name file_stem)
  end.
Proof.
  cbn [get_path]. destruct (dict_get c "metadata") as [lm|]; cbn [dict_or].
  - intros H ->. cbn [get] in H. injection H as <-.
    cbn [get_path]. now destruct (dict_get m "name").
  - intros H _. cbn [get dict_get] in H. now injection H as <-.
Qed.

(** X7: the metadata of a migrated manifest.  It has its seven entries in
    a fixed order; the version is 3.0.0 and the protocol version 2025-06-18
    whatever the legacy metadata said; the security level is the one the file
    stem is classified with and, like the complexity level, a value the
    validator accepts.  A legacy name is prefixed with [Enhanced]; when the
    legacy metadata has no name the file stem is used, titled, and the prefix
    appears twice. *)
Theorem migrated_metadata_fields L file_stem E :
  _migrate_yaml_content L file_stem = Ok E ->
  keys_at E ["metadata"]
  = Some ["name"; "description"; "version"; "author"; "classification";
          "discovery_metadata"; "mcp_capabilities"]
  /\ get_path E ["metadata"; "version"] = Some (VStr "3.0.0")
  /\ get_path E ["metadata"; "mcp_capabilities"; "version"] = Some (VStr "2025-06-18")
  /\ get_path E ["metadata"; "classification"; "security_level"]
     = Some (VStr (security_level_of file_stem))
  /\ In (security_level_of file_stem) YamlMigrationValidator.valid_security_levels
  /\ (exists cx,
        get_path E ["metadata"; "classification"; "complexity_level"] = Some (VStr cx)
        /\ In cx YamlMigrationValidator.valid_complexity_levels)
  /\ get_path E ["metadata"; "name"]
     = Some (VStr ("Enhanced " +:+
                   match get_path L ["metadata"; "name"] with
                   | Some given => Py.str given
                   | None => "Enhanced " +:+ PyStr.title (PyStr.replace_char "_" " " file_stem)
                   end)).
Proof.
  intros H.
  destruct (migrated_content_shape L file_stem E H)
    as (c & em & ts & ets & -> & Hem & _ & _ & ->).
  destruct (metadata_full_shape _ _ _ Hem)
    as (m & name & descr & author & n & dom & uc & kws & Hm & Hname & ->).
  pose proof (metadata_name_cases c m file_stem name Hname Hm) as Hcases.
  split; [reflexivity|]. split; [reflexivity|]. split; [reflexivity|].
  split; [reflexivity|].
  split.
  { unfold security_level_of, YamlMigrationValidator.valid_security_levels.
    repeat destruct (PyStr.any_in _ _); simpl; tauto. }
  split.
  { exists (complexity_level_of n). split; [reflexivity|].
    unfold complexity_level_of, YamlMigrationValidator.valid_complexity_levels.
    repeat destruct (_ <? _)%nat; simpl; tauto. }
  destruct (get_path (VDict c) ["metadata"; "name"]) as [given|]; subst name; reflexivity.
Qed.

Lemma migrated_metadata_fields_witness :
  get_path migrated_bare ["metadata"; "version"] = Some (VStr "3.0.0")
  /\ get_path migrated_bare ["metadata"; "name"]
     = Some (VStr "Enhanced Enhanced Net Tools")
  /\ get_path migrated_named ["metadata"; "version"] = Some (VStr "3.0.0")
  /\ get_path migrated_named ["metadata"; "name"]
     = Some (VStr "Enhanced File tools").
Proof.
  pose proof (migrated_metadata_fields _ _ _ migrated_bare_eq) as (_ & Hv & _ & _ & _ & _ & Hn).
  pose proof (migrated_metadata_fields _ _ _ migrated_named_eq)
    as (_ & Hv' & _ & _ & _ & _ & Hr).
  split; [exact Hv|]. split; [exact Hn|]. split; [exact Hv' | exact Hr].
Defined.
End MigratedManifestProps.

(* ===================================================================== *)
(** ** The parts of a migrated tool                                       *)
(* ===================================================================== *)
Module ToolPartsProps.
Import YamlMigrationTool ManifestSpec ValidatorSpec RoundTripSpec.

Lemma get_path_one d k : get_path (VDict d) [k] = dict_get d k.
Proof. cbn [get_path]. now destruct (dict_get d k). Qed.

Lemma get_path_app v p q :
  get_path v (p ++ q)
  = match get_path v p with Some x => get_path x q | None => None end.
Proof.
  revert v. induction p as [|k p IH]; intros v; [reflexivity|].
  cbn [app get_path]. destruct v as [| | | | |d]; try reflexivity.
  destruct (dict_get d k); [apply IH | reflexivity].
Qed.

Lemma keys_dict_set d k v :
  map fst (dict_set d k v) = if dict_has d k then map fst d else map fst d ++ [k].
Proof.
  unfold dict_has. induction d as [|[k' v'] d IH]; [reflexivity|].
  cbn [dict_set dict_get]. destruct (String.eqb k' k) eqn:E; [reflexivity|].
  cbn [map fst]. rewrite IH. now destruct (dict_get d k).
Qed.

Lemma enhance_property_name item : fst (enhance_property item) = fst item.
Proof.
  destruct item as [name [| | | | |cfg]]; try reflexivity.
  unfold enhance_property. now repeat destruct (PyStr.contains _ _).
Qed.

Lemma enhanced_properties_names its : map fst (map enhance_property its) = map fst its.
Proof.
  induction its as [|item its IH]; [reflexivity|].
  cbn [map]. now rewrite IH, enhance_property_name.
Qed.

Lemma enhanced_properties_get its name :
  dict_get (map enhance_property its) name
  = match dict_get its name with
    | Some v => Some (snd (enhance_property (name, v)))
    | None => None
    end.
Proof.
  induction its as [|[k v] its IH]; [reflexivity|].
  cbn [map]. pose proof (enhance_property_name (k, v)) as Hk.
  destruct (enhance_property (k, v)) as [k' v'] eqn:E. cbn [fst] in Hk. subst k'.
  cbn [dict_get]. destruct (String.eqb k name) eqn:Ek; [|exact IH].
  apply String.eqb_eq in Ek. subst k. now rewrite E.
Qed.

(** The two steps of [_enhance_input_schema] on a dictionary. *)
Lemma enhance_schema_steps d r :
  _enhance_input_schema (VDict d) = Ok r ->
  exists d',
    r = VDict (dict_set d' "additionalProperties" (VBool false))
    /\ match dict_get d "properties" with
       | Some properties =>
           exists its, properties = VDict its
                       /\ d' = dict_set d "properties" (VDict (map enhance_property its))
       | None => d' = d
       end.
Proof.
  cbn [_enhance_input_schema]. intros H.
  apply PyFacts.bind_ok in H as [d' [Hd' H]]. injection H as <-.
  exists d'. split; [reflexivity|].
  destruct (dict_get d "properties") as [properties|]; [|now injection Hd' as <-].
  apply PyFacts.bind_ok in Hd' as [its [Hits Hd']]. injection Hd' as <-.
  exists its. split; [|reflexivity].
  destruct properties; try discriminate. now injection Hits as ->.
Qed.

(** X8: what [_enhance_input_schema] leaves alone.  The result has
    [additionalProperties] false, whatever the legacy schema said; every
    other entry than [properties] is the legacy one; the properties keep
    their names and their order; and the only key that can be new is
    [additionalProperties], at the end. *)
Theorem enhanced_schema_frame d r :
  _enhance_input_schema (VDict d) = Ok r ->
  get_path r ["additionalProperties"] = Some (VBool false)
  /\ (forall k, k <> "properties" -> k <> "additionalProperties" ->
        get_path r [k] = get_path (VDict d) [k])
  /\ keys_at r ["properties"] = keys_at (VDict d) ["properties"]
  /\ keys r = (if dict_has d "additionalProperties" then keys (VDict d)
               else keys (VDict d) ++ ["additionalProperties"]).
Proof.
  intros H. destruct (enhance_schema_steps d r H) as (d' & -> & Hd').
  assert (Hother : forall k, k <> "properties" -> dict_get d' k = dict_get d k).
  { intros k Hk. destruct (dict_get d "properties") as [properties|].
    - destruct Hd' as (its & _ & ->). now apply PyFacts.dict_get_set_other.
    - now subst d'. }
  assert (Hkeys : map fst d' = map fst d).
  { destruct (dict_get d "properties") as [properties|] eqn:Hp; [|now subst d'].
    destruct Hd' as (its & _ & ->). rewrite keys_dict_set. unfold dict_has.
    now rewrite Hp. }
  split; [|split; [|split]].
  - rewrite get_path_one. apply PyFacts.dict_get_set_same.
  - intros k Hp Ha. rewrite !get_path_one.
    rewrite PyFacts.dict_get_set_other by congruence. now apply Hother.
  - unfold keys_at. cbn [get_path].
    rewrite PyFacts.dict_get_set_other by discriminate.
    destruct (dict_get d "properties") as [properties|] eqn:Hp.
    + destruct Hd' as (its & -> & ->). rewrite PyFacts.dict_get_set_same.
      unfold keys. now rewrite enhanced_properties_names.
    + subst d'. now rewrite Hp.
  - unfold keys. rewrite keys_dict_set, Hkeys. unfold dict_has.
    now rewrite (Hother "additionalProperties") by discriminate.
Qed.

Lemma migrated_sample_schema_eq :
  _enhance_input_schema (VDict sample_schema) = Ok migrated_sample_schema.
Proof. vm_compute. reflexivity. Qed.

Lemma enhanced_schema_frame_witness :
  get_path migrated_sample_schema ["additionalProperties"] = Some (VBool false)
  /\ get_path migrated_sample_schema ["type"] = Some (VStr "object")
  /\ keys_at migrated_sample_schema ["properties"]
     = Some ["file_path"; "content_path"; "mode"]
  /\ keys migrated_sample_schema = ["type"; "properties"; "additionalProperties"].
Proof.
  destruct (enhanced_schema_frame _ _ migrated_sample_schema_eq) as (Ha & Ho & Hp & Hk).
  split; [exact Ha|]. split; [|split; [exact Hp | exact Hk]].
  apply (Ho "type"); discriminate.
Defined.

Lemma parameter_loop_scalar its acc name v :
  In (name, v) its -> is_dict v = false ->
  parameter_intelligence_loop its acc = Raise AttributeError.
Proof.
  intros Hin Hv. revert acc. induction its as [|[k c] its IH]; intros acc; [easy|].
  cbn [parameter_intelligence_loop].
  destruct Hin as [Heq | Hin].
  - injection Heq as -> ->. now destruct v.
  - destruct c; try reflexivity. cbn [get Py.bind]. now apply IH.
Qed.

(** X10: a property in short form stops the migration of its tool.  When
    a property of the input schema is configured by something else than a
    mapping, [_create_parameter_intelligence] raises [AttributeError], so
    [_migrate_tool_to_enhanced] raises and no enhanced tool is produced. *)
Theorem scalar_property_stops_tool t d props name v :
  dict_get t "inputSchema" = Some (VDict d) ->
  dict_get d "properties" = Some (VDict props) ->
  In (name, v) props -> is_dict v = false ->
  _create_parameter_intelligence (VDict d) = Raise AttributeError
  /\ exists e, _migrate_tool_to_enhanced (VDict t) = Raise e.
Proof.
  intros Ht Hd Hin Hv.
  assert (Hpi : _create_parameter_intelligence (VDict d) = Raise AttributeError).
  { unfold _create_parameter_intelligence. cbn [get Py.bind]. rewrite Hd.
    cbn [items Py.bind]. now rewrite (parameter_loop_scalar props [] name v Hin Hv). }
  split; [exact Hpi|].
  unfold _migrate_tool_to_enhanced. cbn [get Py.bind]. rewrite Ht.
  destruct (security_classification_of _); [|eexists; reflexivity].
  cbn [Py.bind]. destruct (_enhance_input_schema _); [|eexists; reflexivity].
  cbn [Py.bind]. destruct (_enhance_routing _); [|eexists; reflexivity].
  cbn [Py.bind]. destruct (as_str _); [|eexists; reflexivity].
  cbn [Py.bind]. rewrite Hpi. eexists. reflexivity.
Qed.

Lemma scalar_property_stops_tool_witness :
  _create_parameter_intelligence
    (VDict [ ("properties", VDict [ ("path", VStr "string") ]) ])
  = Raise AttributeError
  /\ exists e, _migrate_tool_to_enhanced (VDict short_form_tool) = Raise e.
Proof.
  apply (scalar_property_stops_tool short_form_tool
           [ ("properties", VDict [ ("path", VStr "string") ]) ]
           [ ("path", VStr "string") ] "path" (VStr "string"));
    [reflexivity | reflexivity | now left | reflexivity].
Defined.

(** Where the routing, the schema and the parameter intelligence of an
    enhanced tool come from. *)
Lemma migrated_tool_sources t et :
  _migrate_tool_to_enhanced (VDict t) = Ok et ->
  exists core_schema routing pi,
    _enhance_input_schema (dict_or (dict_get t "inputSchema") (VDict [])) = Ok core_schema
    /\ _enhance_routing (dict_or (dict_get t "routing") (VDict [])) = Ok routing
    /\ _create_parameter_intelligence (dict_or (dict_get t "inputSchema") (VDict []))
       = Ok pi
    /\ get_path et ["core"; "input_schema"] = Some core_schema
    /\ get_path et ["execution"; "routing"] = Some routing
    /\ get_path et ["discovery"; "parameter_intelligence"] = Some pi.
Proof.
  unfold _migrate_tool_to_enhanced. intros H.
  cbn [get Py.bind] in H.
  apply PyFacts.bind_ok in H as [cls [_ H]].
  apply PyFacts.bind_ok in H as [core_schema [Hs H]].
  apply PyFacts.bind_ok in H as [routing [Hr H]].
  apply PyFacts.bind_ok in H as [name [_ H]].
  apply PyFacts.bind_ok in H as [pi [Hpi H]].
  injection H as <-.
  exists core_schema, routing, pi. repeat split; assumption.
Qed.

Lemma enhanced_routing_parts r er :
  _enhance_routing (VDict r) = Ok er ->
  exists config command args timeout,
    dict_or (dict_get r "config") (VDict []) = VDict config
    /\ command = dict_or (dict_get config "command") (VStr "echo")
    /\ args = dict_or (dict_get config "args") (VList [])
    /\ timeout = dict_or (dict_get config "timeout") (VInt 30)
    /\ exists fallback,
         er = VDict
           ([ ("type", VStr ("enhanced_" +:+
                             Py.str (dict_or (dict_get r "type") (VStr "subprocess"))));
              ("primary", VDict [ ("command", command); ("args", args);
                                  ("timeout_seconds", timeout) ]) ]
            ++ (if eq_str (dict_or (dict_get r "type") (VStr "subprocess")) "subprocess"
                then [("fallback", fallback)] else [])).
Proof.
  unfold _enhance_routing. cbn [get Py.bind].
  fold (dict_or (dict_get r "type") (VStr "subprocess")).
  fold (dict_or (dict_get r "config") (VDict [])).
  destruct (dict_or (dict_get r "config") (VDict [])) as [| | | | |config]; try discriminate.
  cbn [get Py.bind]. intros H. injection H as <-.
  exists config, (dict_or (dict_get config "command") (VStr "echo")),
    (dict_or (dict_get config "args") (VList [])),
    (dict_or (dict_get config "timeout") (VInt 30)).
  do 4 (split; [reflexivity|]).
  destruct (eq_str _ "subprocess"); [eexists; reflexivity | now exists VNone].
Qed.

(** X11: the routing of a migrated tool.  Its type is the legacy type
    prefixed with [enhanced_], [enhanced_subprocess] when the legacy routing
    names none; a fallback is added exactly when that type is subprocess; the
    primary command takes command, arguments and timeout from the legacy
    [config] and falls back on echo, no arguments and 30 seconds.  A tool
    without a routing entry therefore becomes an echo subprocess with a
    fallback. *)
Theorem migrated_tool_routing t et :
  _migrate_tool_to_enhanced (VDict t) = Ok et ->
  let legacy := dict_or (dict_get t "routing") (VDict []) in
  let routing_type := dict_or (get_path legacy ["type"]) (VStr "subprocess") in
  get_path et ["execution"; "routing"; "type"]
  = Some (VStr ("enhanced_" +:+ Py.str routing_type))
  /\ keys_at et ["execution"; "routing"]
     = Some (if eq_str routing_type "subprocess"
             then ["type"; "primary"; "fallback"] else ["type"; "primary"])
  /\ get_path et ["execution"; "routing"; "primary"]
     = Some (VDict
         [ ("command", dict_or (get_path legacy ["config"; "command"]) (VStr "echo"));
           ("args", dict_or (get_path legacy ["config"; "args"]) (VList []));
           ("timeout_seconds",
             dict_or (get_path legacy ["config"; "timeout"]) (VInt 30)) ]).
Proof.
  intros H legacy routing_type.
  destruct (migrated_tool_sources t et H) as (cs & routing & pi & _ & Hr & _ & _ & Het & _).
  fold legacy in Hr.
  assert (Hsplit : forall p, get_path et ("execution" :: "routing" :: p)
                             = get_path routing p).
  { intros p. change ("execution" :: "routing" :: p) with (["execution"; "routing"] ++ p).
    now rewrite get_path_app, Het. }
  unfold keys_at. rewrite !Hsplit.
  destruct legacy as [| | | | |r] eqn:Hl; try discriminate.
  destruct (enhanced_routing_parts r routing Hr)
    as (config & command & args & timeout & Hc & -> & -> & -> & fallback & ->).
  unfold routing_type. rewrite !(get_path_one r).
  assert (Hcfg : forall k, get_path (VDict r) ["config"; k] = dict_get config k).
  { intros k. cbn [get_path]. unfold dict_or in Hc.
    destruct (dict_get r "config") as [c|].
    - subst c. now destruct (dict_get config k).
    - injection Hc as <-. reflexivity. }
  rewrite !Hcfg.
  split; [reflexivity|]. split; [|reflexivity].
  now destruct (eq_str _ "subprocess").
Qed.

Lemma migrated_tool_routing_witness :
  get_path (VDict [("name", VStr "ping")]) ["routing"] = None
  /\ exists et,
       _migrate_tool_to_enhanced (VDict [("name", VStr "ping")]) = Ok et
       /\ get_path et ["execution"; "routing"; "type"]
          = Some (VStr "enhanced_subprocess")
       /\ keys_at et ["execution"; "routing"] = Some ["type"; "primary"; "fallback"]
       /\ get_path et ["execution"; "routing"; "primary"] = Some default_primary.
Proof.
  split; [reflexivity|]. eexists. split; [vm_compute; reflexivity|].
  exact (migrated_tool_routing [("name", VStr "ping")] _ eq_refl).
Defined.

Lemma dedup_fresh seen xs :
  Forall (fun y => existsb (eq_hashable y) seen = false) (dedup seen xs).
Proof.
  revert seen. induction xs as [|x xs IH]; intros seen; [constructor|].
  cbn [dedup]. destruct (existsb (eq_hashable x) seen) eqn:E; [apply IH|].
  constructor; [exact E|].
  eapply Forall_impl; [apply (IH (x :: seen))|].
  intros y Hy. cbn [existsb] in Hy. now apply orb_false_iff in Hy.
Qed.

Lemma dedup_no_duplicates seen xs : no_duplicates (dedup seen xs).
Proof.
  revert seen. induction xs as [|x xs IH]; intros seen; [constructor|].
  cbn [dedup]. destruct (existsb (eq_hashable x) seen); [apply IH|].
  constructor; [|apply IH].
  eapply Forall_impl; [apply (dedup_fresh (x :: seen) xs)|].
  intros y Hy. cbn [existsb] in Hy. now apply orb_false_iff in Hy.
Qed.

Lemma eq_hashable_string s y : eq_hashable (VStr s) y = true -> y = VStr s.
Proof.
  destruct y; try discriminate. cbn [eq_hashable]. intros H.
  apply String.eqb_eq in H. now subst.
Qed.

Lemma dedup_keeps_strings seen xs s :
  In (VStr s) xs -> In (VStr s) seen \/ In (VStr s) (dedup seen xs).
Proof.
  revert seen. induction xs as [|x xs IH]; intros seen Hin; [easy|].
  cbn [dedup]. destruct Hin as [-> | Hin].
  - destruct (existsb (eq_hashable (VStr s)) seen) eqn:E; [|right; now left].
    apply existsb_exists in E as (y & Hy & Heq).
    apply eq_hashable_string in Heq. subst y. now left.
  - destruct (existsb (eq_hashable x) seen).
    + now apply IH.
    + destruct (IH (x :: seen) Hin) as [[-> | Hs] | Hd].
      * right. now left.
      * now left.
      * right. now right.
Qed.

Lemma list_set_strings xs l s :
  list_set xs = Ok l -> In (VStr s) xs -> In (VStr s) l.
Proof.
  unfold list_set. destruct (forallb hashable xs); [|discriminate].
  intros H Hin. injection H as <-.
  destruct (dedup_keeps_strings [] xs s Hin) as [[] | H]. exact H.
Qed.

(** X12: the keywords of a migrated manifest.  [_generate_keywords]
    returns a list in which no two elements are equal, and which holds the
    file stem with its underscores turned into spaces, every keyword of the
    first table entry whose key occurs in the lowered stem, and every string
    among the legacy tags. *)
Theorem generated_keywords_distinct file_stem m ks :
  _generate_keywords file_stem (VDict m) = Ok ks ->
  exists l,
    ks = VList l
    /\ no_duplicates l
    /\ In (VStr (PyStr.replace_char "_" " " file_stem)) l
    /\ (forall kws s,
          first_match name_keywords (PyStr.lower file_stem) = Some kws ->
          In s kws -> In (VStr s) l)
    /\ (forall tags s,
          dict_get m "tags" = Some (VList tags) -> In (VStr s) tags -> In (VStr s) l).
Proof.
  unfold _generate_keywords. cbn [has Py.bind]. intros H.
  apply PyFacts.bind_ok in H as [keywords [Hk H]].
  apply PyFacts.bind_ok in H as [l [Hl H]]. injection H as <-.
  exists l. split; [reflexivity|].
  split.
  { unfold list_set in Hl. destruct (forallb hashable keywords); [|discriminate].
    injection Hl as <-. apply dedup_no_duplicates. }
  set (base := match first_match name_keywords (PyStr.lower file_stem) with
               | Some kw_list => [VStr (PyStr.replace_char "_" " " file_stem)]
                                 ++ map VStr kw_list
               | None => [VStr (PyStr.replace_char "_" " " file_stem)]
               end) in Hk.
  assert (Hbase : exists extra, keywords = base ++ extra
                    /\ forall tags, dict_get m "tags" = Some (VList tags) -> extra = tags).
  { unfold dict_has in Hk. cbn [get Py.bind] in Hk. revert Hk.
    destruct (dict_get m "tags") as [tags|]; intros Hk.
    - apply PyFacts.bind_ok in Hk as [extra [He Hk]].
      injection Hk as <-. exists extra. split; [reflexivity|].
      intros tags' [= ->]. cbn [iter] in He. now injection He as <-.
    - injection Hk as <-. exists []. split; [now rewrite app_nil_r | discriminate]. }
  destruct Hbase as (extra & -> & Hextra).
  split; [|split].
  - apply (list_set_strings _ _ _ Hl). apply in_or_app. left.
    subst base. destruct (first_match _ _); now left.
  - intros kws s Hf Hin. apply (list_set_strings _ _ _ Hl). apply in_or_app. left.
    subst base. rewrite Hf. apply in_or_app. right. now apply in_map.
  - intros tags s Ht Hin. apply (list_set_strings _ _ _ Hl). apply in_or_app. right.
    now rewrite (Hextra tags Ht).
Qed.

Lemma generated_keywords_distinct_witness :
  exists l,
    _generate_keywords "file_ops" (VDict tagged_metadata) = Ok (VList l)
    /\ length l = 6
    /\ no_duplicates l
    /\ In (VStr "file ops") l /\ In (VStr "filesystem") l /\ In (VStr "io") l.
Proof.
  destruct (generated_keywords_distinct "file_ops" tagged_metadata _ eq_refl)
    as (l & Hl & Hd & Hs & Hk & Ht).
  injection Hl as <-. eexists. split; [reflexivity|]. split; [reflexivity|].
  split; [exact Hd|]. split; [exact Hs|]. split.
  - apply (Hk ["file"; "read"; "write"; "filesystem"]); [reflexivity | simpl; tauto].
  - apply (Ht [VStr "file"; VStr "io"; VStr "io"]); [reflexivity | simpl; tauto].
Defined.

Lemma metadata_complexity m file_stem em :
  _create_enhanced_metadata (VDict m) file_stem = Ok em ->
  exists n,
    len (dict_or (dict_get m "tools") (VList [])) = Ok n
    /\ get_path em ["classification"; "complexity_level"]
       = Some (VStr (complexity_level_of n)).
Proof.
  unfold _create_enhanced_metadata. intros H.
  apply PyFacts.bind_ok in H as [name [_ H]].
  apply PyFacts.bind_ok in H as [description [_ H]].
  apply PyFacts.bind_ok in H as [author [_ H]].
  apply PyFacts.bind_ok in H as [[[[sl cx] dom] uc] [Hc H]].
  apply PyFacts.bind_ok in H as [kws [_ H]].
  injection H as <-.
  unfold _classify_capability in Hc. cbn [get Py.bind] in Hc.
  apply PyFacts.bind_ok in Hc as [n [Hn Hc]].
  injection Hc as _ <- _ _.
  exists n. split; [exact Hn | reflexivity].
Qed.

(** X13: the complexity level does not count the tools of the manifest.
    [_classify_capability] is handed the legacy metadata and counts the
    entries of a [tools] key in it; a manifest whose metadata has no such key
    is classified simple, however many tools it lists. *)
Theorem complexity_ignores_tool_list L file_stem E :
  _migrate_yaml_content L file_stem = Ok E ->
  get_path L ["metadata"; "tools"] = None ->
  get_path E ["metadata"; "classification"; "complexity_level"]
  = Some (VStr "simple").
Proof.
  intros H Hnone.
  destruct (MigratedManifestProps.migrated_content_shape L file_stem E H)
    as (c & em & ts & ets & -> & Hem & _ & _ & ->).
  change (get_path (VDict [("metadata", em); ("tools", VList ets)])
            ["metadata"; "classification"; "complexity_level"])
    with (get_path em ["classification"; "complexity_level"]).
  cbn [get_path] in Hnone.
  destruct (dict_get c "metadata") as [lm|]; cbn [dict_or] in Hem.
  - destruct lm as [| | | | |m]; try discriminate.
    destruct (metadata_complexity m file_stem em Hem) as (n & Hn & ->).
    destruct (dict_get m "tools"); [discriminate|].
    cbn in Hn. now injection Hn as <-.
  - destruct (metadata_complexity [] file_stem em Hem) as (n & Hn & ->).
    cbn in Hn. now injection Hn as <-.
Qed.

Lemma migrated_twelve_eq :
  _migrate_yaml_content twelve_tools "net_tools" = Ok migrated_twelve.
Proof. vm_compute. reflexivity. Qed.

Lemma complexity_ignores_tool_list_witness :
  length (tools_of twelve_tools) = 12
  /\ get_path migrated_twelve ["metadata"; "classification"; "complexity_level"]
     = Some (VStr "simple").
Proof.
  split; [reflexivity|].
  exact (complexity_ignores_tool_list _ _ _ migrated_twelve_eq eq_refl).
Defined.

Lemma migrated_tool_progress t et :
  _migrate_tool_to_enhanced t = Ok et -> progress_consistent et.
Proof.
  intros H.
  destruct (MigratedManifestProps.migrated_tool_shape t et H)
    as (d & name & ? & ? & cls & ? & ? & ? & _ & _ & _ & ->).
  exists (PyStr.any_in complex_tools (PyStr.lower name)).
  unfold keys_at, _create_monitoring_config, _create_performance_config.
  destruct (PyStr.any_in complex_tools (PyStr.lower name)); repeat split.
Qed.

(** X14: progress and cancellation are declared alike in both places.  In
    every tool of a migrated manifest, [supports_progress] of the performance
    section, [progress_tracking.enabled] and [cancellation.cleanup_required]
    of the monitoring section are the same flag, the sub-operations are
    listed exactly when it is set, and cancellation is supported and enabled
    in any case. *)
Theorem migrated_tools_progress_consistent L file_stem E :
  _migrate_yaml_content L file_stem = Ok E ->
  Forall progress_consistent (tools_of E).
Proof.
  apply MigratedManifestProps.Forall_migrated_tools. exact migrated_tool_progress.
Qed.

Lemma migrated_tools_progress_consistent_witness :
  Forall progress_consistent (tools_of migrated_read_file).
Proof.
  exact (migrated_tools_progress_consistent _ _ _
           MigratedManifestProps.migrated_read_file_eq).
Defined.
End ToolPartsProps.

(* ===================================================================== *)
(** ** Validation runs                                                    *)
(* ===================================================================== *)
Module ValidationRunProps.
Import YamlMigrationValidator ValidatorSpec ValidationRunSpec ValidatorProps.
Local Open Scope validator_scope.

(** [validate_file] on any validator, from its report. *)
Lemma validate_file_report f self :
  validate_file f self
  = match file_report f with
    | Ok out => Ok (results self ++ out, extend self out)
    | Raise e => Raise e
    end.
Proof.
  destruct (validate_file_returns f) as [r Hr].
  unfold file_report. rewrite (Hr (init false)), (Hr self).
  now destruct r.
Qed.

Lemma mbind_run {A B} (m : M A) (k : A -> M B) self :
  mbind m k self
  = match m self with
    | Ok (a, self') => k a self'
    | Raise e => Raise e
    end.
Proof. reflexivity. Qed.

Lemma mret_run {A} (a : A) self : mret a self = Ok (a, self).
Proof. reflexivity. Qed.

Lemma for_each_reports files :
  appends (for_each files (fun yaml_file => _ <- validate_file yaml_file ;; mret tt))
    (match reports files with
     | Ok outs => Ok (tt, outs)
     | Raise e => Raise e
     end).
Proof.
  induction files as [|f files IH]; intros self; cbn [for_each reports].
  - apply appends_mret.
  - rewrite !mbind_run, validate_file_report.
    destruct (file_report f) as [out|e]; [|reflexivity].
    rewrite mret_run, (IH (extend self out)).
    destruct (reports files) as [outs|e]; [|reflexivity].
    now rewrite extend_extend.
Qed.

Lemma validate_directory_report d self :
  dir_exists d = true -> yaml_files d <> [] ->
  validate_directory d self
  = match reports (yaml_files d) with
    | Ok outs =>
        Ok (results self ++ found_header d :: outs,
            extend self (found_header d :: outs))
    | Raise e => Raise e
    end.
Proof.
  intros Hd Hf. unfold validate_directory. rewrite Hd. cbn [negb].
  destruct (yaml_files d) as [|f files] eqn:Hfiles; [contradiction|].
  cbn [nonempty negb]. rewrite <- Hfiles.
  rewrite mbind_run, (appends_append _ _ _ _ self).
  fold (found_header d).
  rewrite mbind_run, for_each_reports.
  destruct (reports (yaml_files d)) as [outs|e]; [|reflexivity].
  unfold get_results. rewrite extend_extend. reflexivity.
Qed.

(** X15: validating a directory is validating its files one by one.
    For an existing directory with at least one YAML file,
    [validate_directory] returns what the validator already held, then the
    result that counts the files, then the reports that [validate_file] gives
    for each file on its own, in the order of the files; the results of one
    file never depend on the files before it.  If the validation of one file
    raises, the whole call raises that exception. *)
Theorem validate_directory_concatenates d self :
  dir_exists d = true -> yaml_files d <> [] ->
  validate_directory d self
  = match reports (yaml_files d) with
    | Ok outs =>
        Ok (results self ++ found_header d :: outs,
            extend self (found_header d :: outs))
    | Raise e => Raise e
    end.
Proof. exact (validate_directory_report d self). Qed.

Lemma validate_directory_concatenates_witness :
  exists r1 r2,
    validate_directory unreadable_dir (init false)
    = Ok ([found_header unreadable_dir; r1; r2],
          extend (init false) [found_header unreadable_dir; r1; r2])
    /\ file_report missing_file = Ok [r1].
Proof.
  eexists _, _. split.
  - apply (validate_directory_concatenates unreadable_dir (init false));
      [reflexivity | discriminate].
  - reflexivity.
Defined.

Lemma unreadable_report f :
  unreadable f ->
  exists r, file_report f = Ok [r] /\ level r = ERROR /\ file_path r = path f.
Proof.
  unfold file_report, validate_file. intros [Hmissing | [e He]].
  - rewrite Hmissing. eexists. repeat split.
  - destruct (file_exists f); [|eexists; repeat split].
    rewrite He. destruct e; eexists; repeat split.
Qed.

Lemma unreadable_reports files :
  Forall unreadable files ->
  exists outs,
    reports files = Ok outs
    /\ Forall (fun r => level r = ERROR) outs
    /\ map file_path outs = map path files.
Proof.
  induction 1 as [|f files Hf _ (outs & Houts & Hlevel & Hpaths)].
  - exists []. repeat split. constructor.
  - destruct (unreadable_report f Hf) as (r & Hr & Hl & Hp).
    exists (r :: outs). cbn [reports]. rewrite Hr, Houts.
    split; [reflexivity|]. split; [now constructor|].
    cbn [map]. now rewrite Hp, Hpaths.
Qed.

(** X16: files that cannot be read never stop a validation run.  A file
    that does not exist or whose loading raises gives exactly one ERROR
    result, and [validate_file] returns.  A directory in which no file can be
    read is reported as the file count followed by one ERROR for each file, in
    order, and the exit status of [main] is 1. *)
Theorem unreadable_files_one_error_each d self strict :
  dir_exists d = true -> yaml_files d <> [] ->
  Forall unreadable (yaml_files d) ->
  (exists outs,
     validate_directory d self
     = Ok (results self ++ found_header d :: outs,
           extend self (found_header d :: outs))
     /\ Forall (fun r => level r = ERROR) outs
     /\ map file_path outs = map path (yaml_files d))
  /\ main strict (IsDir d) = 1%Z.
Proof.
  intros Hd Hne Hall.
  destruct (unreadable_reports _ Hall) as (outs & Houts & Hlevel & Hpaths).
  split.
  - exists outs. rewrite (validate_directory_report d self Hd Hne), Houts. now split.
  - unfold main, run. rewrite (validate_directory_report d (init strict) Hd Hne), Houts.
    unfold print_results. cbn [results extend init app of_level List.filter level
                               found_header level_eqb].
    destruct outs as [|r outs].
    + destruct (yaml_files d); [contradiction | discriminate].
    + apply Forall_inv in Hlevel. cbn [List.filter]. rewrite Hlevel. reflexivity.
Qed.

Lemma unreadable_files_one_error_each_witness :
  (exists outs,
     validate_directory unreadable_dir (init false)
     = Ok ([] ++ found_header unreadable_dir :: outs,
           extend (init false) (found_header unreadable_dir :: outs))
     /\ Forall (fun r => level r = ERROR) outs
     /\ map file_path outs = ["caps/gone.yaml"; "caps/broken.yaml"])
  /\ main true (IsDir unreadable_dir) = 1%Z.
Proof.
  apply (unreadable_files_one_error_each unreadable_dir (init false) true);
    [reflexivity | discriminate |].
  constructor; [now left|].
  constructor; [right; now exists YAMLError | constructor].
Defined.

Lemma scalar_report f content :
  file_exists f = true -> load f = Ok content -> is_dict content = false ->
  file_report f = Raise AttributeError.
Proof.
  intros He Hl Hc. unfold file_report, validate_file. rewrite He, Hl. cbn [negb].
  destruct content; try discriminate; reflexivity.
Qed.

Lemma reports_raise files f e :
  In f files -> file_report f = Raise e -> exists e', reports files = Raise e'.
Proof.
  intros Hin Hf. induction files as [|g files IH]; [easy|].
  cbn [reports]. destruct Hin as [-> | Hin].
  - rewrite Hf. now exists e.
  - destruct (file_report g) as [out|e0]; [|now exists e0].
    destruct (IH Hin) as [e' ->]. now exists e'.
Qed.

(** X17: a document that is not a mapping aborts validation.  When a
    file loads as anything else than a mapping (an empty file loads as
    [None]), [validate_file] does not report it: it raises [AttributeError].
    [validate_directory] does not catch it, so a directory that contains such
    a file gives no results at all, and [main] ends with status 1. *)
Theorem scalar_document_aborts_validation d f content self strict :
  dir_exists d = true -> In f (yaml_files d) ->
  file_exists f = true -> load f = Ok content -> is_dict content = false ->
  validate_file f self = Raise AttributeError
  /\ (exists e, validate_directory d self = Raise e)
  /\ main strict (IsDir d) = 1%Z.
Proof.
  intros Hd Hin He Hl Hc.
  pose proof (scalar_report f content He Hl Hc) as Hr.
  assert (Hne : yaml_files d <> []) by (destruct (yaml_files d); [easy | discriminate]).
  destruct (reports_raise _ f _ Hin Hr) as [e' He'].
  split; [|split].
  - now rewrite validate_file_report, Hr.
  - exists e'. now rewrite (validate_directory_report d self Hd Hne), He'.
  - unfold main, run. now rewrite (validate_directory_report d _ Hd Hne), He'.
Qed.

Lemma scalar_document_aborts_validation_witness :
  validate_file empty_file (init false) = Raise AttributeError
  /\ (exists e, validate_directory dir_with_empty_file (init false) = Raise e)
  /\ main false (IsDir dir_with_empty_file) = 1%Z.
Proof.
  apply (scalar_document_aborts_validation dir_with_empty_file empty_file VNone
           (init false) false);
    [reflexivity | right; now left | reflexivity | reflexivity | reflexivity].
Defined.



End ValidationRunProps.

(* ===================================================================== *)
(** ** The command line of the migration tool                             *)
(* ===================================================================== *)
Module CommandLineProps.
Import YamlMigrationTool OrchestratorSpec CommandLineSpec.

Lemma output_given root rel : no_output (Some (root +:+ "/" +:+ rel)) = false.
Proof. unfold no_output. now destruct root. Qed.

Lemma set_backup_same f : set_backup (backup f) f = f.
Proof. now destruct f. Qed.

Lemma same_backups d : with_backups backup d = d.
Proof.
  destruct d as [p e files mk ps pe]. unfold with_backups.
  cbn [dir_path dir_exists yaml_files output_mkdir print_start print_error].
  f_equal. induction files as [|f files IH]; [reflexivity|].
  cbn [map]. now rewrite IH, set_backup_same.
Qed.

(** [migrate_file] reads the configuration for [create_backup] only, and
    the outcome of the backup copy only when it makes one. *)
Lemma migrate_file_same_stats f b out self1 self2 :
  migration_stats self1 = migration_stats self2 ->
  (if create_backup (config self1) && no_output out then backup f else Ok tt)
  = (if create_backup (config self2) && no_output out then b else Ok tt) ->
  same_stats
    (r <- migrate_file f out self1 ;; Ok (snd r))
    (r <- migrate_file (set_backup b f) out self2 ;; Ok (snd r)).
Proof.
  intros Hs Hb. unfold migrate_file.
  cbn [set_backup file_exists load stem write backup].
  destruct (negb (file_exists f)); [reflexivity|].
  rewrite Hb.
  destruct (if create_backup (config self2) && no_output out then b else Ok tt);
    [|reflexivity]. cbn [Py.bind].
  destruct (load f) as [content|e]; [|reflexivity]. cbn [Py.bind].
  destruct (_migrate_yaml_content content (stem f)); [|reflexivity]. cbn [Py.bind].
  destruct (write f); [|reflexivity]. cbn [Py.bind snd same_stats].
  unfold incr_files_migrated, incr_files_processed, with_stats.
  cbn [migration_stats files_processed files_migrated files_skipped errors].
  now rewrite Hs.
Qed.

Lemma try_same_stats root f b self1 self2 :
  migration_stats self1 = migration_stats self2 ->
  same_stats (migrate_directory_try root self1 f)
             (migrate_directory_try root self2 (set_backup b f)).
Proof.
  intros Hs. unfold migrate_directory_try.
  change (_is_already_enhanced (set_backup b f)) with (_is_already_enhanced f).
  change (parent_mkdir (set_backup b f)) with (parent_mkdir f).
  change (rel_path (set_backup b f)) with (rel_path f).
  destruct (_is_already_enhanced f).
  - unfold incr_files_skipped, with_stats. cbn [same_stats migration_stats].
    now rewrite Hs.
  - destruct (parent_mkdir f) as [[]|e]; cbn [Py.bind]; [|reflexivity].
    apply migrate_file_same_stats; [exact Hs|].
    now rewrite output_given, !andb_false_r.
Qed.

Lemma step_stats root f b self1 self2 :
  migration_stats self1 = migration_stats self2 ->
  migration_stats (migrate_directory_step root self1 f)
  = migration_stats (migrate_directory_step root self2 (set_backup b f)).
Proof.
  intros Hs. unfold migrate_directory_step.
  pose proof (try_same_stats root f b self1 self2 Hs) as H.
  change (path (set_backup b f)) with (path f).
  destruct (migrate_directory_try root self1 f) as [a1|e1],
           (migrate_directory_try root self2 (set_backup b f)) as [a2|e2];
    try contradiction.
  - exact H.
  - cbn [same_stats] in H. subst e2.
    unfold append_error, with_stats. cbn [migration_stats]. now rewrite Hs.
Qed.

Lemma loop_same_stats d g root files self1 self2 :
  migration_stats self1 = migration_stats self2 ->
  same_stats
    (migrate_directory_loop d root files self1)
    (migrate_directory_loop (with_backups g d) root
       (map (fun f => set_backup (g f) f) files) self2).
Proof.
  revert self1 self2. induction files as [|f files IH]; intros self1 self2 Hs;
    [exact Hs|].
  cbn [map migrate_directory_loop].
  pose proof (try_same_stats root f (g f) self1 self2 Hs) as H.
  pose proof (step_stats root f (g f) self1 self2 Hs) as Hstep.
  change (path (set_backup (g f) f)) with (path f).
  change (print_error (with_backups g d)) with (print_error d).
  destruct (migrate_directory_try root self1 f) as [a1|e1],
           (migrate_directory_try root self2 (set_backup (g f) f)) as [a2|e2];
    try contradiction.
  - cbn [Py.bind]. now apply IH.
  - cbn [same_stats] in H. subst e2.
    destruct (print_error d _); [|reflexivity]. cbn [Py.bind]. now apply IH.
Qed.

Lemma migrate_directory_same_stats d g output_dir self1 self2 :
  migration_stats self1 = migration_stats self2 ->
  same_stats
    (r <- migrate_directory d output_dir self1 ;; Ok (snd r))
    (r <- migrate_directory (with_backups g d) output_dir self2 ;; Ok (snd r)).
Proof.
  intros Hs. unfold migrate_directory, output_path.
  cbn [with_backups dir_path dir_exists yaml_files output_mkdir print_start].
  destruct (negb (dir_exists d)); [reflexivity|].
  destruct (if no_output output_dir then Ok tt else output_mkdir d); [|reflexivity].
  destruct (print_start d); [|reflexivity]. cbn [Py.bind].
  pose proof (loop_same_stats d g
                (if no_output output_dir then dir_path d
                 else match output_dir with Some p => p | None => dir_path d end)
                (yaml_files d) self1 self2 Hs) as H.
  destruct (migrate_directory_loop d _ _ self1) as [a1|e1],
           (migrate_directory_loop (with_backups g d) _ _ self2) as [a2|e2];
    try contradiction; exact H.
Qed.

(** X19: a directory run never makes a backup copy.  The statistics that
    [migrate_directory] returns, or the exception it raises, are the same
    whatever [create_backup] and the other settings say and however making
    the backup copy of each file would end: [migrate_file] is always called
    with an output path, also when the files are migrated in place. *)
Theorem directory_run_makes_no_backup d g output_dir self1 self2 :
  migration_stats self1 = migration_stats self2 ->
  returned_stats (migrate_directory d output_dir self1)
  = returned_stats (migrate_directory (with_backups g d) output_dir self2).
Proof.
  intros Hs. unfold migrate_directory, output_path.
  cbn [with_backups dir_path dir_exists yaml_files output_mkdir print_start].
  destruct (negb (dir_exists d)); [reflexivity|].
  destruct (if no_output output_dir then Ok tt else output_mkdir d); [|reflexivity].
  destruct (print_start d); [|reflexivity]. cbn [Py.bind].
  pose proof (loop_same_stats d g
                (if no_output output_dir then dir_path d
                 else match output_dir with Some p => p | None => dir_path d end)
                (yaml_files d) self1 self2 Hs) as H.
  destruct (migrate_directory_loop d _ _ self1) as [a1|e1],
           (migrate_directory_loop (with_backups g d) _ _ self2) as [a2|e2];
    try contradiction; cbn [same_stats] in H; cbn [Py.bind returned_stats];
    now rewrite H.
Qed.

Lemma directory_run_makes_no_backup_witness :
  create_backup default_config = true
  /\ returned_stats (migrate_directory sample_dir None (init default_config))
     = returned_stats
         (migrate_directory (with_backups (fun _ => Raise OSError) sample_dir) None
            (init default_config)).
Proof.
  split; [reflexivity|].
  exact (directory_run_makes_no_backup sample_dir (fun _ => Raise OSError) None
           (init default_config) (init default_config) eq_refl).
Defined.

Lemma main_run_same_stats fs args1 args2 :
  arg_input_path args1 = arg_input_path args2 ->
  arg_file args1 = arg_file args2 ->
  arg_batch args1 = arg_batch args2 ->
  arg_output args1 = arg_output args2 ->
  arg_preserve_original args1 = arg_preserve_original args2 ->
  same_stats (main_run fs args1 (init (config_of args1)))
             (main_run fs args2 (init (config_of args2))).
Proof.
  intros Hi Hf Hb Ho Hp. unfold main_run. rewrite Hi, Hf, Hb, Ho.
  assert (Hfile : forall f,
            same_stats
              (r <- migrate_file f None (init (config_of args1)) ;; Ok (snd r))
              (r <- migrate_file f None (init (config_of args2)) ;; Ok (snd r))).
  { intros f. rewrite <- (set_backup_same f) at 2.
    apply migrate_file_same_stats; [reflexivity|].
    cbn [config init config_of create_backup]. now rewrite Hp. }
  assert (Hdir : forall d,
            same_stats
              (r <- migrate_directory d (arg_output args2) (init (config_of args1)) ;;
               Ok (snd r))
              (r <- migrate_directory d (arg_output args2) (init (config_of args2)) ;;
               Ok (snd r))).
  { intros d.
    pose proof (migrate_directory_same_stats d backup (arg_output args2)
                  (init (config_of args1)) (init (config_of args2)) eq_refl) as H.
    now rewrite same_backups in H. }
  destruct (given (arg_file args2)); [apply Hfile|].
  destruct (given (arg_batch args2)); [apply Hdir|].
  destruct (given (arg_input_path args2)); [|reflexivity].
  destruct (is_file fs _); [apply Hfile | apply Hdir].
Qed.

(** X20: [--no-ai] and [--no-security] change nothing.  [main] stores
    the two flags in the configuration, and nothing reads them: the exit
    status and the printed summary are the same with and without them. *)
Theorem enhancement_flags_not_consulted fs args no_ai no_security :
  main fs (with_flags no_ai no_security args) = main fs args.
Proof.
  unfold main.
  change (arg_input_path (with_flags no_ai no_security args)) with (arg_input_path args).
  change (arg_file (with_flags no_ai no_security args)) with (arg_file args).
  change (arg_batch (with_flags no_ai no_security args)) with (arg_batch args).
  destruct (negb _); [reflexivity|].
  pose proof (main_run_same_stats fs (with_flags no_ai no_security args) args
                eq_refl eq_refl eq_refl eq_refl eq_refl) as H.
  destruct (main_run fs (with_flags no_ai no_security args) _) as [a|e1],
           (main_run fs args _) as [b|e2]; try contradiction; [|reflexivity].
  cbn [same_stats] in H. unfold print_migration_summary. now rewrite H.
Qed.

Lemma main_directory fs args p :
  directory_target fs args = Some p ->
  main fs args
  = match migrate_directory (directory_at fs p) (arg_output args)
            (init (config_of args)) with
    | Ok (_, migrator) => (0%Z, Some (print_migration_summary migrator))
    | Raise _ => (1%Z, None)
    end.
Proof.
  unfold directory_target, main, main_run.
  destruct (given (arg_file args)); [discriminate|].
  destruct (given (arg_batch args)).
  - intros [= <-]. rewrite orb_true_r. cbn [negb].
    now destruct (migrate_directory _ _ _) as [[stats m]|e].
  - destruct (given (arg_input_path args)); [|discriminate]. cbn [orb negb].
    destruct (is_file fs _); [discriminate|]. intros [= <-].
    now destruct (migrate_directory _ _ _) as [[stats m]|e].
Qed.

(** X21: the exit status of a directory run says nothing about the
    files.  When [main] takes the directory branch it ends with status 1 if
    the directory does not exist, and also if the output root has to be
    created and cannot be.  Once the run reaches its loop (the directory
    exists, the output root is there or can be created, the opening lines are
    printed) and the console prints the messages of the handler, [main]
    prints the summary and ends with status 0, whatever happened to the
    files: every file is counted once as migrated, skipped or failed,
    [files_processed] equals [files_migrated], and the success rate is 0 when
    no file was migrated and 100 percent as soon as one was, however many
    failed. *)
Theorem directory_mode_exit_status fs args p :
  directory_target fs args = Some p ->
  (dir_exists (directory_at fs p) = false -> main fs args = (1%Z, None))
  /\ (forall e,
        dir_exists (directory_at fs p) = true ->
        no_output (arg_output args) = false ->
        output_mkdir (directory_at fs p) = Raise e ->
        main fs args = (1%Z, None))
  /\ (starts (directory_at fs p) (arg_output args) ->
      prints_errors (directory_at fs p) ->
      exists s,
        main fs args = (0%Z, Some s)
        /\ shown_migrated s + shown_skipped s + shown_errors s
           = length (yaml_files (directory_at fs p))
        /\ shown_processed s = shown_migrated s
        /\ rate_numerator s
           = (if (shown_migrated s =? 0)%nat then 0 else rate_denominator s)).
Proof.
  intros Ht. rewrite (main_directory fs args p Ht).
  split; [|split].
  - unfold migrate_directory. now intros ->.
  - intros e Hd Ho He. unfold migrate_directory. now rewrite Hd, Ho, He.
  - intros Hs Hp.
    rewrite (OrchestratorProps.run_from_start _ _ _ Hs),
      (OrchestratorProps.loop_printed _ _ _ _ Hp). cbn [Py.bind].
    set (root := output_path (directory_at fs p) (arg_output args)).
    set (files := yaml_files (directory_at fs p)).
    set (self := init (config_of args)).
    pose proof (OrchestratorProps.run_accounted root files self) as Hacc.
    assert (Hagree : counters_agree (fold_left (migrate_directory_step root) files self))
      by now apply OrchestratorProps.run_counters_agree.
    unfold accounted in Hacc. unfold counters_agree in Hagree.
    eexists. split; [reflexivity|].
    unfold print_migration_summary.
    cbn [shown_migrated shown_skipped shown_errors shown_processed rate_numerator
         rate_denominator].
    split; [exact Hacc|]. split; [exact Hagree|].
    rewrite Hagree.
    destruct (files_migrated _) as [|n]; [reflexivity|].
    cbn [Nat.eqb]. lia.
Qed.

Lemma directory_mode_exit_status_witness :
  (exists s,
     main (sample_fs failing_dir ValidationRunSpec.missing_file) (batch_args true)
     = (0%Z, Some s)
     /\ shown_errors s = 2 /\ shown_migrated s = 0 /\ rate_numerator s = 0)
  /\ main (sample_fs blocked_output_dir ValidationRunSpec.missing_file)
          (batch_to "out") = (1%Z, None).
Proof.
  split.
  - destruct (directory_mode_exit_status
                (sample_fs failing_dir ValidationRunSpec.missing_file)
                (batch_args true) "caps" eq_refl) as (_ & _ & H).
    assert (Hs : starts failing_dir None) by (repeat split).
    destruct (H Hs (fun _ => eq_refl)) as (s & Hrun & _).
    exists s. split; [exact Hrun|].
    vm_compute in Hrun. injection Hrun as <-. repeat split.
  - destruct (directory_mode_exit_status
                (sample_fs blocked_output_dir ValidationRunSpec.missing_file)
                (batch_to "out") "caps" eq_refl) as (_ & H & _).
    exact (H OSError eq_refl eq_refl eq_refl).
Defined.


End CommandLineProps.

(* ===================================================================== *)
(** ** What the in-place enhancement leaves alone                         *)
(* ===================================================================== *)
Module InPlaceFrameProps.
Import Heap InPlace InPlaceFrameSpec.

Lemma field_get_set_same d k v : field_get (field_set d k v) k = Some v.
Proof.
  induction d as [|[k' v'] d IH]; cbn [field_set field_get].
  - now rewrite String.eqb_refl.
  - destruct (String.eqb k' k) eqn:E; cbn [field_get]; rewrite E; [reflexivity | exact IH].
Qed.

Lemma field_get_set_other d k k' v :
  k <> k' -> field_get (field_set d k v) k' = field_get d k'.
Proof.
  intros Hne. induction d as [|[k0 v0] d IH]; cbn [field_set field_get].
  - destruct (String.eqb k k') eqn:E; [apply String.eqb_eq in E; contradiction | reflexivity].
  - destruct (String.eqb k0 k) eqn:E; cbn [field_get].
    + apply String.eqb_eq in E. subst k0.
      destruct (String.eqb k k') eqn:E'; [apply String.eqb_eq in E'; contradiction|].
      reflexivity.
    + destruct (String.eqb k0 k'); [reflexivity | exact IH].
Qed.

Lemma preserved_refl h : preserved h h.
Proof.
  split; [lia|]. intros x [d|rs] Hx; [|exact Hx]. now exists d.
Qed.

Lemma preserved_trans h1 h2 h3 : preserved h1 h2 -> preserved h2 h3 -> preserved h1 h3.
Proof.
  intros [L12 H12] [L23 H23]. split; [lia|].
  intros x [d|rs] Hx.
  - destruct (H12 x _ Hx) as (d2 & Hx2 & Hd2).
    destruct (H23 x _ Hx2) as (d3 & Hx3 & Hd3).
    exists d3. split; [exact Hx3|]. intros k Hk. now rewrite Hd3, Hd2.
  - apply (H23 x (OList rs)). exact (H12 x (OList rs) Hx).
Qed.

Lemma preserved_alloc h o : preserved h (h ++ [o]).
Proof.
  split; [rewrite length_app; lia|].
  intros x [d|rs] Hx.
  - exists d. split; [now apply lookup_app_l_Some | reflexivity].
  - now apply lookup_app_l_Some.
Qed.

Lemma preserved_set_validation h q cfg v :
  h !! q = Some (ODict cfg) ->
  preserved h (<[q := ODict (field_set cfg "validation" v)]> h).
Proof.
  intros Hq. split; [now rewrite length_insert|].
  intros x o Hx. destruct (decide (x = q)) as [->|Hne].
  - rewrite Hq in Hx. injection Hx as <-.
    exists (field_set cfg "validation" v). split.
    + apply list_lookup_insert_eq. now apply lookup_lt_Some in Hq.
    + intros k Hk. apply field_get_set_other. congruence.
  - rewrite list_lookup_insert_ne by congruence.
    destruct o as [d|rs]; [now exists d | exact Hx].
Qed.

Lemma set_validation_preserved h q cfg validation :
  h !! q = Some (ODict cfg) -> preserved h (set_validation h q cfg validation).
Proof.
  intros Hq. unfold set_validation, alloc.
  eapply preserved_trans; [apply preserved_alloc|].
  apply preserved_set_validation. now apply lookup_app_l_Some.
Qed.

Lemma enhance_property_preserved h prop_name prop_config :
  preserved h (enhance_property h prop_name prop_config).
Proof.
  unfold enhance_property.
  destruct prop_config as [| | | |q]; try apply preserved_refl.
  destruct (h !! q) as [[cfg|rs]|] eqn:Hq; try apply preserved_refl.
  destruct (PyStr.contains "path" _); [now apply set_validation_preserved|].
  destruct (PyStr.contains "content" _); [now apply set_validation_preserved|].
  apply preserved_refl.
Qed.

Lemma items_loop_preserved steps i size p h h' :
  items_loop steps i size p h = Ok h' -> preserved h h'.
Proof.
  revert i h. induction steps as [|steps IH]; intros i h; cbn [items_loop].
  - destruct (h !! p) as [[properties|rs]|]; try discriminate.
    destruct (negb _); [discriminate|]. intros [= <-]. apply preserved_refl.
  - destruct (h !! p) as [[properties|rs]|]; try discriminate.
    destruct (negb _); [discriminate|].
    destruct (properties !! i) as [[prop_name prop_config]|].
    + intros H. eapply preserved_trans; [apply enhance_property_preserved|].
      exact (IH _ _ H).
    + intros [= <-]. apply preserved_refl.
Qed.

(** X23: what the call leaves of the objects it was given.  Whenever
    [_enhance_input_schema] returns, on any store, the result is a dictionary
    at a new location with [additionalProperties] false and, apart from that
    entry and [validation], the entries of the legacy dictionary themselves:
    the same references, so the properties are shared and not copied.  The
    objects that existed before are changed in one way only: a dictionary may
    have received a [validation] entry.  Lists and all other entries are as
    they were, and the legacy dictionary never receives
    [additionalProperties]. *)
Theorem enhance_input_schema_shares_objects h legacy h' enhanced :
  _enhance_input_schema h legacy = Ok (h', enhanced) ->
  exists l d e,
    legacy = RRef l /\ h !! l = Some (ODict d)
    /\ enhanced = RRef (length h) /\ h' !! length h = Some (ODict e)
    /\ field_get e "additionalProperties" = Some (RBool false)
    /\ (forall k, k <> "validation" -> k <> "additionalProperties" ->
          field_get e k = field_get d k)
    /\ preserved h h'.
Proof.
  unfold _enhance_input_schema.
  destruct legacy as [| | | |l]; try discriminate.
  destruct (h !! l) as [[d|rs]|] eqn:Hl; try discriminate.
  unfold alloc. intros H.
  apply PyFacts.bind_ok in H as [h2 [Hloop H]].
  assert (Hp : preserved (h ++ [ODict d]) h2).
  { destruct (field_get d "properties") as [[| | | |p]|]; try discriminate.
    - destruct ((h ++ [ODict d]) !! p) as [[properties|rs]|]; try discriminate.
      exact (items_loop_preserved _ _ _ _ _ _ Hloop).
    - injection Hloop as <-. apply preserved_refl. }
  destruct Hp as [Hlen Hp].
  assert (Hnew : (h ++ [ODict d]) !! length h = Some (ODict d)).
  { rewrite lookup_app_r by lia. now rewrite Nat.sub_diag. }
  destruct (Hp _ _ Hnew) as (e & He & Hed).
  rewrite He in H. injection H as <- <-.
  rewrite length_app in Hlen. cbn [length] in Hlen.
  exists l, d, (field_set e "additionalProperties" (RBool false)).
  split; [reflexivity|]. split; [exact Hl|]. split; [reflexivity|].
  split; [apply list_lookup_insert_eq; lia|].
  split; [apply field_get_set_same|].
  split.
  { intros k Hv Ha. rewrite field_get_set_other by congruence. now apply Hed. }
  split; [rewrite length_insert; lia|].
  intros x o Hx. pose proof (lookup_lt_Some _ _ _ Hx) as Lx.
  rewrite list_lookup_insert_ne by lia.
  apply (Hp x o). now apply lookup_app_l_Some.
Qed.

Lemma enhance_input_schema_shares_objects_witness :
  _enhance_input_schema InPlaceSpec.loaded InPlaceSpec.legacy_ref = Ok after_call
  /\ exists l d e,
       InPlaceSpec.legacy_ref = RRef l /\ InPlaceSpec.loaded !! l = Some (ODict d)
       /\ snd after_call = RRef (length InPlaceSpec.loaded)
       /\ fst after_call !! length InPlaceSpec.loaded = Some (ODict e)
       /\ field_get e "additionalProperties" = Some (RBool false)
       /\ (forall k, k <> "validation" -> k <> "additionalProperties" ->
             field_get e k = field_get d k)
       /\ preserved InPlaceSpec.loaded (fst after_call).
Proof.
  split; [vm_compute; reflexivity|].
  apply (enhance_input_schema_shares_objects InPlaceSpec.loaded InPlaceSpec.legacy_ref).
  vm_compute. reflexivity.
Defined.

(** One iteration of the loop: the store grows, and the objects other than
    the configuration it is handed are as before. *)
Lemma enhance_property_grows h prop_name prop_config :
  length h <= length (enhance_property h prop_name prop_config).
Proof. exact (proj1 (enhance_property_preserved h prop_name prop_config)). Qed.

Lemma set_validation_other h q cfg validation x :
  x < length h -> x <> q -> set_validation h q cfg validation !! x = h !! x.
Proof.
  intros Hx Hne. unfold set_validation, alloc.
  rewrite list_lookup_insert_ne by congruence. now apply lookup_app_l.
Qed.

Lemma enhance_property_other h prop_name prop_config x :
  x < length h -> prop_config <> RRef x ->
  enhance_property h prop_name prop_config !! x = h !! x.
Proof.
  intros Hx Hne. unfold enhance_property.
  destruct prop_config as [| | | |q]; try reflexivity.
  destruct (h !! q) as [[cfg|rs]|]; try reflexivity.
  assert (x <> q) by congruence.
  destruct (PyStr.contains "path" _); [now apply set_validation_other|].
  destruct (PyStr.contains "content" _); [now apply set_validation_other|].
  reflexivity.
Qed.

Lemma enhance_property_at h prop_name q cfg :
  h !! q = Some (ODict cfg) ->
  enhance_property h prop_name (RRef q)
  = match validation_for prop_name with
    | Some rules =>
        <[q := ODict (field_set cfg "validation" (RRef (length h)))]> (h ++ [ODict rules])
    | None => h
    end.
Proof.
  intros Hq. unfold enhance_property, validation_for. rewrite Hq.
  destruct (PyStr.contains "path" _); [reflexivity|].
  now destruct (PyStr.contains "content" _).
Qed.

Lemma config_refs_app b a : config_refs (b ++ a) = config_refs b ++ config_refs a.
Proof. unfold config_refs. apply flat_map_app. Qed.

Lemma config_refs_In properties prop_name r :
  In (prop_name, RRef r) properties -> In r (config_refs properties).
Proof.
  intros H. unfold config_refs. apply in_flat_map.
  exists (prop_name, RRef r). split; [exact H | now left].
Qed.

Lemma filter_none q l : List.filter (Nat.eqb q) l = [] -> ~ In q l.
Proof.
  intros H Hin.
  assert (Hq : In q (List.filter (Nat.eqb q) l))
    by (apply filter_In; split; [exact Hin | apply Nat.eqb_refl]).
  now rewrite H in Hq.
Qed.

(** What [sole_owner] says, entry by entry. *)
Lemma sole_owner_entries h p q properties prop_name :
  sole_owner h p q properties = true ->
  In (prop_name, RRef q) properties ->
  exists i,
    properties !! i = Some (prop_name, RRef q)
    /\ (forall j n c, properties !! j = Some (n, c) -> j <> i -> c <> RRef q)
    /\ (forall j n r, properties !! j = Some (n, RRef r) -> r < length h /\ r <> p).
Proof.
  unfold sole_owner. intros H Hin.
  apply andb_true_iff in H as [Hone Hrefs]. apply Nat.eqb_eq in Hone.
  destruct (in_split _ _ Hin) as (b & a & ->).
  rewrite config_refs_app in Hone.
  change (config_refs ((prop_name, RRef q) :: a)) with (q :: config_refs a) in Hone.
  rewrite List.filter_app in Hone. cbn [List.filter] in Hone.
  rewrite Nat.eqb_refl, length_app in Hone. cbn [length] in Hone.
  assert (Hb : ~ In q (config_refs b))
    by (apply filter_none; destruct (List.filter _ (config_refs b)); [easy | simpl in Hone; lia]).
  assert (Ha : ~ In q (config_refs a))
    by (apply filter_none; destruct (List.filter _ (config_refs a)); [easy | simpl in Hone; lia]).
  exists (length b). split; [|split].
  - now apply list_lookup_middle.
  - intros j n c Hj Hne ->.
    destruct (Nat.lt_ge_cases j (length b)) as [Hlt | Hge].
    + rewrite lookup_app_l in Hj by exact Hlt.
      apply Hb. apply (config_refs_In _ n). apply list_elem_of_In.
      now apply list_elem_of_lookup_2 in Hj.
    + rewrite lookup_app_r in Hj by exact Hge.
      destruct (j - length b) as [|k] eqn:Hk; [lia|]. cbn in Hj.
      apply Ha. apply (config_refs_In _ n). apply list_elem_of_In.
      now apply list_elem_of_lookup_2 in Hj.
  - intros j n r Hj.
    apply list_elem_of_lookup_2, list_elem_of_In, config_refs_In in Hj.
    rewrite forallb_forall in Hrefs. specialize (Hrefs r Hj).
    apply andb_true_iff in Hrefs as [Hlt Hp].
    apply Nat.ltb_lt in Hlt. apply negb_true_iff, Nat.eqb_neq in Hp. now split.
Qed.

(** The loop, from the iteration [k] on. *)
Lemma items_loop_in_place n properties p q cfg prop_name i :
  properties !! i = Some (prop_name, RRef q) ->
  (forall j n' c, properties !! j = Some (n', c) -> j <> i -> c <> RRef q) ->
  (forall j n' r, properties !! j = Some (n', RRef r) -> r < n /\ r <> p) ->
  q < n ->
  forall steps k h h',
    steps + k = length properties ->
    n < length h ->
    h !! p = Some (ODict properties) ->
    (k <= i -> h !! q = Some (ODict cfg)) ->
    (i < k -> exists v', v' < length h /\ enhanced_in_place n h prop_name q cfg
                         /\ (forall rules, validation_for prop_name = Some rules ->
                               exists v, n < v /\ v < length h
                                         /\ h !! v = Some (ODict rules)
                                         /\ h !! q = Some (ODict (field_set cfg "validation"
                                                                    (RRef v))))) ->
    items_loop steps k (length properties) p h = Ok h' ->
    n < length h' /\ enhanced_in_place n h' prop_name q cfg.
Proof.
  intros Hi Hother Hrefs Hq.
  pose proof (lookup_lt_Some _ _ _ Hi) as Li.
  induction steps as [|steps IH]; intros k h h' Hsum Hn Hp Hbefore Hafter;
    cbn [items_loop]; rewrite Hp, Nat.eqb_refl; cbn [negb].
  - intros [= <-]. split; [exact Hn|].
    destruct (Hafter ltac:(lia)) as (_ & _ & H & _). exact H.
  - destruct (properties !! k) as [[n' c]|] eqn:Hk;
      [|apply lookup_ge_None in Hk; lia].
    pose proof (lookup_lt_Some _ _ _ Hp) as Lp.
    assert (Hcp : c <> RRef p).
    { intros ->. destruct (Hrefs _ _ _ Hk) as [_ Hne]. now apply Hne. }
    apply IH.
    + lia.
    + pose proof (enhance_property_grows h n' c). lia.
    + rewrite enhance_property_other by assumption. exact Hp.
    + intros Hle. rewrite enhance_property_other; [apply Hbefore; lia | lia |].
      apply (Hother k n'); [exact Hk | lia].
    + intros Hlt.
      assert (Hstate :
                forall rules, validation_for prop_name = Some rules ->
                  exists v, n < v /\ v < length (enhance_property h n' c)
                    /\ enhance_property h n' c !! v = Some (ODict rules)
                    /\ enhance_property h n' c !! q
                       = Some (ODict (field_set cfg "validation" (RRef v)))).
      { intros rules Hrules.
        destruct (Nat.eq_dec k i) as [->|Hne].
        - rewrite Hi in Hk. injection Hk as <- <-.
          rewrite (enhance_property_at h prop_name q cfg (Hbefore (Nat.le_refl i))), Hrules.
          exists (length h). split; [exact Hn|].
          split; [rewrite length_insert, length_app; simpl; lia|].
          split.
          + rewrite list_lookup_insert_ne by lia.
            rewrite lookup_app_r by lia. now rewrite Nat.sub_diag.
          + apply list_lookup_insert_eq. rewrite length_app. simpl. lia.
        - destruct (Hafter ltac:(lia)) as (_ & _ & _ & H).
          destruct (H rules Hrules) as (v & Hv & Lv & Hvo & Hqo).
          exists v. split; [exact Hv|].
          pose proof (enhance_property_grows h n' c).
          split; [lia|].
          split.
          + rewrite enhance_property_other; [exact Hvo | exact Lv |].
            intros ->. destruct (Hrefs _ _ _ Hk) as [Hr _]. lia.
          + rewrite enhance_property_other; [exact Hqo | lia |].
            apply (Hother k n'); [exact Hk | exact Hne]. }
      assert (Hnone : validation_for prop_name = None ->
                      enhance_property h n' c !! q = Some (ODict cfg)).
      { intros Hnone.
        destruct (Nat.eq_dec k i) as [->|Hne].
        - rewrite Hi in Hk. injection Hk as <- <-.
          rewrite (enhance_property_at h prop_name q cfg (Hbefore (Nat.le_refl i))), Hnone.
          now apply Hbefore.
        - destruct (Hafter ltac:(lia)) as (_ & _ & H & _).
          unfold enhanced_in_place in H. rewrite Hnone in H.
          rewrite enhance_property_other; [exact H | lia |].
          apply (Hother k n'); [exact Hk | exact Hne]. }
      exists 0. split; [pose proof (enhance_property_grows h n' c); lia|].
      split; [|exact Hstate].
      unfold enhanced_in_place.
      destruct (validation_for prop_name) as [rules|] eqn:Hrules.
      * destruct (Hstate rules eq_refl) as (v & Hv & _ & Hvo & Hqo).
        now exists v.
      * now apply Hnone.
Qed.

(** X9: what [_enhance_input_schema] does to one property, in place.  Take
    a property whose configuration is a dictionary that no alias reaches: it
    configures this property only.  Whenever the call returns, that
    dictionary, the one the legacy schema holds, has the path rules as
    [validation] when the name of the property contains path in any case,
    else the content rules when it contains content: an existing [validation]
    entry is overwritten, a name with both gets the path rules only, every
    other entry is kept, and the rules are a new object.  For any other name
    the dictionary is as it was.  Without the condition on aliases none of
    this holds: a dictionary that two properties share is changed through
    either of them. *)
Theorem enhanced_property_in_place h l d p properties prop_name q cfg h' enhanced :
  h !! l = Some (ODict d) ->
  field_get d "properties" = Some (RRef p) ->
  h !! p = Some (ODict properties) ->
  In (prop_name, RRef q) properties ->
  h !! q = Some (ODict cfg) ->
  sole_owner h p q properties = true ->
  _enhance_input_schema h (RRef l) = Ok (h', enhanced) ->
  enhanced_in_place (length h) h' prop_name q cfg.
Proof.
  intros Hl Hd Hp Hin Hq Hsole H.
  destruct (sole_owner_entries h p q properties prop_name Hsole Hin)
    as (i & Hi & Hother & Hrefs).
  pose proof (lookup_lt_Some _ _ _ Hq) as Lq.
  unfold _enhance_input_schema in H. rewrite Hl in H. unfold alloc in H.
  rewrite Hd in H. rewrite (lookup_app_l_Some _ _ _ _ Hp) in H.
  apply PyFacts.bind_ok in H as [h2 [Hloop H]].
  destruct (items_loop_in_place (length h) properties p q cfg prop_name i
              Hi Hother Hrefs Lq (length properties) 0 (h ++ [ODict d]) h2)
    as [Hlen Hdone].
  - lia.
  - rewrite length_app. simpl. lia.
  - now apply lookup_app_l_Some.
  - intros _. now apply lookup_app_l_Some.
  - lia.
  - exact Hloop.
  - destruct (h2 !! length h) as [[e|rs]|]; try discriminate.
    injection H as <- _.
    unfold enhanced_in_place in *.
    destruct (validation_for prop_name) as [rules|].
    + destruct Hdone as (v & Hv & Hvo & Hqo). exists v.
      split; [exact Hv|].
      split; rewrite list_lookup_insert_ne by lia; assumption.
    + rewrite list_lookup_insert_ne by lia. exact Hdone.
Qed.

Lemma enhanced_property_in_place_witness :
  sample_store !! 0 = Some (ODict [("type", RStr "string");
                                   ("validation", RStr "legacy rule")])
  /\ enhanced_in_place 5 sample_after "file_path" 0
       [("type", RStr "string"); ("validation", RStr "legacy rule")]
  /\ enhanced_in_place 5 sample_after "mode" 2
       [("type", RStr "string"); ("default", RStr "r")].
Proof.
  split; [reflexivity|]. split.
  - eapply (enhanced_property_in_place sample_store 4 _ 3 _ "file_path" 0 _
              sample_after (RRef 5));
      [reflexivity | reflexivity | reflexivity | now left | reflexivity
      | reflexivity | vm_compute; reflexivity].
  - eapply (enhanced_property_in_place sample_store 4 _ 3 _ "mode" 2 _
              sample_after (RRef 5));
      [reflexivity | reflexivity | reflexivity | right; right; now left | reflexivity
      | reflexivity | vm_compute; reflexivity].
Defined.

(** With an alias the condition fails and so does the conclusion: the
    property [mode], whose name selects no rules, shares its configuration
    with [file_path], and the call leaves the path rules in it. *)
Example shared_configuration_is_changed :
  sole_owner aliased_store 1 0 [("file_path", RRef 0); ("mode", RRef 0)] = false
  /\ aliased_store !! 0 = Some (ODict [("type", RStr "string")])
  /\ aliased_after !! 0
     = Some (ODict [("type", RStr "string"); ("validation", RRef 4)])
  /\ validation_for "mode" = None.
Proof. repeat split. Qed.
End InPlaceFrameProps.

(* ===================================================================== *)
(** ** Parameters, labels and sandboxes                                   *)
(* ===================================================================== *)
Module ToolDetailProps.
Import YamlMigrationTool ManifestSpec ValidatorSpec RoundTripSpec.

Lemma dict_set_new d k v : dict_has d k = false -> dict_set d k v = d ++ [(k, v)].
Proof.
  unfold dict_has. induction d as [|[k' v'] d IH]; [reflexivity|].
  cbn [dict_get dict_set]. destruct (String.eqb k' k); [discriminate|].
  intros H. cbn [app]. now rewrite IH.
Qed.

Lemma dict_has_keys d k : dict_has d k = true <-> In k (map fst d).
Proof.
  unfold dict_has. induction d as [|[k' v'] d IH]; [easy|].
  cbn [dict_get map fst In]. destruct (String.eqb k' k) eqn:E.
  - apply String.eqb_eq in E. subst. tauto.
  - rewrite IH. split; [tauto|]. intros [Hk | Hin]; [|exact Hin].
    subst. now rewrite String.eqb_refl in E.
Qed.

Lemma parameter_loop_entries its acc :
  NoDup (map fst acc ++ map fst its) ->
  Forall (fun item => is_dict (snd item) = true) its ->
  exists new,
    parameter_intelligence_loop its acc = Ok (acc ++ new)
    /\ map fst new = map fst its
    /\ forall name cfg, In (name, VDict cfg) its -> In (name, entry_of name cfg) new.
Proof.
  revert acc. induction its as [|[name c] its IH]; intros acc Hnd Hall.
  - exists []. rewrite app_nil_r. repeat split. intros ? ? [].
  - apply Forall_cons_iff in Hall as [Hc Hall]. cbn [snd] in Hc.
    destruct c as [| | | | |cfg]; try discriminate.
    cbn [parameter_intelligence_loop get Py.bind].
    assert (Hfresh : dict_has acc name = false).
    { destruct (dict_has acc name) eqn:E; [|reflexivity].
      apply dict_has_keys in E. apply NoDup_app in Hnd as (_ & Hd & _).
      exfalso. apply (Hd name); [now apply list_elem_of_In|].
      apply list_elem_of_In. now left. }
    rewrite (dict_set_new _ _ _ Hfresh).
    destruct (IH (acc ++ [(name, entry_of name cfg)])) as (new & Hloop & Hkeys & Hin).
    { rewrite map_app. cbn [map fst]. rewrite <- app_assoc. exact Hnd. }
    { exact Hall. }
    exists ((name, entry_of name cfg) :: new).
    split; [|split].
    + unfold entry_of, dict_or in Hloop. rewrite Hloop. now rewrite <- app_assoc.
    + cbn [map fst]. now rewrite Hkeys.
    + intros n cf [Heq | Hi]; [injection Heq as -> ->; now left | right; now apply Hin].
Qed.

Lemma dict_get_unique d k v :
  NoDup (map fst d) -> In (k, v) d -> dict_get d k = Some v.
Proof.
  induction d as [|[k' v'] d IH]; [easy|].
  cbn [map fst dict_get]. intros Hnd [Heq | Hin].
  - injection Heq as -> ->. now rewrite String.eqb_refl.
  - apply NoDup_cons in Hnd as [Hk Hnd].
    destruct (String.eqb k' k) eqn:E; [|now apply IH].
    apply String.eqb_eq in E. subst k'. exfalso. apply Hk. apply list_elem_of_In.
    exact (in_map fst d (k, v) Hin).
Qed.

Lemma parameter_loop_returned its acc r :
  parameter_intelligence_loop its acc = Ok r ->
  Forall (fun item => is_dict (snd item) = true) its.
Proof.
  revert acc. induction its as [|[name c] its IH]; intros acc H; [constructor|].
  cbn [parameter_intelligence_loop] in H.
  destruct c as [| | | | |cfg]; try discriminate.
  cbn [get Py.bind] in H. constructor; [reflexivity | exact (IH _ H)].
Qed.

(** X24: the parameter intelligence of a schema.  Whenever
    [_create_parameter_intelligence] returns on a schema whose properties have
    distinct names, every property is configured by a mapping, and the result
    has one entry for each property, under its name and in the order of the
    properties.  The entry holds the [default] of the property as
    [smart_default], [None] when it has none, and a validation rule, and
    suggestions for paths exactly when the name contains path in any case. *)
Theorem parameter_intelligence_entries d props pi :
  dict_get d "properties" = Some (VDict props) ->
  NoDup (map fst props) ->
  _create_parameter_intelligence (VDict d) = Ok pi ->
  Forall (fun item => is_dict (snd item) = true) props
  /\ keys pi = map fst props
  /\ forall name cfg,
       get_path (VDict d) ["properties"; name] = Some (VDict cfg) ->
       get_path pi [name; "smart_default"]
       = Some (dict_or (dict_get cfg "default") VNone)
       /\ keys_at pi [name] = Some (parameter_entry_keys name).
Proof.
  intros Hd Hnd Hpi.
  unfold _create_parameter_intelligence in Hpi. cbn [get Py.bind] in Hpi.
  rewrite Hd in Hpi. cbn [items Py.bind] in Hpi.
  apply PyFacts.bind_ok in Hpi as [r [Hr Hpi]]. injection Hpi as <-.
  pose proof (parameter_loop_returned props [] r Hr) as Hall.
  destruct (parameter_loop_entries props [] Hnd Hall) as (new & Hloop & Hkeys & Hin).
  rewrite Hloop in Hr. injection Hr as <-. cbn [app].
  split; [exact Hall|]. split; [exact Hkeys|].
  intros name cfg Hname.
  change (get_path (VDict d) ["properties"; name])
    with (match dict_get d "properties" with
          | Some x => get_path x [name]
          | None => None
          end) in Hname.
  rewrite Hd, ToolPartsProps.get_path_one in Hname.
  assert (Hcfg : In (name, VDict cfg) props).
  { clear -Hname. induction props as [|[k v] props IH]; [discriminate|].
    cbn [dict_get] in Hname. destruct (String.eqb k name) eqn:E.
    - apply String.eqb_eq in E. subst k. left. now injection Hname as ->.
    - right. now apply IH. }
  assert (Hentry : dict_get new name = Some (entry_of name cfg)).
  { apply dict_get_unique; [now rewrite Hkeys | now apply Hin]. }
  unfold keys_at. cbn [get_path]. rewrite Hentry.
  unfold entry_of, parameter_entry_keys.
  destruct (PyStr.contains "path" (PyStr.lower name)); split; reflexivity.
Qed.

Lemma parameter_intelligence_entries_witness :
  exists pi,
    _create_parameter_intelligence (VDict sample_schema) = Ok pi
    /\ keys pi = ["file_path"; "content_path"; "mode"]
    /\ get_path pi ["mode"; "smart_default"] = Some (VStr "r")
    /\ get_path pi ["file_path"; "smart_default"] = Some VNone
    /\ keys_at pi ["mode"] = Some ["smart_default"; "validation"].
Proof.
  assert (Hnd : NoDup ["file_path"; "content_path"; "mode"])
    by (repeat constructor; rewrite list_elem_of_In; simpl; intuition discriminate).
  eexists. split; [vm_compute; reflexivity|].
  destruct (parameter_intelligence_entries sample_schema _ _ eq_refl Hnd eq_refl)
    as (_ & Hk & He).
  split; [exact Hk|].
  destruct (He "mode" _ eq_refl) as [Hm Hmk].
  destruct (He "file_path" _ eq_refl) as [Hf _].
  repeat split; assumption.
Defined.

(** X25: the fallback labels go together.  A tool gets the intent
    [general_operation] exactly when its operations are the placeholder
    [operate], and a file gets the domain [general] exactly when its use cases
    are [general_purpose]: the two tables of each pair have the same keys in
    the same order, and no entry of a table equals the fallback. *)
Theorem fallback_labels_agree tool_name file_stem metadata :
  (_determine_intent tool_name = "general_operation"
   <-> _determine_operations tool_name = ["operate"])
  /\ forall security_level complexity_level domain use_cases,
       _classify_capability file_stem metadata
       = Ok (security_level, complexity_level, domain, use_cases) ->
       (domain = "general" <-> use_cases = ["general_purpose"]).
Proof.
  split.
  - unfold _determine_intent, _determine_operations, intent_mapping, operation_keywords.
    cbn [first_match].
    repeat (destruct (PyStr.contains _ (PyStr.lower tool_name));
            [split; intros H; discriminate H|]).
    split; reflexivity.
  - intros sl cx dom uc H. unfold _classify_capability in H.
    apply PyFacts.bind_ok in H as [tools [_ H]].
    apply PyFacts.bind_ok in H as [n [_ H]].
    injection H as _ _ <- <-.
    unfold domain_mapping, use_case_mapping. cbn [first_match].
    repeat (destruct (PyStr.contains _ (PyStr.lower file_stem));
            [split; intros H; discriminate H|]).
    split; reflexivity.
Qed.

Lemma fallback_labels_agree_witness :
  _determine_intent "ping" = "general_operation"
  /\ _determine_operations "ping" = ["operate"]
  /\ _determine_operations "read_file" <> ["operate"].
Proof.
  split; [reflexivity|]. split.
  - exact (proj1 (proj1 (fallback_labels_agree "ping" "net_tools" (VDict []))) eq_refl).
  - intros H.
    pose proof (proj2 (proj1 (fallback_labels_agree "read_file" "net_tools" (VDict []))) H)
      as Hi.
    discriminate Hi.
Defined.

Lemma migrated_tool_sandbox t et :
  _migrate_tool_to_enhanced t = Ok et -> sandbox_by_classification et.
Proof.
  intros H.
  destruct (MigratedManifestProps.migrated_tool_shape t et H)
    as (d & name & ? & ? & cls & ? & ? & ? & _ & _ & Hcls & ->).
  exists cls.
  destruct (MigratedManifestProps.tool_classification_cases _ _ Hcls)
    as [-> | [-> | [-> | ->]]];
    (split; [reflexivity|]); (split; [simpl; tauto|]); repeat split.
Qed.

(** X26: the sandbox of a migrated tool follows its classification.
    Dangerous tools get the smallest memory and time limits and privileged
    tools the largest memory limit; the file patterns and the network are
    restricted for the classification restricted only, so that the sandbox of
    a dangerous or privileged tool has no [filesystem] and no [network]
    entry. *)
Theorem migrated_tools_sandbox L file_stem E :
  _migrate_yaml_content L file_stem = Ok E ->
  Forall sandbox_by_classification (tools_of E).
Proof.
  apply MigratedManifestProps.Forall_migrated_tools. exact migrated_tool_sandbox.
Qed.

Lemma migrated_delete_eq :
  _migrate_yaml_content delete_manifest "cleanup" = Ok migrated_delete.
Proof. vm_compute. reflexivity. Qed.

Lemma migrated_tools_sandbox_witness :
  Forall sandbox_by_classification (tools_of migrated_delete)
  /\ tool_names migrated_delete = [Some (VStr "enhanced_delete_file")].
Proof.
  split; [|reflexivity].
  exact (migrated_tools_sandbox _ _ _ migrated_delete_eq).
Defined.
End ToolDetailProps.
